(** * FRED experiment driver and SEIR plotting helpers: a shallow embedding

    The Python sources modelled here are [FRED/main.py] (parameter files,
    configuration resolution, the inference driver) and
    [SEIR_ODE/examples/plotting.py] (selection of the simulations that are
    drawn).  Every definition carries the name of the Python function it
    follows and is written in the order of the Python statements. *)

From Stdlib Require Import ZArith QArith String Ascii List Bool Lia.
From Stdlib Require Import Floats.SpecFloat.
From stdpp Require Import base option list strings gmap.

Local Open Scope string_scope.
Local Open Scope list_scope.

(** ** Python values, exceptions and results *)

(** The exceptions that the modelled statements can raise.  A value of this
    type stands for an instance of a subclass of Python's [Exception]. *)
Inductive exn : Type :=
  | FileNotFoundError (path : string)
  | IndexError
  | KeyError (key : string)
  | ValueError
  | OverflowError
  | TypeError
  | AssertionError
  | UnboundLocalError (name : string)
  | NotImplementedError
  | PlainException (msg : string).

Inductive result (A : Type) : Type :=
  | Ok (a : A)
  | Raise (e : exn).
Arguments Ok {A} a.
Arguments Raise {A} e.

Global Instance result_ret : MRet result := fun _ a => Ok a.
Global Instance result_bind : MBind result := fun _ _ f r =>
  match r with
  | Ok a => f a
  | Raise e => Raise e
  end.

Global Instance result_fmap : FMap result := fun _ _ f r =>
  match r with
  | Ok a => Ok (f a)
  | Raise e => Raise e
  end.

(** The values stored in parameter mappings: text read from a file, an
    integer injected by the configuration, or a sampled float. *)
Inductive pyval : Type :=
  | VStr (s : string)
  | VInt (z : Z)
  | VFloat (f : spec_float).

(** ** Python [str] operations

    A [string] is read as a sequence of code points below 256. *)
Module PyStr.

(** [str.isspace] on one code point (the members below 256). *)
Definition is_space (c : ascii) : bool :=
  let n := nat_of_ascii c in
  ((9 <=? n) && (n <=? 13) || (28 <=? n) && (n <=? 32)
   || (n =? 133) || (n =? 160))%nat.

Fixpoint lstrip (s : string) : string :=
  match s with
  | EmptyString => EmptyString
  | String c s' => if is_space c then lstrip s' else s
  end.

Fixpoint rstrip (s : string) : string :=
  match s with
  | EmptyString => EmptyString
  | String c s' =>
      match rstrip s' with
      | EmptyString => if is_space c then EmptyString else String c EmptyString
      | r => String c r
      end
  end.

(** [s.strip()] *)
Definition strip (s : string) : string := rstrip (lstrip s).

(** [s.startswith(p)] *)
Fixpoint startswith (s p : string) : bool :=
  match p, s with
  | EmptyString, _ => true
  | String _ _, EmptyString => false
  | String a p', String b s' => if Ascii.eqb a b then startswith s' p' else false
  end.

(** [s.split(sep)] for a separator of one character: the text is cut at
    every occurrence of [sep]; the result always has at least one part. *)
Fixpoint split (sep : ascii) (s : string) : list string :=
  match s with
  | EmptyString => [EmptyString]
  | String c s' =>
      if Ascii.eqb c sep then EmptyString :: split sep s'
      else match split sep s' with
           | h :: t => String c h :: t
           | [] => [String c EmptyString]
           end
  end.

Definition LF : ascii := ascii_of_nat 10.
Definition CR : ascii := ascii_of_nat 13.
Definition DQUOTE : ascii := ascii_of_nat 34.

(** Text mode with the default [newline=None]: on input, "\r\n" and a lone
    "\r" both become "\n". *)
Fixpoint universal_newlines (s : string) : string :=
  match s with
  | EmptyString => EmptyString
  | String c s' =>
      if Ascii.eqb c CR then
        match s' with
        | String d s'' =>
            if Ascii.eqb d LF then String LF (universal_newlines s'')
            else String LF (universal_newlines s')
        | EmptyString => String LF EmptyString
        end
      else String c (universal_newlines s')
  end.

(** [f.readlines()]: the lines of the text, each with its final "\n" (the
    last one possibly without). *)
Fixpoint readlines (s : string) : list string :=
  match s with
  | EmptyString => []
  | String c s' =>
      if Ascii.eqb c LF then String c EmptyString :: readlines s'
      else match readlines s' with
           | h :: t => String c h :: t
           | [] => [String c EmptyString]
           end
  end.

(** Decimal digits of a non-negative number, most significant first. *)
Definition digit_char (d : nat) : ascii := ascii_of_nat (48 + d).

Fixpoint digits_fuel (fuel : nat) (n : N) (acc : string) : string :=
  match fuel with
  | O => acc
  | S fuel' =>
      let acc' := String (digit_char (N.to_nat (n mod 10))) acc in
      if (n <? 10)%N then acc' else digits_fuel fuel' (n / 10)%N acc'
  end.

(** [str(z)] for an integer. *)
Definition str_of_int (z : Z) : string :=
  let n := Z.abs_N z in
  let body := digits_fuel (S (N.to_nat (N.log2 n))) n EmptyString in
  if (z <? 0)%Z then String "-" body else body.

Definition digit_value (c : ascii) : option Z :=
  let n := nat_of_ascii c in
  if ((48 <=? n) && (n <=? 57))%nat then Some (Z.of_nat (n - 48)) else None.

(** The digits of an integer literal, after the sign: decimal digits,
    where single underscores may stand between two digits.
    [prev_digit] tells whether the previous character was a digit. *)
Fixpoint parse_digits (s : string) (acc : Z) (prev_digit : bool) : option Z :=
  match s with
  | EmptyString => if prev_digit then Some acc else None
  | String c s' =>
      if Ascii.eqb c "_" then
        if prev_digit then parse_digits s' acc false else None
      else
        match digit_value c with
        | Some d => parse_digits s' (10 * acc + d)%Z true
        | None => None
        end
  end.

(** [int(s)] on a string: surrounding whitespace is ignored, one sign is
    accepted, anything else raises [ValueError]. *)
Definition int_of_str (s : string) : result Z :=
  let body := strip s in
  let parsed :=
    match body with
    | String c rest =>
        if Ascii.eqb c "-" then Z.opp <$> parse_digits rest 0%Z false
        else if Ascii.eqb c "+" then parse_digits rest 0%Z false
        else parse_digits body 0%Z false
    | EmptyString => None
    end in
  match parsed with
  | Some z => Ok z
  | None => Raise ValueError
  end.

End PyStr.

(** ** Python [dict]

    Insertion order is observable (it is the order of the lines that
    [dump_parameter_file] writes), so a mapping is a list of entries with
    pairwise different keys, oldest first. *)
Module PyDict.
Section Dict.
Context {K V : Type} `{EqDecision K}.

Definition dict : Type := list (K * V).

(** [d.get(k)] *)
Fixpoint get (d : dict) (k : K) : option V :=
  match d with
  | [] => None
  | (k', v) :: d' => if decide (k' = k) then Some v else get d' k
  end.

(** [k in d] *)
Definition contains (d : dict) (k : K) : bool :=
  match get d k with Some _ => true | None => false end.

(** [d[k] = v]: an existing key keeps its position. *)
Fixpoint set (d : dict) (k : K) (v : V) : dict :=
  match d with
  | [] => [(k, v)]
  | (k', v') :: d' =>
      if decide (k' = k) then (k', v) :: d' else (k', v') :: set d' k v
  end.

(** [d.update(other)]: the entries of [other] are assigned in order. *)
Fixpoint update (d other : dict) : dict :=
  match other with
  | [] => d
  | (k, v) :: other' => update (set d k v) other'
  end.

(** [list(d.keys())] *)
Definition keys (d : dict) : list K := map fst d.

(** The invariant of a Python dictionary. *)
Definition wf (d : dict) : Prop := NoDup (keys d).
End Dict.
Arguments dict K V : clear implicits.
End PyDict.

Abbreviation pdict := (PyDict.dict string pyval).

(** ** The state of the Python process

    [fs] holds the regular files (path to text); directories are not
    modelled, every path is taken to lie in an existing directory.
    [heap] holds the dictionary objects that are reachable through more than
    one name, addressed by position; [default_params] is the module global of
    [main.py], [None] or a reference into [heap].  [trail] records the
    outward effects in the order in which they happen. *)
Inductive event : Type :=
  | EvOpenWrite (path : string)
  | EvPrint (text : string)
  | EvPrintLikelihood (idx : nat) (weight : spec_float)
  | EvAssertWeight (idx : nat) (holds : bool)
  | EvClassify (idx : nat) (outcome : Z)
  | EvPrintAverage (mean : option Q)
  | EvTracesCopy (file_name : string)
  | EvZip (archive dir_path : string)
  | EvKill (pid : Z).

Record world : Type := World {
  FRED_HOME : string;
  fs : gmap string string;
  heap : list pdict;
  default_params : option nat;
  trail : list event
}.

Definition set_fs (f : gmap string string) (w : world) : world :=
  World (FRED_HOME w) f (heap w) (default_params w) (trail w).
Definition set_heap (h : list pdict) (w : world) : world :=
  World (FRED_HOME w) (fs w) h (default_params w) (trail w).
Definition set_default_params (c : option nat) (w : world) : world :=
  World (FRED_HOME w) (fs w) (heap w) c (trail w).
Definition set_trail (t : list event) (w : world) : world :=
  World (FRED_HOME w) (fs w) (heap w) (default_params w) t.

(** Statements: a state transformer that returns normally or raises; the
    state reached is kept in both cases. *)
Definition M (A : Type) : Type := world -> result A * world.

Global Instance M_ret : MRet M := fun _ a w => (Ok a, w).
Global Instance M_bind : MBind M := fun _ _ f m w =>
  match m w with
  | (Ok a, w') => f a w'
  | (Raise e, w') => (Raise e, w')
  end.

Definition raise {A : Type} (e : exn) : M A := fun w => (Raise e, w).
Definition lift {A : Type} (r : result A) : M A := fun w => (r, w).
Definition gets {A : Type} (f : world -> A) : M A := fun w => (Ok (f w), w).
Definition modify (f : world -> world) : M unit := fun w => (Ok tt, f w).
Definition emit (e : event) : M unit :=
  modify (fun w => set_trail (trail w ++ [e]) w).

(** A new dictionary object. *)
Definition alloc (d : pdict) : M nat := fun w =>
  (Ok (length (heap w)), set_heap (heap w ++ [d]) w).
(** The current content of the object behind a reference. *)
Definition load (r : nat) : M pdict := fun w =>
  match heap w !! r with
  | Some d => (Ok d, w)
  | None => (Raise (PlainException "dangling reference"), w)
  end.
(** In-place change of the object behind a reference. *)
Definition store (r : nat) (d : pdict) : M unit :=
  modify (fun w => set_heap (<[r := d]> (heap w)) w).
(** [d.copy()] *)
Definition dict_copy (r : nat) : M nat := d ← load r; alloc d.
(** [d.update(other)] on the object behind [r]. *)
Definition dict_update (r : nat) (other : pdict) : M unit :=
  d ← load r; store r (PyDict.update d other).

(** [d[k]] as an expression. *)
Definition getitem {V : Type} (d : PyDict.dict string V) (k : string) : result V :=
  match PyDict.get d k with
  | Some v => Ok v
  | None => Raise (KeyError k)
  end.

(** [l[i]] for a list and a non-negative index. *)
Definition list_index {A : Type} (l : list A) (i : nat) : result A :=
  match l !! i with
  | Some a => Ok a
  | None => Raise IndexError
  end.

(** [os.path.join(a, b)] *)
Definition path_join (a b : string) : string :=
  if PyStr.startswith b "/" then b
  else if String.eqb a "" || PyStr.startswith (String.rev a) "/" then a +:+ b
  else a +:+ "/" +:+ b.

(** [os.path.exists(p)] *)
Definition path_exists (p : string) : M bool :=
  gets (fun w => bool_decide (is_Some (fs w !! p))).

(** ** Parameter files *)
Module ParamFile.

(** The loop of [read_param_file], lines 53-57. *)
Fixpoint read_loop (param_lines : list string) (params_dict : pdict) : result pdict :=
  match param_lines with
  | [] => Ok params_dict
  | param_line :: rest =>
      let parts := PyStr.split "=" param_line in
      part0 ← list_index parts 0;
      let name := PyStr.strip part0 in
      part1 ← list_index parts 1;
      let value := PyStr.strip part1 in
      read_loop rest (PyDict.set params_dict name (VStr value))
  end.

(** Lines 50-58 of [read_param_file], on the text that [open(path, 'r')]
    delivers. *)
Definition parse_param_text (text : string) : result pdict :=
  let param_lines := PyStr.readlines text in
  let param_lines := map PyStr.strip param_lines in
  let param_lines :=
    List.filter (fun x => negb (PyStr.startswith x "#" || String.eqb x ""))
                param_lines in
  read_loop param_lines [].

Definition read_param_file (path : string) : M pdict := fun w =>
  match fs w !! path with
  | None => (Raise (FileNotFoundError path), w)
  | Some content => (parse_param_text (PyStr.universal_newlines content), w)
  end.

Definition get_default_params : M nat :=
  cached ← gets default_params;
  match cached with
  | Some c => dict_copy c
  | None =>
      here ← path_exists "defaults";
      home ← gets FRED_HOME;
      let defaults :=
        if (here : bool) then "defaults"
        else path_join (path_join home "input_files") "defaults" in
      found ← path_exists defaults;
      if negb found then raise (PlainException "could not find defaults file")
      else
        d ← read_param_file defaults;
        params ← alloc d;
        c ← dict_copy params;
        modify (set_default_params (Some c));;
        mret params
  end.

Section Writer.
(** [str(x)] for a Python float: the text of the shortest decimal that reads
    back as [x]; it belongs to the Python runtime and is a parameter here. *)
Variable float_str : spec_float -> string.

(** [f'{value}'] *)
Definition format_value (v : pyval) : string :=
  match v with
  | VStr s => s
  | VInt z => PyStr.str_of_int z
  | VFloat f => float_str f
  end.

(** The text written by the loop [for param, value in params.items():
    f.write(f'{param} = {value}\n')]. *)
Fixpoint render_params (params : pdict) : string :=
  match params with
  | [] => ""
  | (param, value) :: rest =>
      param +:+ " = " +:+ format_value value +:+ String PyStr.LF "" +:+ render_params rest
  end.

(** [with open(path, 'w') as f:] followed by that loop. *)
Definition write_params (path : string) (params : pdict) : M unit :=
  modify (fun w => set_fs (<[path := render_params params]> (fs w)) w);;
  emit (EvOpenWrite path).

(** [dump_parameter_file(path, args, sampled_parameters)]; [args_params] is
    [args.params]. *)
Definition dump_parameter_file (path args_params : string) (sampled_parameters : pdict) : M unit :=
  params ← get_default_params;
  base ← read_param_file args_params;
  dict_update params base;;
  dict_update params sampled_parameters;;
  merged ← load params;
  write_params path merged.
End Writer.

End ParamFile.

(** ** Python floats

    A float is an IEEE 754 binary64 value, [spec_float]; [SFltb] is the
    comparison [<] of the standard ([False] whenever an operand is NaN).
    The decimal literals of the sources denote the nearest binary64 value. *)
Module PyFloat.

(** [0.2 = 0x1.999999999999ap-3] *)
Definition f_0_2 : spec_float := S754_finite false 7205759403792794 (-55).
(** [0.8 = 0x1.999999999999ap-1] *)
Definition f_0_8 : spec_float := S754_finite false 7205759403792794 (-53).
(** [0.5 = 0x1p-1] *)
Definition f_0_5 : spec_float := S754_finite false 4503599627370496 (-53).
(** [0.51 = 0x1.051eb851eb852p-1] *)
Definition f_0_51 : spec_float := S754_finite false 4593671619917906 (-53).
(** [0.3 = 0x1.3333333333333p-2] *)
Definition f_0_3 : spec_float := S754_finite false 5404319552844595 (-54).
(** [0.7 = 0x1.6666666666666p-1] *)
Definition f_0_7 : spec_float := S754_finite false 6305039478318694 (-53).
(** [0.1 = 0x1.999999999999ap-4] *)
Definition f_0_1 : spec_float := S754_finite false 7205759403792794 (-56).

(** [a < b] and [a > b] *)
Definition lt (a b : spec_float) : bool := SFltb a b.
Definition gt (a b : spec_float) : bool := SFltb b a.
(** [a <= b] *)
Definition le (a b : spec_float) : bool := SFleb a b.

(** The integer part of a finite float, rounded towards zero. *)
Definition trunc (f : spec_float) : option Z :=
  match f with
  | S754_zero _ => Some 0%Z
  | S754_finite s m e =>
      let magnitude := if (0 <=? e)%Z then Z.shiftl (Z.pos m) e
                       else Z.shiftr (Z.pos m) (- e) in
      Some (if s then (- magnitude)%Z else magnitude)
  | S754_infinity _ | S754_nan => None
  end.

Definition is_nan (f : spec_float) : bool :=
  match f with S754_nan => true | _ => false end.

End PyFloat.

(** [int(x)] *)
Definition py_int (v : pyval) : result Z :=
  match v with
  | VStr s => PyStr.int_of_str s
  | VInt z => Ok z
  | VFloat f =>
      match PyFloat.trunc f with
      | Some z => Ok z
      | None => Raise (if PyFloat.is_nan f then ValueError else OverflowError)
      end
  end.

(** ** Experiment configuration *)
Module Config.

(** The configuration values and the attributes added by [init]
    (the [SimpleNamespace] built from the configuration).  Only the fields read by the modelled
    statements are kept. *)
Record args : Type := Args {
  params_base : string;
  dump_simulator_log : bool;
  days : option Z;
  _fips : Z;
  num_traces : Z;
  kill_on_zero_likelihood : bool;
  constraint_threshold : spec_float;
  compressed_file_path : option string;
  out_dir : string;
  params : string
}.

Definition set_days (d : option Z) (a : args) : args :=
  Args (params_base a) (dump_simulator_log a) d (_fips a) (num_traces a)
       (kill_on_zero_likelihood a) (constraint_threshold a)
       (compressed_file_path a) (out_dir a) (params a).
Definition set_params (p : string) (a : args) : args :=
  Args (params_base a) (dump_simulator_log a) (days a) (_fips a) (num_traces a)
       (kill_on_zero_likelihood a) (constraint_threshold a)
       (compressed_file_path a) (out_dir a) p.

(** [fips_dict] *)
Definition fips_dict : PyDict.dict string Z :=
  [("jefferson", 42065%Z); ("allegheny", 42003%Z)].

Section Init.
Variable float_str : spec_float -> string.

(** Lines 106-112 of [init]: the day count.  The result is the pair of the
    mapping [base_params] and the value of [args.days] after the
    statement. *)
Definition resolve_days (a : args) (base_params : pdict) : M (pdict * Z) :=
  match days a with
  | Some d => mret (PyDict.set base_params "days" (VInt d), d)
  | None =>
      if PyDict.contains base_params "days" then
        v ← lift (getitem base_params "days");
        d ← lift (py_int v);
        mret (base_params, d)
      else
        r ← ParamFile.get_default_params;
        defaults ← load r;
        v ← lift (getitem defaults "days");
        d ← lift (py_int v);
        mret (base_params, d)
  end.

(** [init], lines 101-117 and 122.  The statements before (seeding, choice
    and creation of the output directory, lines 84-100) have set
    [out_dir] and [compressed_file_path]; the JSON snapshot of lines 119-121
    does not change [args]. *)
Definition init (a : args) : M args :=
  base_params ← ParamFile.read_param_file (params_base a);
  let base_params := PyDict.set base_params "fips" (VInt (_fips a)) in
  resolved ← resolve_days a base_params;
  let a := set_days (Some (snd resolved)) a in
  let a := set_params (path_join (out_dir a) "params_generated") a in
  ParamFile.write_params float_str (params a) (fst resolved);;
  mret a.
End Init.

End Config.

(** ** The experiment driver *)
Module Driver.
Import Config.

(** A scalar tensor of the inference library. *)
Inductive tensor : Type :=
  | TInt (z : Z)
  | TFloat (f : spec_float).

Record variable : Type := MkVariable {
  value : tensor;
  observed : bool
}.

(** An inference trace.  [weight] is the float that line 157 computes,
    [np.exp(trace.log_importance_weight)]; the exponential is NumPy's and
    its result is taken as given. *)
Record trace : Type := Trace {
  named_variables : PyDict.dict string variable;
  weight : spec_float
}.

(** What the inference library and the operating system answer during one
    call of [run]. *)
Record pyprob : Type := PyProb {
  (** [RemoteModel(...)]: the handle is built, or the constructor raises *)
  RemoteModel_new : result unit;
  (** [model.posterior(num_traces, IMPORTANCE_SAMPLING, observe)] *)
  posterior : Z -> PyDict.dict string spec_float -> result (list trace);
  (** [model._model_process] when the cleanup reads it: [None] or a process
      with this pid *)
  model_process : option Z;
  (** [traces.copy(file_name)] *)
  traces_copy : string -> result unit;
  (** [os.killpg(os.getpgid(pid), signal.SIGTERM)] *)
  killpg : Z -> result unit
}.

(** [value.item()] *)
Definition item (t : tensor) : pyval :=
  match t with
  | TInt z => VInt z
  | TFloat f => VFloat f
  end.

(** [np.mean(l)] for a list of integers, as the exact quotient (NumPy
    returns the binary64 value nearest to it); of an empty list it is NaN,
    here [None]. *)
Definition np_mean (l : list Z) : option Q :=
  match l with
  | [] => None
  | _ => Some (Qred (Qmake (fold_right Z.add 0%Z l) (Pos.of_nat (length l))))
  end.

(** [range(n)] *)
Definition range (n : Z) : list Z := Z.of_nat <$> seq 0 (Z.to_nat n).

(** [json.dump(trace_weights, fp, indent=4, separators=(',', ': '))] *)
Definition json_item (kv : nat * Z) : string :=
  "    " +:+ String PyStr.DQUOTE (PyStr.str_of_int (Z.of_nat (fst kv)))
    +:+ String PyStr.DQUOTE ": " +:+ PyStr.str_of_int (snd kv).

Fixpoint json_items (l : list (nat * Z)) : string :=
  match l with
  | [] => ""
  | [kv] => json_item kv
  | kv :: rest => json_item kv +:+ "," +:+ String PyStr.LF "" +:+ json_items rest
  end.

Definition json_dump (d : PyDict.dict nat Z) : string :=
  match d with
  | [] => "{}"
  | _ => "{" +:+ String PyStr.LF "" +:+ json_items d +:+ String PyStr.LF "" +:+ "}"
  end.

(** [zipdir(path, dir_path)]: the files below [dir_path] are packed into the
    archive [path]; the model records that this happened, not the bytes. *)
Definition zipdir (path dir_path : string) : M unit :=
  emit (EvZip path dir_path).

Section Run.
Variable float_str : spec_float -> string.
(** [Tensor.int()] of the tensor library *)
Variable tensor_int : tensor -> tensor.
Variable lib : pyprob.

(** The dictionary comprehension of line 155. *)
Definition sampled_parameters (nv : PyDict.dict string variable) : pdict :=
  omap (fun entry : string * variable =>
          if observed (snd entry) then None
          else Some (fst entry, item (value (snd entry)))) nv.

(** The body of the loop over the traces, lines 152-160. *)
Definition process_trace (a : args) (trace_weights : PyDict.dict nat Z)
    (idx : nat) (t : trace) : M (PyDict.dict nat Z) :=
  v ← lift (getitem (named_variables t) "shelter_in_place_duration_mean");
  let nv := PyDict.set (named_variables t) "shelter_in_place_duration_mean"
              (MkVariable (tensor_int (value v)) (observed v)) in
  ParamFile.dump_parameter_file float_str
    (path_join (out_dir a) ("params" +:+ PyStr.str_of_int (Z.of_nat idx)))
    (params a) (sampled_parameters nv);;
  let weight := weight t in
  emit (EvPrintLikelihood idx weight);;
  let holds := PyFloat.lt weight PyFloat.f_0_2 || PyFloat.gt weight PyFloat.f_0_8 in
  emit (EvAssertWeight idx holds);;
  if holds then
    let outcome := if PyFloat.gt weight PyFloat.f_0_5 then 1%Z else 0%Z in
    emit (EvClassify idx outcome);;
    mret (PyDict.set trace_weights idx outcome)
  else raise AssertionError.

(** [for idx, trace in enumerate(traces):] *)
Fixpoint run_loop (a : args) (idx : nat) (traces : list trace)
    (trace_weights : PyDict.dict nat Z) : M (PyDict.dict nat Z) :=
  match traces with
  | [] => mret trace_weights
  | t :: rest =>
      trace_weights ← process_trace a trace_weights idx t;
      run_loop a (S idx) rest trace_weights
  end.

(** The statements of the [try] block after the handle is bound,
    lines 148-169. *)
Definition run_body (a : args) : M unit :=
  d ← lift (match days a with Some d => Ok d | None => Raise TypeError end);
  let observe :=
    (fun i => ("obs_" +:+ PyStr.str_of_int i, constraint_threshold a)) <$> range d in
  traces ← lift (posterior lib (num_traces a) observe);
  trace_weights ← run_loop a 0 traces [];
  emit (EvPrintAverage (np_mean (Z.of_nat <$> PyDict.keys trace_weights)));;
  let weights_json := path_join (out_dir a) "weights.json" in
  modify (fun w => set_fs (<[weights_json := json_dump trace_weights]> (fs w)) w);;
  emit (EvOpenWrite weights_json);;
  lift (traces_copy lib (path_join (out_dir a) "traces"));;
  emit (EvTracesCopy (path_join (out_dir a) "traces")).

(** The [except Exception as e:] clause, lines 170-175. *)
Definition run_except (a : args) (e : exn) : M unit :=
  match compressed_file_path a with
  | Some p =>
      emit (EvPrint "Failed... Compressing the output");;
      zipdir (p +:+ "_failed") (out_dir a)
  | None => mret tt
  end;;
  raise e.

(** The [finally:] clause, lines 176-179; [model] is the binding of the
    local name, [None] while it is unbound. *)
Definition run_finally (model : option unit) : M unit :=
  match model with
  | None => raise (UnboundLocalError "model")
  | Some _ =>
      match model_process lib with
      | Some pid =>
          emit (EvPrint ("Done, killing model process: " +:+ PyStr.str_of_int pid));;
          lift (killpg lib pid);;
          emit (EvKill pid)
      | None => mret tt
      end
  end.

(** [run(args)] *)
Definition run (a : args) : M unit := fun w =>
  (* try: *)
  let '(model, (r1, w1)) :=
    match RemoteModel_new lib with
    | Raise e => (None, (Raise e, w))
    | Ok handle => (Some handle, run_body a w)
    end in
  (* except Exception as e: *)
  let '(r2, w2) :=
    match r1 with
    | Ok tt => (Ok tt, w1)
    | Raise e => run_except a e w1
    end in
  (* finally: an exception raised here replaces the pending one *)
  match run_finally model w2 with
  | (Raise e, w3) => (Raise e, w3)
  | (Ok tt, w3) =>
      match r2 with
      | Raise e => (Raise e, w3)
      | Ok tt =>
          match compressed_file_path a with
          | Some p =>
              (emit (EvPrint "Compressing the output");;
               zipdir p (out_dir a)) w3
          | None => (Ok tt, w3)
          end
      end
  end.
End Run.

End Driver.

(** ** The trajectory plot of [plotting.py] *)
Module Plotting.

(** [n_sims_to_plot] *)
Definition n_sims_to_plot : nat := 100.

(** [_sims_to_plot = np.random.randint(0, 1000, n_sims_to_plot)] is drawn
    once when the module is loaded: [n_sims_to_plot] integers, each at
    least 0 and below 1000. *)
Definition is_draw (sims : list Z) : Prop :=
  length sims = n_sims_to_plot /\ Forall (fun i => (0 <= i < 1000)%Z) sims.

(** [a[i]] on an array axis of length [n]: a negative index counts from the
    end, an index outside [-n, n) raises [IndexError]. *)
Definition np_axis_index (n : nat) (i : Z) : result nat :=
  if ((0 <=? i) && (i <? Z.of_nat n))%Z then Ok (Z.to_nat i)
  else if ((- Z.of_nat n <=? i) && (i <? 0))%Z then Ok (Z.to_nat (Z.of_nat n + i))
  else Raise IndexError.

(** The argument [_plot_valid]: [None], [True], [False], or anything else. *)
Inductive selector : Type :=
  | SelNone
  | SelTrue
  | SelFalse
  | SelOther.

(** [get_alphas]; the values 0.25, 0.5 and 0.0 and their sums and products
    here are exact in binary64, so the rationals compute what the floats
    do. *)
Definition get_alphas (_valid_simulations : list bool) (_plot_valid : selector)
    : result (list Q) :=
  let _alpha_valid_base := (1 # 4)%Q in
  let _alpha_invalid_base := (1 # 4)%Q in
  alphas ← match _plot_valid with
           | SelNone => Ok (_alpha_valid_base, _alpha_invalid_base)
           | SelTrue => Ok (Qred (_alpha_valid_base * 2), 0%Q)
           | SelFalse => Ok (0%Q, Qred (_alpha_invalid_base * 2))
           | SelOther => Raise NotImplementedError
           end;
  Ok ((fun v : bool =>
         Qred (snd alphas + fst alphas * (if v then 1 else 0))%Q)
      <$> _valid_simulations).

(** Lines 77-80: the simulations that are drawn. *)
Definition select_sims (_sims_to_plot : list Z) (_valid_simulations : list bool)
    : list Z :=
  if (length _valid_simulations <? length _sims_to_plot)%nat
  then Z.of_nat <$> seq 0 (length _valid_simulations)
  else _sims_to_plot.

Section Arrays.
(** The numbers held by the arrays, with their addition and zero. *)
Context {X : Type} (add : X -> X -> X) (zero : X).

(** An array of shape (time, simulation). *)
Record series : Type := Series {
  n_time : nat;
  n_sims : nat;
  at_ : nat -> nat -> X
}.

(** An array of shape (time, simulation, compartment). *)
Record results : Type := Results {
  r_time : nat;
  r_sims : nat;
  r_compartments : nat;
  cell : nat -> nat -> nat -> X
}.

(** [r[:, :, k]] *)
Definition compartment (r : results) (k : nat) : result series :=
  if (k <? r_compartments r)%nat then
    Ok (Series (r_time r) (r_sims r) (fun t s => cell r t s k))
  else Raise IndexError.

(** Element-wise [a + b] of two arrays of one shape. *)
Definition series_add (a b : series) : series :=
  Series (n_time a) (n_sims a) (fun t s => add (at_ a t s) (at_ b t s)).

(** [np.sum(r, axis=2)] *)
Definition sum_compartments (r : results) : series :=
  Series (r_time r) (r_sims r)
    (fun t s => fold_left add (cell r t s <$> seq 0 (r_compartments r)) zero).

(** [get_statistics]: population, susceptible, exposed, infectious,
    recovered. *)
Definition get_statistics (r : results)
    : result (series * series * series * series * series) :=
  let _populace := sum_compartments r in
  _s_n ← compartment r 0;
  e1 ← compartment r 1; e2 ← compartment r 2;
  let _e_n := series_add e1 e2 in
  i3 ← compartment r 3; i4 ← compartment r 4; i5 ← compartment r 5;
  let _i_n := series_add (series_add i3 i4) i5 in
  _r_n ← compartment r 6;
  Ok (_populace, _s_n, _e_n, _i_n, _r_n).

(** [a[start:, i]]: the column of simulation [i] from row [start] on. *)
Definition column_from (a : series) (start : nat) (i : Z) : result (list X) :=
  j ← np_axis_index (n_sims a) i;
  Ok ((fun t => at_ a t j) <$> seq start (n_time a - start)).

(** One dashed line of the plot: colour, data and transparency. *)
Record line : Type := Line {
  colour : string;
  data : list X;
  alpha : Q
}.

(** A comprehension [[_axe.plot(_t[...], a[_s_idx_current:, _i], ...,
    alpha=k*_alphas[_i]) for _i in __sims_to_plot]]: the column is
    evaluated before the transparency. *)
Fixpoint plot_each (a : series) (_s_idx_current : nat) (c : string) (k : Q)
    (_alphas : list Q) (sims : list Z) : result (list line) :=
  match sims with
  | [] => Ok []
  | _i :: rest =>
      col ← column_from a _s_idx_current _i;
      j ← np_axis_index (length _alphas) _i;
      al ← list_index _alphas j;
      drawn ← plot_each a _s_idx_current c k _alphas rest;
      Ok (Line c col (Qred (k * al)) :: drawn)
  end.

(** [make_trajectory_plot], lines 74-80 and 102-107: the dashed lines drawn
    for the selected simulations.  [_s_idx_current] is the row at which the
    noised results start (line 84 or 87). *)
Definition make_trajectory_plot (_sims_to_plot : list Z)
    (_results_noise : results) (_valid_simulations : list bool)
    (_plot_valid : selector) (_s_idx_current : nat) : result (list line) :=
  _alphas ← get_alphas _valid_simulations _plot_valid;
  let __sims_to_plot := select_sims _sims_to_plot _valid_simulations in
  stats ← get_statistics _results_noise;
  let '(_p_n, _s_n, _e_n, _i_n, _r_n) := stats in
  l1 ← plot_each _s_n _s_idx_current "green" 1 _alphas __sims_to_plot;
  l2 ← plot_each _e_n _s_idx_current "blue" 1 _alphas __sims_to_plot;
  l3 ← plot_each _r_n _s_idx_current "purple" 1 _alphas __sims_to_plot;
  l4 ← plot_each _i_n _s_idx_current "red" 2 _alphas __sims_to_plot;
  l5 ← plot_each _p_n _s_idx_current "k--" 1 _alphas __sims_to_plot;
  Ok (l1 ++ l2 ++ l3 ++ l4 ++ l5).
End Arrays.

End Plotting.

(** ** Notions used to state the properties *)
Module Spec.

(** Whether the character occurs in the text. *)
Fixpoint has_char (c : ascii) (s : string) : bool :=
  match s with
  | EmptyString => false
  | String a s' => Ascii.eqb a c || has_char c s'
  end.

(** The text before the first occurrence of [c] (all of it when [c] does
    not occur), and the text after that occurrence. *)
Fixpoint before (c : ascii) (s : string) : string :=
  match s with
  | EmptyString => EmptyString
  | String a s' => if Ascii.eqb a c then EmptyString else String a (before c s')
  end.

Fixpoint after (c : ascii) (s : string) : option string :=
  match s with
  | EmptyString => None
  | String a s' => if Ascii.eqb a c then Some s' else after c s'
  end.

(** No whitespace at either end. *)
Definition trimmed (s : string) : Prop :=
  PyStr.lstrip s = s /\ PyStr.rstrip s = s.

(** A text that can stand inside one line of a parameter file on either
    side of the equals sign and be read back. *)
Definition plain (s : string) : Prop :=
  has_char "=" s = false /\ has_char PyStr.LF s = false
  /\ has_char PyStr.CR s = false /\ trimmed s.

(** A line of a parameter file that is neither blank nor a comment. *)
Definition kept (raw : string) : bool :=
  let x := PyStr.strip raw in
  negb (String.eqb x "") && negb (PyStr.startswith x "#").

(** One round of the reading loop on a stripped line. *)
Definition loop_step (d : pdict) (x : string) : pdict :=
  PyDict.set d (PyStr.strip (before "=" x))
             (VStr (PyStr.strip (before "=" (default "" (after "=" x))))).

(** The name on a line: what stands before the first equals sign. *)
Definition name_of (raw : string) : string :=
  PyStr.strip (before "=" (PyStr.strip raw)).

(** The value on a line as the code takes it: what stands between the
    first equals sign and the next one (or the end of the line). *)
Definition value_of (raw : string) : string :=
  PyStr.strip (before "=" (default "" (after "=" (PyStr.strip raw)))).

(** The value on a line in the wording of the specification, which splits
    the line at the first equals sign only: all that follows it. *)
Definition value_first_split (raw : string) : string :=
  PyStr.strip (default "" (after "=" (PyStr.strip raw))).

(** The mapping built from the kept lines, given the reading of a value. *)
Definition assemble (value : string -> string) (lines : list string) : pdict :=
  fold_left (fun d raw => PyDict.set d (name_of raw) (VStr (value raw)))
            (List.filter kept lines) [].

(** Whether every kept line has an equals sign. *)
Definition all_assigned (lines : list string) : bool :=
  forallb (fun raw => has_char "=" (PyStr.strip raw)) (List.filter kept lines).

(** The reader in the wording of the specification. *)
Definition read_first_split (text : string) : result pdict :=
  let lines := PyStr.readlines text in
  if all_assigned lines then Ok (assemble value_first_split lines)
  else Raise IndexError.

(** A mapping from names to texts, as stored in a parameter mapping. *)
Definition as_params (d : PyDict.dict string string) : pdict :=
  (fun kv : string * string => (fst kv, VStr (snd kv))) <$> d.

End Spec.

(** ** The state between calls *)
Module State.

(** The cache, when filled, refers to an object. *)
Definition cache_ok (w : world) : Prop :=
  match default_params w with
  | Some c => is_Some (heap w !! c)
  | None => True
  end.

(** The defaults file that [get_default_params] would read. *)
Definition defaults_text (w : world) : result string :=
  match fs w !! "defaults" with
  | Some content => Ok content
  | None =>
      let p := path_join (path_join (FRED_HOME w) "input_files") "defaults" in
      match fs w !! p with
      | Some content => Ok content
      | None => Raise (PlainException "could not find defaults file")
      end
  end.

(** The defaults mapping in the current state: the cached one, or else what
    the defaults file holds. *)
Definition current_defaults (w : world) : result pdict :=
  match default_params w with
  | Some c =>
      match heap w !! c with
      | Some d => Ok d
      | None => Raise (PlainException "dangling reference")
      end
  | None =>
      content ← defaults_text w;
      ParamFile.parse_param_text (PyStr.universal_newlines content)
  end.

(** The text of a parameter file in the current state. *)
Definition file_params (w : world) (path : string) : result pdict :=
  match fs w !! path with
  | Some content => ParamFile.parse_param_text (PyStr.universal_newlines content)
  | None => Raise (FileNotFoundError path)
  end.

(** The mapping that [dump_parameter_file] writes, from its three layers. *)
Definition merged (defaults base sampled : pdict) : pdict :=
  PyDict.update (PyDict.update defaults base) sampled.

(** The cache refers to an object with content [d] that no caller holds;
    [refs] are the references held by callers. *)
Definition inv (c : nat) (d : pdict) (refs : list nat) (w : world) : Prop :=
  default_params w = Some c /\ heap w !! c = Some d
  /\ (c ∉ refs) /\ (forall r, r ∈ refs -> r < length (heap w)).

(** What a caller of [get_default_params] may do between calls. *)
Inductive action : Type :=
  (** [r = get_default_params()] *)
  | Call
  (** any in-place change of the mapping returned by the [i]-th successful call *)
  | Mutate (i : nat) (f : pdict -> pdict)
  (** a file is written or replaced *)
  | WriteFile (path content : string)
  (** a file is removed *)
  | RemoveFile (path : string).

(** Runs the actions; [refs] are the mappings returned so far.  The result
    lists, for each call, the content of the mapping it returned (or the
    exception), followed by the final state. *)
Fixpoint client (acts : list action) (refs : list nat) (w : world)
    : list (result pdict) * world :=
  match acts with
  | [] => ([], w)
  | Call :: rest =>
      match ParamFile.get_default_params w with
      | (Ok r, w') =>
          let out := client rest (refs ++ [r]) w' in
          (fst (load r w') :: fst out, snd out)
      | (Raise e, w') =>
          let out := client rest refs w' in
          (Raise e :: fst out, snd out)
      end
  | Mutate i f :: rest =>
      match refs !! i with
      | Some r => client rest refs (snd ((d ← load r; store r (f d)) w))
      | None => client rest refs w
      end
  | WriteFile path content :: rest =>
      client rest refs (set_fs (<[path := content]> (fs w)) w)
  | RemoveFile path :: rest =>
      client rest refs (set_fs (delete path (fs w)) w)
  end.

End State.

(** ** The line format of a parameter file *)
Module Format.

(** The line written for one entry. *)
Definition line_of (name value : string) : string :=
  name +:+ " = " +:+ value +:+ String PyStr.LF "".

(** A name that can be written and read back: plain and not a comment
    mark. *)
Definition plain_name (s : string) : Prop :=
  Spec.plain s /\ PyStr.startswith s "#" = false.

(** An entry that can be written and read back. *)
Definition entry_ok (kv : string * string) : Prop :=
  plain_name (fst kv) /\ Spec.plain (snd kv).

End Format.

(** ** Notions used for the driver *)
Module DriverSpec.
Import Config Driver.

(** The defaults and the generated parameter file can be read. *)
Definition ready (a : args) (w : world) (defaults base : pdict) : Prop :=
  State.cache_ok w /\ State.current_defaults w = Ok defaults
  /\ State.file_params w (params a) = Ok base.

(** The per-trace parameter file. *)
Definition trace_file (a : args) (idx : nat) : string :=
  path_join (out_dir a) ("params" +:+ PyStr.str_of_int (Z.of_nat idx)).

(** The test of the assertion of line 159. *)
Definition confident (weight : spec_float) : bool :=
  PyFloat.lt weight PyFloat.f_0_2 || PyFloat.gt weight PyFloat.f_0_8.

(** The expression [int(weight > 0.5)] of line 160. *)
Definition classify (weight : spec_float) : Z :=
  if PyFloat.gt weight PyFloat.f_0_5 then 1%Z else 0%Z.

(** The band from 0.2 to 0.8, ends included. *)
Definition in_band (weight : spec_float) : Prop :=
  PyFloat.le PyFloat.f_0_2 weight = true /\ PyFloat.le weight PyFloat.f_0_8 = true.

(** The events of one trace after the write of its parameter file. *)
Definition after_write (idx : nat) (weight : spec_float) : list event :=
  [EvPrintLikelihood idx weight; EvAssertWeight idx (confident weight)]
  ++ (if confident weight then [EvClassify idx (classify weight)] else []).

(** The first event comes before the second one in the list. *)
Definition precedes (e1 e2 : event) (l : list event) : Prop :=
  exists l1 l2 l3, l = l1 ++ e1 :: l2 ++ e2 :: l3.

(** The observations of line 149, one per day. *)
Definition observations (a : Config.args) (d : Z) : PyDict.dict string spec_float :=
  (fun i => ("obs_" +:+ PyStr.str_of_int i, Config.constraint_threshold a))
    <$> Driver.range d.

(** What the failure clause of [run] does before it raises again. *)
Definition failure_events (a : Config.args) : list event :=
  match Config.compressed_file_path a with
  | Some p => [EvPrint "Failed... Compressing the output";
               EvZip (p +:+ "_failed") (Config.out_dir a)]
  | None => []
  end.

End DriverSpec.

(** ** Notions used for the written values *)
Module TextSpec.

(** Whether every character of the text satisfies the test. *)
Fixpoint all_chars (P : ascii -> bool) (s : string) : bool :=
  match s with
  | EmptyString => true
  | String c s' => P c && all_chars P s'
  end.

(** A decimal digit. *)
Definition is_digit (c : ascii) : bool :=
  match PyStr.digit_value c with Some _ => true | None => false end.

(** A decimal digit or the minus sign. *)
Definition is_digit_or_minus (c : ascii) : bool := is_digit c || Ascii.eqb c "-".

(** The mapping as its lines show it: every value replaced by the text that
    [f'{value}'] gives. *)
Definition texts (float_str : spec_float -> string) (d : pdict)
    : PyDict.dict string string :=
  (fun kv : string * pyval => (fst kv, ParamFile.format_value float_str (snd kv))) <$> d.

End TextSpec.

(** ** Notions used for whole runs *)
Module RunSpec.
Import Config Driver DriverSpec.

(** A trace that the loop can process: it has the shelter duration among
    its variables. *)
Definition has_shelter (t : trace) : Prop :=
  is_Some (PyDict.get (named_variables t) "shelter_in_place_duration_mean").

(** A trace that passes the assertion on its weight. *)
Definition good (t : trace) : Prop :=
  has_shelter t /\ confident (weight t) = true.

(** The table entries of the traces, the first one with index [idx]. *)
Fixpoint table_from (idx : nat) (traces : list trace) : PyDict.dict nat Z :=
  match traces with
  | [] => []
  | t :: rest => (idx, classify (weight t)) :: table_from (S idx) rest
  end.

(** The events of one round of the loop, and of the rounds for a list of
    traces. *)
Definition trace_events (a : args) (idx : nat) (t : trace) : list event :=
  EvOpenWrite (trace_file a idx) :: after_write idx (weight t).

Fixpoint loop_events (a : args) (idx : nat) (traces : list trace) : list event :=
  match traces with
  | [] => []
  | t :: rest => trace_events a idx t ++ loop_events a (S idx) rest
  end.

(** The termination signals recorded so far. *)
Definition is_kill (e : event) : bool :=
  match e with EvKill _ => true | _ => false end.

Definition kills (w : world) : nat := length (List.filter is_kill (trail w)).

(** The events of the cleanup clause when it succeeds. *)
Definition cleanup_events (lib : pyprob) : list event :=
  match model_process lib with
  | Some pid =>
      [EvPrint ("Done, killing model process: " +:+ PyStr.str_of_int pid); EvKill pid]
  | None => []
  end.

(** The cleanup clause has nothing to signal, or its signal goes through. *)
Definition cleanup_succeeds (lib : pyprob) : Prop :=
  match model_process lib with
  | Some pid => killpg lib pid = Ok tt
  | None => True
  end.

(** The number of signals that one call of [run] sends. *)
Definition signals_sent (lib : pyprob) : nat :=
  match RemoteModel_new lib, model_process lib with
  | Ok _, Some pid => match killpg lib pid with Ok _ => 1 | Raise _ => 0 end
  | _, _ => 0
  end.

(** The events of the archiving after a run that went through. *)
Definition archive_events (a : args) : list event :=
  match compressed_file_path a with
  | Some p => [EvPrint "Compressing the output"; EvZip p (out_dir a)]
  | None => []
  end.

(** A statement that records no termination signal. *)
Definition quiet {A : Type} (m : M A) : Prop :=
  forall w : world, kills (snd (m w)) = kills w.

End RunSpec.

(** ** The policy plot of [plotting.py] *)
Module Policy.

(** [_color_list[_valid_simulations[_i].type(torch.int)]]: red for an
    invalid simulation, green for a valid one. *)
Definition colour_of (valid : bool) : string :=
  if valid then "green" else "red".

Section Axes.
(** The data of the horizontal axis, a row of [_beta], and the call
    [_axe.plot(x, y, c=colour)] of the plotting library, which may refuse
    its data. *)
Context {A R : Type} (axe_plot : A -> R -> string -> result unit).

(** One curve of the policy plot: its data and its colour. *)
Record curve : Type := Curve {
  xs : A;
  ys : R;
  c : string
}.

(** The comprehension of line 170 of [make_policy_plot] over the indices
    [range(len(_valid_simulations))], from index [_i] on, with the curves
    drawn so far; [_beta[_i]] is the row of the simulation and raises
    [IndexError] when there is none.  The curves drawn before an exception
    stay on the axes. *)
Fixpoint policy_curves (_alpha : A) (_beta : list R) (_i : nat)
    (valid_from_i : list bool) (drawn : list curve) : result unit * list curve :=
  match valid_from_i with
  | [] => (Ok tt, drawn)
  | v :: rest =>
      match list_index _beta _i with
      | Raise e => (Raise e, drawn)
      | Ok row =>
          match axe_plot _alpha row (colour_of v) with
          | Raise e => (Raise e, drawn)
          | Ok _ =>
              policy_curves _alpha _beta (S _i) rest
                (drawn ++ [Curve _alpha row (colour_of v)])
          end
      end
  end.

(** [make_policy_plot]: the outcome of line 170 and the curves on the
    axes. *)
Definition make_policy_plot (_alpha : A) (_beta : list R)
    (_valid_simulations : list bool) : result unit * list curve :=
  policy_curves _alpha _beta 0 _valid_simulations [].

End Axes.

(** The curves of the simulations that have a row. *)
Definition curves_of {A R : Type} (_alpha : A) (valid : list bool)
    (rows : list R) : list (curve (A := A) (R := R)) :=
  zip_with (fun v row => Curve _alpha row (colour_of v)) valid rows.

End Policy.

(** ** Notions used for the plots *)
Module PlotSpec.

(** The transparency that [get_alphas] gives a simulation. *)
Definition alpha_of (sel : Plotting.selector) (valid : bool) : Q :=
  match sel with
  | Plotting.SelNone => if valid then (1 # 2)%Q else (1 # 4)%Q
  | Plotting.SelTrue => if valid then (1 # 2)%Q else 0%Q
  | Plotting.SelFalse => (1 # 2)%Q
  | Plotting.SelOther => 0%Q
  end.

End PlotSpec.

(** ** Sample inputs *)
Module Samples.

Definition nl : string := String PyStr.LF "".

(** A process with the given files, no dictionary objects yet and an empty
    defaults cache. *)
Definition fresh (files : list (string * string)) : world :=
  World "/opt/FRED" (list_to_map files) [] None [].

(** A parameter file with a comment, a blank line and two assignments, the
    second with two equals signs. *)
Definition base_text : string :=
  "# comment" +:+ nl +:+ nl +:+ "x = 7" +:+ nl +:+ "a = b=c" +:+ nl.

Definition w_base : world := fresh [("/opt/FRED/params", base_text)].

(** The simulator's defaults file. *)
Definition defaults_text : string :=
  "# defaults" +:+ nl +:+ "days = 100" +:+ nl +:+ "a = 1" +:+ nl +:+ "b = 2" +:+ nl.

(** A process that has only the simulator's defaults file, and a caller
    that changes the first mapping it got, replaces and removes the file
    and asks again. *)
Definition w_defaults : world :=
  fresh [("/opt/FRED/input_files/defaults", defaults_text)].

Definition caller : list State.action :=
  [ State.Mutate 0 (fun d => PyDict.set d "days" (VStr "1"));
    State.Call;
    State.WriteFile "defaults" ("days = 7" +:+ nl);
    State.Mutate 1 (fun _ => []);
    State.Call;
    State.RemoveFile "/opt/FRED/input_files/defaults";
    State.Call ].

(** The three layers of the example: defaults, base file and overlay. *)
Definition layer_defaults : pdict := [("a", VStr "1"); ("b", VStr "2")].
Definition layer_base : pdict := [("b", VStr "3"); ("c", VStr "4")].
Definition layer_overlay : pdict := [("c", VInt 5)].
Definition layer_merged : pdict := [("a", VStr "1"); ("b", VStr "3"); ("c", VInt 5)].

Definition w_layers : world :=
  fresh [("/opt/FRED/input_files/defaults", "a = 1" +:+ nl +:+ "b = 2" +:+ nl);
         ("run/params_generated", "b = 3" +:+ nl +:+ "c = 4" +:+ nl)].

(** A stand-in for the float formatting of the runtime, for samples in
    which no float is written. *)
Definition float_str_any (f : spec_float) : string := "nan".

(** A mapping whose value holds an equals sign. *)
Definition d_equals : PyDict.dict string string := [("a", "b=c")].

(** A mapping of plain names and values. *)
Definition d_plain : PyDict.dict string string :=
  [("days", "100"); ("", "x y"); ("empty", "")].

(** Three configurations for the day count: set explicitly, taken from the
    base file, taken from the simulator's defaults. *)
Definition config (d : option Z) : Config.args :=
  Config.Args "/opt/FRED/params" true d 42065 10 false PyFloat.f_0_1 None "run" "".

Definition w_days_in_base : world :=
  fresh [("/opt/FRED/input_files/defaults", defaults_text);
         ("/opt/FRED/params", "days = 30" +:+ nl)].

Definition w_days_in_defaults : world :=
  fresh [("/opt/FRED/input_files/defaults", defaults_text);
         ("/opt/FRED/params", "x = 7" +:+ nl)].

(** A run directory with the generated parameter file, and the
    configuration that points to it. *)
Definition a_run : Config.args :=
  Config.Args "/opt/FRED/params" true (Some 2%Z) 42065 3 false PyFloat.f_0_1
    None "run" "run/params_generated".

Definition w_run : world :=
  fresh [("/opt/FRED/input_files/defaults", defaults_text);
         ("run/params_generated", "fips = 42065" +:+ nl +:+ "days = 2" +:+ nl)].

(** A trace with the given weight; its only latent variable is the
    shelter duration, already an integer. *)
Definition trace_of (weight : spec_float) : Driver.trace :=
  Driver.Trace
    [("shelter_in_place_duration_mean", Driver.MkVariable (Driver.TInt 14) false)]
    weight.

(** Weights of 0 and of 1. *)
Definition f_zero : spec_float := S754_zero false.
Definition f_one : spec_float := S754_finite false 4503599627370496 (-52).

(** [Tensor.int()] on the samples: an integer tensor stays, a finite float
    is cut towards zero. *)
Definition tensor_int_trunc (t : Driver.tensor) : Driver.tensor :=
  match t with
  | Driver.TInt z => Driver.TInt z
  | Driver.TFloat f => Driver.TInt (default 0%Z (PyFloat.trunc f))
  end.

(** An inference library that returns three traces with the weights 1, 0
    and 1, and one whose model handle cannot be built. *)
Definition three_traces : list Driver.trace :=
  [trace_of f_one; trace_of f_zero; trace_of f_one].

Definition lib_three : Driver.pyprob :=
  Driver.PyProb (Ok tt) (fun _ _ => Ok three_traces) (Some 4242%Z)
    (fun _ => Ok tt) (fun _ => Ok tt).

Definition lib_no_model : Driver.pyprob :=
  Driver.PyProb (Raise (PlainException "no model")) (fun _ _ => Ok three_traces)
    None (fun _ => Ok tt) (fun _ => Ok tt).

(** The configuration of the run with a staging directory. *)
Definition a_staged : Config.args :=
  Config.Args "/opt/FRED/params" true (Some 2%Z) 42065 3 false PyFloat.f_0_1
    (Some "results/experiment_name/simulation_number.zip") "run" "run/params_generated".

(** An ensemble of 100 simulations, all valid, with two time steps, and a
    draw of 100 indices below 1000 whose first one is 999. *)
Definition valid_100 : list bool := replicate 100 true.

Definition results_100 : Plotting.results (X := Q) :=
  Plotting.Results 2 100 7 (fun _ _ _ => 0%Q).

Definition draw_999 : list Z := 999%Z :: replicate 99 0%Z.

(** An ensemble of 3 simulations. *)
Definition valid_3 : list bool := [true; false; true].

Definition results_3 : Plotting.results (X := Q) :=
  Plotting.Results 2 3 7 (fun _ s c => inject_Z (Z.of_nat (s + c))).


Definition lib_gone : Driver.pyprob :=
  Driver.PyProb (Ok tt) (fun _ _ => Ok three_traces) (Some 4242%Z)
    (fun _ => Ok tt) (fun _ => Raise (PlainException "no such process")).

(** The state in which the staged sample run starts. *)
Definition w_staged : world := w_run.

(** Axes that accept every curve. *)
Definition axes_accept (x y : list Z) (colour : string) : result unit := Ok tt.

End Samples.

(** * Properties *)

(** ** Sequencing *)

Lemma bind_Ok {A B : Type} (a : A) (f : A -> result B) : (Ok a ≫= f) = f a.
Proof. reflexivity. Qed.

Lemma bind_Raise {A B : Type} (e : exn) (f : A -> result B) :
  (Raise e ≫= f) = Raise e.
Proof. reflexivity. Qed.

Lemma M_bind_Ok {A B : Type} (m : M A) (f : A -> M B) (w w' : world) (a : A) :
  m w = (Ok a, w') -> (m ≫= f) w = f a w'.
Proof. intros H. unfold mbind, M_bind. now rewrite H. Qed.

Lemma M_bind_Raise {A B : Type} (m : M A) (f : A -> M B) (w w' : world) (e : exn) :
  m w = (Raise e, w') -> (m ≫= f) w = (Raise e, w').
Proof. intros H. unfold mbind, M_bind. now rewrite H. Qed.

(** ** Facts about strings *)
Module StrFacts.
Import PyStr Spec.

Lemma app_cons (c : ascii) (s t : string) :
  String c s +:+ t = String c (s +:+ t).
Proof. reflexivity. Qed.

Lemma app_nil_l (s : string) : "" +:+ s = s.
Proof. reflexivity. Qed.

Lemma app_nil_r (s : string) : s +:+ "" = s.
Proof.
  induction s as [|c s IH]; [reflexivity|].
  rewrite app_cons. now f_equal.
Qed.

Lemma app_assoc (a b c : string) : (a +:+ b) +:+ c = a +:+ (b +:+ c).
Proof.
  induction a as [|x a IH]; [reflexivity|].
  rewrite !app_cons. now f_equal.
Qed.

Lemma has_char_app (c : ascii) (a b : string) :
  has_char c (a +:+ b) = has_char c a || has_char c b.
Proof.
  induction a as [|x a IH]; [reflexivity|].
  rewrite app_cons. cbn [has_char]. rewrite IH. now rewrite orb_assoc.
Qed.

(** [split] is never empty, and its parts are [before] and the split of
    [after]. *)
Lemma split_before_after (c : ascii) (s : string) :
  split c s = before c s :: match after c s with
                            | Some r => split c r
                            | None => []
                            end.
Proof.
  induction s as [|a s IH]; simpl; [reflexivity|].
  destruct (Ascii.eqb a c); [reflexivity|].
  rewrite IH. reflexivity.
Qed.

Lemma after_none (c : ascii) (s : string) :
  after c s = None <-> has_char c s = false.
Proof.
  induction s as [|a s IH]; simpl; [tauto|].
  destruct (Ascii.eqb a c); simpl; [split; discriminate | exact IH].
Qed.

Lemma before_no_char (c : ascii) (s : string) :
  has_char c s = false -> before c s = s.
Proof.
  induction s as [|a s IH]; simpl; [reflexivity|].
  destruct (Ascii.eqb a c); simpl; [discriminate|].
  intros H. now rewrite IH.
Qed.

Lemma before_app (c : ascii) (a b : string) :
  has_char c a = false -> before c (a +:+ String c b) = a.
Proof.
  induction a as [|x a IH]; rewrite ?app_cons, ?app_nil_l; cbn [before has_char].
  - now rewrite Ascii.eqb_refl.
  - destruct (Ascii.eqb x c); simpl; [discriminate|].
    intros H. now rewrite IH.
Qed.

Lemma after_app (c : ascii) (a b : string) :
  has_char c a = false -> after c (a +:+ String c b) = Some b.
Proof.
  induction a as [|x a IH]; rewrite ?app_cons, ?app_nil_l; cbn [after has_char].
  - now rewrite Ascii.eqb_refl.
  - destruct (Ascii.eqb x c); simpl; [discriminate | exact IH].
Qed.

(** Stripping on the left and on the right commute. *)
Lemma rstrip_lstrip (s : string) : rstrip (lstrip s) = lstrip (rstrip s).
Proof.
  induction s as [|c s IH]; [reflexivity|].
  cbn [lstrip rstrip]. destruct (is_space c) eqn:Hc.
  - rewrite IH. destruct (rstrip s) as [|d r]; [reflexivity|].
    cbn [lstrip]. now rewrite Hc.
  - cbn [rstrip]. destruct (rstrip s); cbn [lstrip]; rewrite ?Hc; reflexivity.
Qed.

Lemma lstrip_idem (s : string) : lstrip (lstrip s) = lstrip s.
Proof.
  induction s as [|c s IH]; [reflexivity|].
  cbn [lstrip]. destruct (is_space c) eqn:Hc; [exact IH|].
  cbn [lstrip]. now rewrite Hc.
Qed.

Lemma rstrip_idem (s : string) : rstrip (rstrip s) = rstrip s.
Proof.
  induction s as [|c s IH]; [reflexivity|].
  cbn [rstrip]. destruct (rstrip s) as [|d r] eqn:Hr.
  - destruct (is_space c) eqn:Hc; [reflexivity|].
    cbn [rstrip]. now rewrite Hc.
  - cbn [rstrip]. cbn [rstrip] in IH. rewrite IH. reflexivity.
Qed.

(** A non-space character stops the stripping. *)
Lemma lstrip_app_stop (a b : string) (c : ascii) :
  is_space c = false -> lstrip (a +:+ String c b) = lstrip a +:+ String c b.
Proof.
  intros Hc. induction a as [|x a IH]; rewrite ?app_cons, ?app_nil_l; cbn [lstrip].
  - now rewrite Hc.
  - destruct (is_space x); [exact IH | reflexivity].
Qed.

Lemma rstrip_app_stop (a b : string) (c : ascii) :
  is_space c = false -> rstrip (a +:+ String c b) = a +:+ String c (rstrip b).
Proof.
  intros Hc. induction a as [|x a IH]; rewrite ?app_cons, ?app_nil_l; cbn [rstrip].
  - destruct (rstrip b); [now rewrite Hc | reflexivity].
  - rewrite IH. destruct a; reflexivity.
Qed.

Lemma lstrip_space (c : ascii) (s : string) :
  is_space c = true -> lstrip (String c s) = lstrip s.
Proof. intros H. simpl. now rewrite H. Qed.

Lemma rstrip_app_space (s : string) (c : ascii) :
  is_space c = true -> rstrip (s +:+ String c "") = rstrip s.
Proof.
  intros Hc. induction s as [|x s IH]; rewrite ?app_cons, ?app_nil_l; cbn [rstrip].
  - now rewrite Hc.
  - now rewrite IH.
Qed.

Lemma has_char_lstrip (c : ascii) (s : string) :
  has_char c s = false -> has_char c (lstrip s) = false.
Proof.
  induction s as [|x s IH]; simpl; [reflexivity|].
  destruct (is_space x); simpl.
  - intros H. apply orb_false_iff in H. now apply IH.
  - trivial.
Qed.

Lemma has_char_rstrip (c : ascii) (s : string) :
  has_char c s = false -> has_char c (rstrip s) = false.
Proof.
  induction s as [|x s IH]; [reflexivity|].
  cbn [has_char rstrip]. intros H. apply orb_false_iff in H as [Hx Hs].
  specialize (IH Hs). destruct (rstrip s) as [|d r].
  - destruct (is_space x); simpl; [reflexivity | now rewrite Hx].
  - cbn [has_char]. cbn [has_char] in IH. now rewrite Hx, IH.
Qed.

End StrFacts.

(** ** Reading a parameter file *)
Module ReadFacts.
Import PyStr Spec StrFacts.

Lemma split_part0 (s : string) :
  list_index (split "=" s) 0 = Ok (before "=" s).
Proof. rewrite split_before_after. reflexivity. Qed.

Lemma split_part1 (s : string) :
  list_index (split "=" s) 1 =
    match after "=" s with
    | Some r => Ok (before "=" r)
    | None => Raise IndexError
    end.
Proof.
  rewrite split_before_after. destruct (after "=" s) as [r|]; [|reflexivity].
  rewrite split_before_after. reflexivity.
Qed.

Lemma read_loop_spec (lines : list string) (acc : pdict) :
  ParamFile.read_loop lines acc =
    if forallb (has_char "=") lines then Ok (fold_left loop_step lines acc)
    else Raise IndexError.
Proof.
  revert acc. induction lines as [|x lines IH]; intros acc; [reflexivity|].
  cbn [ParamFile.read_loop forallb fold_left].
  rewrite split_part0, split_part1, bind_Ok.
  destruct (after "=" x) as [r|] eqn:Ha.
  - assert (Hc : has_char "=" x = true).
    { destruct (has_char "=" x) eqn:Hc; [reflexivity|].
      apply after_none in Hc. congruence. }
    rewrite Hc, bind_Ok. cbn [andb]. rewrite IH.
    replace (loop_step acc x)
      with (PyDict.set acc (strip (before "=" x)) (VStr (strip (before "=" r))))
      by (unfold loop_step; now rewrite Ha).
    reflexivity.
  - apply after_none in Ha. rewrite Ha. reflexivity.
Qed.

Lemma filter_map_strip (lines : list string) :
  List.filter (fun x => negb (startswith x "#" || String.eqb x ""))
              (map strip lines)
  = map strip (List.filter kept lines).
Proof.
  induction lines as [|l lines IH]; [reflexivity|].
  cbn [map List.filter]. unfold kept at 1.
  replace (negb (strip l =? "")%string && negb (startswith (strip l) "#"))
    with (negb (startswith (strip l) "#" || (strip l =? "")%string))
    by (destruct (startswith (strip l) "#"), (strip l =? "")%string; reflexivity).
  destruct (negb _); cbn [map]; now rewrite IH.
Qed.

Lemma fold_loop_step_map (lines : list string) (acc : pdict) :
  fold_left loop_step (map strip lines) acc
  = fold_left (fun d raw => PyDict.set d (name_of raw) (VStr (value_of raw)))
              lines acc.
Proof.
  revert acc. induction lines as [|l lines IH]; intros acc; [reflexivity|].
  cbn [map fold_left]. rewrite IH. reflexivity.
Qed.

Lemma forallb_map_strip (lines : list string) :
  forallb (has_char "=") (map strip lines)
  = forallb (fun raw => has_char "=" (strip raw)) lines.
Proof.
  induction lines as [|l lines IH]; [reflexivity|].
  cbn [map forallb]. now rewrite IH.
Qed.

(** The reader, as a function of the lines of the text. *)
Lemma parse_param_text_spec (text : string) :
  ParamFile.parse_param_text text =
    if all_assigned (readlines text)
    then Ok (assemble value_of (readlines text))
    else Raise IndexError.
Proof.
  unfold ParamFile.parse_param_text, all_assigned, assemble.
  rewrite filter_map_strip, read_loop_spec, forallb_map_strip, fold_loop_step_map.
  reflexivity.
Qed.

End ReadFacts.

(** ** The claims about [read_param_file] *)

(** C3, as amended.  For every text file, [read_param_file] strips each
    line, drops the blank lines and the lines that start with the hash
    sign, and cuts every remaining line at each equals sign: the name is the
    stripped first piece and the value is the stripped second piece, so the
    line [a = b=c] gives the name [a] the value [b] (what follows the second
    equals sign is dropped).  It raises [IndexError] as soon as one
    remaining line has no equals sign. *)
Theorem read_param_file_cuts_at_each_equals (w : world) (path content : string) :
  fs w !! path = Some content ->
  let lines := PyStr.readlines (PyStr.universal_newlines content) in
  ParamFile.read_param_file path w =
    (if Spec.all_assigned lines then Ok (Spec.assemble Spec.value_of lines)
     else Raise IndexError, w)
  /\ Spec.value_of "a = b=c" = "b".
Proof.
  intros Hfile lines. split; [|reflexivity].
  unfold ParamFile.read_param_file. rewrite Hfile.
  now rewrite ReadFacts.parse_param_text_spec.
Qed.

Lemma read_param_file_cuts_at_each_equals_witness :
  fs Samples.w_base !! "/opt/FRED/params" = Some Samples.base_text
  /\ ParamFile.read_param_file "/opt/FRED/params" Samples.w_base
     = (Ok [("x", VStr "7"); ("a", VStr "b")], Samples.w_base).
Proof.
  assert (H : fs Samples.w_base !! "/opt/FRED/params" = Some Samples.base_text)
    by (vm_compute; reflexivity).
  split; [exact H|].
  rewrite (proj1 (read_param_file_cuts_at_each_equals _ _ _ H)).
  vm_compute. reflexivity.
Defined.

(** C3 as the specification words it fails: on the file of the sample the
    code gives [a] the value [b], the split at the first equals sign only
    would give [b=c]. *)
Lemma read_param_file_not_first_split :
  fst (ParamFile.read_param_file "/opt/FRED/params" Samples.w_base)
    = Ok [("x", VStr "7"); ("a", VStr "b")]
  /\ Spec.read_first_split Samples.base_text
    = Ok [("x", VStr "7"); ("a", VStr "b=c")]
  /\ fst (ParamFile.read_param_file "/opt/FRED/params" Samples.w_base)
     <> Spec.read_first_split Samples.base_text.
Proof.
  split; [vm_compute; reflexivity|].
  split; [vm_compute; reflexivity|].
  vm_compute. discriminate.
Qed.

(** ** Dictionaries *)
Module DictFacts.
Import PyDict.
Section Facts.
Context {K V : Type} `{EqDecision K}.
Implicit Types (d o : dict K V) (k : K) (v : V).

Lemma get_set_eq d k v : get (set d k v) k = Some v.
Proof.
  induction d as [|[k' v'] d IH]; simpl.
  - now rewrite decide_True.
  - destruct (decide (k' = k)) as [->|Hne]; simpl.
    + now rewrite decide_True.
    + now rewrite decide_False.
Qed.

Lemma get_set_ne d k k' v : k <> k' -> get (set d k v) k' = get d k'.
Proof.
  intros Hne. induction d as [|[k1 v1] d IH]; simpl.
  - now rewrite decide_False.
  - destruct (decide (k1 = k)) as [->|Hne1]; simpl.
    + now rewrite !decide_False.
    + destruct (decide (k1 = k')); [reflexivity | exact IH].
Qed.

Lemma get_None d k : k ∉ keys d -> get d k = None.
Proof.
  induction d as [|[k1 v1] d IH]; simpl; [reflexivity|].
  intros Hn. apply not_elem_of_cons in Hn as [Hne Hn].
  rewrite decide_False by congruence. now apply IH.
Qed.

Lemma get_Some_keys d k v : get d k = Some v -> k ∈ keys d.
Proof.
  induction d as [|[k1 v1] d IH]; simpl; [discriminate|].
  destruct (decide (k1 = k)) as [->|Hne]; intros Hg.
  - apply list_elem_of_here.
  - apply list_elem_of_further. now apply IH.
Qed.

(** Assigning a new key appends the entry. *)
Lemma set_new d k v : k ∉ keys d -> set d k v = d ++ [(k, v)].
Proof.
  induction d as [|[k1 v1] d IH]; simpl; [reflexivity|].
  intros Hn. apply not_elem_of_cons in Hn as [Hne Hn].
  rewrite decide_False by congruence. now rewrite IH.
Qed.

Lemma keys_set d k v :
  keys (set d k v) = if decide (k ∈ keys d) then keys d else keys d ++ [k].
Proof.
  induction d as [|[k1 v1] d IH].
  - cbn [set keys map fst]. case_decide as Hin; [|reflexivity].
    now apply not_elem_of_nil in Hin.
  - cbn [set]. change (keys ((k1, v1) :: d)) with (k1 :: keys d).
    destruct (decide (k1 = k)) as [->|Hne].
    + change (keys ((k, v) :: d)) with (k :: keys d).
      rewrite decide_True; [reflexivity | apply list_elem_of_here].
    + change (keys ((k1, v1) :: set d k v)) with (k1 :: keys (set d k v)).
      rewrite IH. destruct (decide (k ∈ keys d)) as [Hin|Hnin].
      * rewrite decide_True; [reflexivity | now apply list_elem_of_further].
      * rewrite decide_False; [reflexivity|].
        intros Hin. apply elem_of_cons in Hin as [?|?]; congruence.
Qed.

Lemma wf_set d k v : wf d -> wf (set d k v).
Proof.
  unfold wf. intros Hd. rewrite keys_set.
  destruct (decide (k ∈ keys d)); [exact Hd|].
  apply NoDup_app. split; [exact Hd|]. split.
  - intros x Hx Hx'. apply list_elem_of_singleton in Hx'. congruence.
  - apply NoDup_singleton.
Qed.

Lemma wf_update d o : wf d -> wf (update d o).
Proof.
  revert d. induction o as [|[k v] o IH]; intros d Hd; simpl; [exact Hd|].
  apply IH. now apply wf_set.
Qed.

(** Precedence of [update]: the entries of the argument win. *)
Lemma get_update d o k :
  wf o ->
  get (update d o) k = match get o k with
                       | Some v => Some v
                       | None => get d k
                       end.
Proof.
  revert d. induction o as [|[k1 v1] o IH]; intros d Ho; simpl; [reflexivity|].
  unfold wf in Ho. simpl in Ho. apply NoDup_cons in Ho as [Hn Ho].
  rewrite IH by exact Ho.
  destruct (decide (k1 = k)) as [->|Hne].
  - rewrite (get_None o k Hn). apply get_set_eq.
  - now rewrite get_set_ne.
Qed.

End Facts.
End DictFacts.

(** ** The defaults cache *)
Module CacheFacts.
Import State.

Lemma read_param_file_eq (path : string) (w : world) :
  ParamFile.read_param_file path w = (file_params w path, w).
Proof.
  unfold ParamFile.read_param_file, file_params.
  destruct (fs w !! path); reflexivity.
Qed.

Lemma path_exists_eq (p : string) (w : world) :
  path_exists p w = (Ok (match fs w !! p with Some _ => true | None => false end), w).
Proof.
  unfold path_exists, gets. destruct (fs w !! p) eqn:E.
  - rewrite bool_decide_eq_true_2; [reflexivity | eauto].
  - rewrite bool_decide_eq_false_2; [reflexivity|].
    intros [x Hx]. discriminate.
Qed.

(** A call that finds the cache filled copies the cached mapping. *)
Lemma get_default_params_hit (w : world) (c : nat) (d : pdict) :
  default_params w = Some c -> heap w !! c = Some d ->
  ParamFile.get_default_params w
  = (Ok (length (heap w)), set_heap (heap w ++ [d]) w).
Proof.
  intros Hc Hd. unfold ParamFile.get_default_params.
  rewrite (M_bind_Ok _ _ w w (Some c)) by (unfold gets; now rewrite Hc).
  unfold dict_copy.
  rewrite (M_bind_Ok _ _ w w d) by (unfold load; now rewrite Hd).
  reflexivity.
Qed.

(** A call that finds the cache empty reads the defaults file, returns the
    mapping read and caches a copy of it. *)
Lemma get_default_params_miss (w : world) :
  default_params w = None ->
  ParamFile.get_default_params w
  = match current_defaults w with
    | Ok d =>
        (Ok (length (heap w)),
         set_default_params (Some (S (length (heap w))))
           (set_heap (heap w ++ [d; d]) w))
    | Raise e => (Raise e, w)
    end.
Proof.
  intros Hc. unfold ParamFile.get_default_params, current_defaults, defaults_text.
  rewrite Hc.
  rewrite (M_bind_Ok _ _ w w None) by (unfold gets; now rewrite Hc).
  erewrite M_bind_Ok by apply path_exists_eq.
  erewrite M_bind_Ok by reflexivity.
  destruct (fs w !! "defaults") as [content|] eqn:Hhere.
  - erewrite M_bind_Ok by apply path_exists_eq.
    rewrite Hhere. cbn [negb]. rewrite bind_Ok.
    destruct (ParamFile.parse_param_text (PyStr.universal_newlines content))
      as [d|e] eqn:Hparse.
    + erewrite M_bind_Ok
        by (rewrite read_param_file_eq; unfold file_params; rewrite Hhere, Hparse;
            reflexivity).
      unfold alloc, dict_copy, load, modify, mbind, M_bind, mret, M_ret; simpl.
      rewrite lookup_app_r by lia. rewrite Nat.sub_diag. simpl.
      unfold set_default_params, set_heap; simpl.
      rewrite <- app_assoc, length_app. simpl.
      repeat f_equal. lia.
    + erewrite M_bind_Raise
        by (rewrite read_param_file_eq; unfold file_params; rewrite Hhere, Hparse;
            reflexivity).
      reflexivity.
  - erewrite M_bind_Ok by apply path_exists_eq.
    set (p := path_join (path_join (FRED_HOME w) "input_files") "defaults").
    destruct (fs w !! p) as [content|] eqn:Hthere; cbn [negb].
    + rewrite bind_Ok.
      destruct (ParamFile.parse_param_text (PyStr.universal_newlines content))
        as [d|e] eqn:Hparse.
      * erewrite M_bind_Ok
          by (rewrite read_param_file_eq; unfold file_params; rewrite Hthere, Hparse;
              reflexivity).
        unfold alloc, dict_copy, load, modify, mbind, M_bind, mret, M_ret; simpl.
        rewrite lookup_app_r by lia. rewrite Nat.sub_diag. simpl.
        unfold set_default_params, set_heap; simpl.
        rewrite <- app_assoc, length_app. simpl.
        repeat f_equal. lia.
      * erewrite M_bind_Raise
          by (rewrite read_param_file_eq; unfold file_params; rewrite Hthere, Hparse;
              reflexivity).
        reflexivity.
    + reflexivity.
Qed.

End CacheFacts.

Module CacheInvariant.
Import State CacheFacts.

Lemma inv_call (c : nat) (d : pdict) (refs : list nat) (w : world) :
  inv c d refs w ->
  exists w', ParamFile.get_default_params w = (Ok (length (heap w)), w')
    /\ fst (load (length (heap w)) w') = Ok d
    /\ inv c d (refs ++ [length (heap w)]) w'.
Proof.
  intros (Hc & Hd & Hn & Hb).
  exists (set_heap (heap w ++ [d]) w).
  pose proof (lookup_lt_Some _ _ _ Hd) as Hlt.
  split; [now apply (get_default_params_hit w c d)|]. split.
  - unfold load. cbn [set_heap heap].
    rewrite lookup_app_r by lia. now rewrite Nat.sub_diag.
  - repeat split; cbn [set_heap heap default_params].
    + exact Hc.
    + now rewrite lookup_app_l.
    + rewrite elem_of_app, list_elem_of_singleton. intros [?|?]; [tauto | lia].
    + intros r Hr. rewrite length_app. cbn [length].
      apply elem_of_app in Hr as [Hr|Hr].
      * specialize (Hb r Hr). lia.
      * apply list_elem_of_singleton in Hr. lia.
Qed.

Lemma inv_mutate (c : nat) (d : pdict) (refs : list nat) (w : world)
    (r : nat) (f : pdict -> pdict) :
  inv c d refs w -> r ∈ refs ->
  inv c d refs (snd ((d0 ← load r; store r (f d0)) w)).
Proof.
  intros (Hc & Hd & Hn & Hb) Hr.
  unfold mbind, M_bind, load, store, modify.
  destruct (heap w !! r) as [d0|]; cbn [snd]; [|now repeat split].
  repeat split; cbn [set_heap heap default_params].
  - exact Hc.
  - rewrite list_lookup_insert_ne; [exact Hd | congruence].
  - exact Hn.
  - intros r' Hr'. rewrite length_insert. now apply Hb.
Qed.

Lemma inv_files (c : nat) (d : pdict) (refs : list nat) (w : world)
    (files : gmap string string) :
  inv c d refs w -> inv c d refs (set_fs files w).
Proof. intros H. exact H. Qed.


(** Whatever the callers do, every call answers [d] and the cache stays. *)
Lemma client_inv (acts : list action) :
  forall (c : nat) (d : pdict) (refs : list nat) (w : world),
    inv c d refs w ->
    Forall (fun res => res = Ok d) (fst (client acts refs w))
    /\ exists refs', inv c d refs' (snd (client acts refs w)).
Proof.
  induction acts as [|a acts IH]; intros c d refs w Hinv.
  - split; [constructor | now exists refs].
  - destruct a as [|i f|path content|path]; cbn [client].
    + destruct (inv_call c d refs w Hinv) as (w' & Hcall & Hload & Hinv').
      rewrite Hcall. cbn [fst snd].
      destruct (IH c d _ w' Hinv') as [Hall Hfinal].
      split; [constructor; assumption | exact Hfinal].
    + destruct (refs !! i) as [r|] eqn:Hi; [|now apply IH].
      apply IH. apply inv_mutate; [exact Hinv|].
      eapply list_elem_of_lookup_2; eassumption.
    + apply IH. now apply inv_files.
    + apply IH. now apply inv_files.
Qed.

(** The state after a successful call. *)
Lemma inv_after_call (w w1 : world) (r : nat) :
  cache_ok w -> ParamFile.get_default_params w = (Ok r, w1) ->
  exists c d, fst (load r w1) = Ok d /\ inv c d [r] w1.
Proof.
  intros Hok Hcall. unfold cache_ok in Hok.
  destruct (default_params w) as [c|] eqn:Hc.
  - destruct Hok as [d Hd].
    rewrite (get_default_params_hit w c d Hc Hd) in Hcall.
    injection Hcall as <- <-.
    pose proof (lookup_lt_Some _ _ _ Hd) as Hlt.
    exists c, d. split.
    + unfold load. cbn [set_heap heap].
      rewrite lookup_app_r by lia. now rewrite Nat.sub_diag.
    + repeat split; cbn [set_heap heap default_params].
      * exact Hc.
      * now rewrite lookup_app_l.
      * rewrite list_elem_of_singleton. lia.
      * intros r Hr. apply list_elem_of_singleton in Hr.
        rewrite length_app. cbn [length]. lia.
  - rewrite (get_default_params_miss w Hc) in Hcall.
    destruct (current_defaults w) as [d|e]; [|discriminate].
    injection Hcall as <- <-.
    exists (S (length (heap w))), d. split.
    + unfold load. cbn [set_default_params set_heap heap].
      rewrite lookup_app_r by lia. now rewrite Nat.sub_diag.
    + repeat split; cbn [set_default_params set_heap heap default_params].
      * rewrite lookup_app_r by lia.
        now replace (S (length (heap w)) - length (heap w)) with 1 by lia.
      * rewrite list_elem_of_singleton. lia.
      * intros r Hr. apply list_elem_of_singleton in Hr.
        rewrite length_app. cbn [length]. lia.
Qed.

End CacheInvariant.

(** C8.  After a successful call of [get_default_params] the cache is
    filled and stays as it is: whatever the callers do afterwards (change
    the mappings they were given, write or remove files, call again), every
    later call succeeds and returns a mapping with the content of the first
    result, the global keeps referring to the same cached object, and that
    object keeps its content. *)
Theorem defaults_cache_filled_once (w w1 : world) (r : nat) :
  State.cache_ok w ->
  ParamFile.get_default_params w = (Ok r, w1) ->
  exists (c : nat) (d : pdict),
    fst (load r w1) = Ok d
    /\ default_params w1 = Some c
    /\ forall acts : list State.action,
         let out := State.client acts [r] w1 in
         Forall (fun res => res = Ok d) (fst out)
         /\ default_params (snd out) = Some c
         /\ heap (snd out) !! c = Some d.
Proof.
  intros Hok Hcall.
  destruct (CacheInvariant.inv_after_call w w1 r Hok Hcall) as (c & d & Hload & Hinv).
  exists c, d. split; [exact Hload|]. split; [apply Hinv|].
  intros acts out.
  destruct (CacheInvariant.client_inv acts c d [r] w1 Hinv) as [Hall [refs' Hfinal]].
  split; [exact Hall|]. split; apply Hfinal.
Qed.

Lemma defaults_cache_filled_once_witness :
  State.cache_ok Samples.w_defaults
  /\ exists (c : nat) (d : pdict),
       fst (load 0 (snd (ParamFile.get_default_params Samples.w_defaults))) = Ok d
       /\ default_params (snd (ParamFile.get_default_params Samples.w_defaults)) = Some c
       /\ forall acts : list State.action,
            let out := State.client acts [0]
                         (snd (ParamFile.get_default_params Samples.w_defaults)) in
            Forall (fun res => res = Ok d) (fst out)
            /\ default_params (snd out) = Some c
            /\ heap (snd out) !! c = Some d.
Proof.
  split; [exact I|].
  apply (defaults_cache_filled_once Samples.w_defaults); [exact I|].
  vm_compute. reflexivity.
Defined.

(** ** Writing a parameter file *)
Module DumpFacts.
Import State CacheFacts CacheInvariant.

Lemma fold_set_wf (lines : list string) (value : string -> string) (acc : pdict) :
  PyDict.wf acc ->
  PyDict.wf (fold_left (fun d raw => PyDict.set d (Spec.name_of raw) (VStr (value raw)))
                       lines acc).
Proof.
  revert acc. induction lines as [|l lines IH]; intros acc Hacc; [exact Hacc|].
  cbn [fold_left]. apply IH. now apply DictFacts.wf_set.
Qed.

(** A mapping read from a file has pairwise different keys. *)
Lemma parse_param_text_wf (text : string) (d : pdict) :
  ParamFile.parse_param_text text = Ok d -> PyDict.wf d.
Proof.
  rewrite ReadFacts.parse_param_text_spec.
  destruct (Spec.all_assigned _); [|discriminate].
  intros [= <-]. apply fold_set_wf. apply NoDup_nil_2.
Qed.

Lemma file_params_wf (w : world) (path : string) (d : pdict) :
  file_params w path = Ok d -> PyDict.wf d.
Proof.
  unfold file_params. destruct (fs w !! path); [|discriminate].
  apply parse_param_text_wf.
Qed.

Lemma load_ok (r : nat) (w : world) (d : pdict) :
  heap w !! r = Some d -> load r w = (Ok d, w).
Proof. intros H. unfold load. now rewrite H. Qed.

Lemma dict_update_ok (r : nat) (other : pdict) (w : world) (d : pdict) :
  heap w !! r = Some d ->
  dict_update r other w
  = (Ok tt, set_heap (<[r := PyDict.update d other]> (heap w)) w).
Proof.
  intros H. unfold dict_update.
  erewrite M_bind_Ok by (apply load_ok; exact H). reflexivity.
Qed.

Lemma write_params_eq (float_str : spec_float -> string) (path : string)
    (d : pdict) (w : world) :
  ParamFile.write_params float_str path d w
  = (Ok tt, set_trail (trail w ++ [EvOpenWrite path])
              (set_fs (<[path := ParamFile.render_params float_str d]> (fs w)) w)).
Proof. reflexivity. Qed.

(** [get_default_params] succeeds whenever the defaults are available. *)
Lemma get_default_params_total (w : world) (d : pdict) :
  cache_ok w -> current_defaults w = Ok d ->
  exists c w1,
    ParamFile.get_default_params w = (Ok (length (heap w)), w1)
    /\ inv c d [length (heap w)] w1
    /\ heap w1 !! length (heap w) = Some d
    /\ fs w1 = fs w /\ trail w1 = trail w /\ FRED_HOME w1 = FRED_HOME w.
Proof.
  intros Hok Hcur. unfold cache_ok in Hok.
  destruct (default_params w) as [c|] eqn:Hc.
  - destruct Hok as [d' Hd'].
    assert (d' = d) as ->.
    { unfold current_defaults in Hcur. rewrite Hc, Hd' in Hcur. congruence. }
    pose proof (lookup_lt_Some _ _ _ Hd') as Hlt.
    exists c, (set_heap (heap w ++ [d]) w).
    split; [now apply (get_default_params_hit w c d)|].
    split; [|split; [|now repeat split]].
    + repeat split; cbn [set_heap heap default_params].
      * exact Hc.
      * now rewrite lookup_app_l.
      * rewrite list_elem_of_singleton. lia.
      * intros r Hr. apply list_elem_of_singleton in Hr.
        rewrite length_app. cbn [length]. lia.
    + cbn [set_heap heap]. rewrite lookup_app_r by lia. now rewrite Nat.sub_diag.
  - exists (S (length (heap w))),
      (set_default_params (Some (S (length (heap w)))) (set_heap (heap w ++ [d; d]) w)).
    split; [now rewrite (get_default_params_miss w Hc), Hcur|].
    split; [|split; [|now repeat split]].
    + repeat split; cbn [set_default_params set_heap heap default_params].
      * rewrite lookup_app_r by lia.
        now replace (S (length (heap w)) - length (heap w)) with 1 by lia.
      * rewrite list_elem_of_singleton. lia.
      * intros r Hr. apply list_elem_of_singleton in Hr.
        rewrite length_app. cbn [length]. lia.
    + cbn [set_default_params set_heap heap].
      rewrite lookup_app_r by lia. now rewrite Nat.sub_diag.
Qed.


(** [dump_parameter_file] succeeds when the defaults and the base file can
    be read; it writes the merged mapping, adds the event of the write and
    leaves the defaults as they were. *)
Lemma dump_parameter_file_ok (float_str : spec_float -> string)
    (path args_params : string) (sampled : pdict) (w : world) (defaults base : pdict) :
  cache_ok w -> current_defaults w = Ok defaults ->
  file_params w args_params = Ok base ->
  exists w',
    ParamFile.dump_parameter_file float_str path args_params sampled w = (Ok tt, w')
    /\ fs w' = <[path := ParamFile.render_params float_str (merged defaults base sampled)]> (fs w)
    /\ trail w' = trail w ++ [EvOpenWrite path]
    /\ FRED_HOME w' = FRED_HOME w
    /\ cache_ok w' /\ (exists c, default_params w' = Some c)
    /\ current_defaults w' = Ok defaults.
Proof.
  intros Hok Hcur Hbase.
  destruct (get_default_params_total w defaults Hok Hcur)
    as (c & w1 & Hcall & Hinv & Hr & Hfs & Htrail & Hhome).
  set (r := length (heap w)) in *.
  destruct Hinv as (Hc & Hd & Hn & Hb).
  assert (Hrlt : r < length (heap w1)) by (apply Hb, list_elem_of_singleton; reflexivity).
  assert (Hcr : c <> r) by (intros ->; apply Hn, list_elem_of_singleton; reflexivity).
  unfold ParamFile.dump_parameter_file.
  erewrite M_bind_Ok by exact Hcall.
  erewrite M_bind_Ok
    by (rewrite read_param_file_eq; unfold file_params; rewrite Hfs;
        fold (file_params w args_params); rewrite Hbase; reflexivity).
  erewrite M_bind_Ok by (apply dict_update_ok; exact Hr).
  erewrite M_bind_Ok
    by (apply dict_update_ok; cbn [set_heap heap];
        apply list_lookup_insert_eq; exact Hrlt).
  erewrite M_bind_Ok
    by (apply load_ok; cbn [set_heap heap];
        apply list_lookup_insert_eq; rewrite length_insert; exact Hrlt).
  rewrite write_params_eq.
  eexists. split; [reflexivity|].
  cbn [set_trail set_fs set_heap fs trail heap FRED_HOME default_params].
  rewrite Hfs, Htrail, Hhome.
  split; [reflexivity|]. split; [reflexivity|]. split; [reflexivity|].
  assert (Hfinal : <[r:=PyDict.update (PyDict.update defaults base) sampled]>
                     (<[r:=PyDict.update defaults base]> (heap w1)) !! c = Some defaults).
  { rewrite !list_lookup_insert_ne by congruence. exact Hd. }
  split; [|split; [exists c; exact Hc|]].
  - unfold cache_ok.
    cbn [set_trail set_fs set_heap fs trail heap FRED_HOME default_params].
    rewrite Hc. eauto.
  - unfold current_defaults.
    cbn [set_trail set_fs set_heap fs trail heap FRED_HOME default_params].
    now rewrite Hc, Hfinal.
Qed.

End DumpFacts.

(** C5.  [dump_parameter_file] layers the defaults, the base file and the
    overlay of sampled values: when the defaults and the base file can be
    read it succeeds and writes a mapping in which every key has the value
    of the highest layer that holds it (defaults below base below overlay);
    keys that the later layers lack keep the value of the earlier ones.
    The layers [{a: 1, b: 2}], [{b: 3, c: 4}] and [{c: 5}] merge to
    [{a: 1, b: 3, c: 5}]. *)
Theorem dump_parameter_file_layering (float_str : spec_float -> string)
    (path args_params : string) (sampled : pdict) (w : world)
    (defaults base : pdict) :
  State.cache_ok w ->
  State.current_defaults w = Ok defaults ->
  State.file_params w args_params = Ok base ->
  PyDict.wf sampled ->
  (exists w',
     ParamFile.dump_parameter_file float_str path args_params sampled w = (Ok tt, w')
     /\ fs w' !! path
        = Some (ParamFile.render_params float_str (State.merged defaults base sampled)))
  /\ (forall k : string,
        PyDict.get (State.merged defaults base sampled) k
        = match PyDict.get sampled k with
          | Some v => Some v
          | None => match PyDict.get base k with
                    | Some v => Some v
                    | None => PyDict.get defaults k
                    end
          end)
  /\ State.merged Samples.layer_defaults Samples.layer_base Samples.layer_overlay
     = Samples.layer_merged.
Proof.
  intros Hok Hcur Hbase Hwf. split; [|split; [|reflexivity]].
  - destruct (DumpFacts.dump_parameter_file_ok float_str path args_params sampled
                w defaults base Hok Hcur Hbase) as (w' & Hrun & Hfs & _).
    exists w'. split; [exact Hrun|]. rewrite Hfs. apply lookup_insert_eq.
  - intros k. unfold State.merged.
    rewrite DictFacts.get_update by exact Hwf.
    destruct (PyDict.get sampled k); [reflexivity|].
    apply DictFacts.get_update. eapply DumpFacts.file_params_wf. exact Hbase.
Qed.

Lemma dump_parameter_file_layering_witness :
  ParamFile.dump_parameter_file Samples.float_str_any "run/params0"
    "run/params_generated" Samples.layer_overlay Samples.w_layers
  = (Ok tt,
     snd (ParamFile.dump_parameter_file Samples.float_str_any "run/params0"
            "run/params_generated" Samples.layer_overlay Samples.w_layers))
  /\ fs (snd (ParamFile.dump_parameter_file Samples.float_str_any "run/params0"
                "run/params_generated" Samples.layer_overlay Samples.w_layers))
       !! "run/params0"
     = Some ("a = 1" +:+ Samples.nl +:+ "b = 3" +:+ Samples.nl
             +:+ "c = 5" +:+ Samples.nl).
Proof.
  destruct (dump_parameter_file_layering Samples.float_str_any "run/params0"
              "run/params_generated" Samples.layer_overlay Samples.w_layers
              Samples.layer_defaults Samples.layer_base)
    as [(w' & Hrun & Hfile) _].
  - exact I.
  - vm_compute. reflexivity.
  - vm_compute. reflexivity.
  - unfold PyDict.wf. vm_compute. apply NoDup_cons. split; [|apply NoDup_nil_2].
    apply not_elem_of_nil.
  - rewrite Hrun. cbn [snd]. split; [reflexivity|].
    rewrite Hfile. vm_compute. reflexivity.
Defined.

(** ** Writing and reading back *)
Module RoundTrip.
Import PyStr Spec StrFacts Format.

Lemma lstrip_length (s : string) : String.length (lstrip s) <= String.length s.
Proof.
  induction s as [|c s IH]; cbn [lstrip]; [lia|].
  destruct (is_space c); cbn [String.length]; lia.
Qed.

(** A text without space on the left is empty or starts with a character
    that is not a space. *)
Lemma lstrip_fix (c : ascii) (s : string) :
  lstrip (String c s) = String c s -> is_space c = false.
Proof.
  cbn [lstrip]. destruct (is_space c); [|reflexivity].
  intros H. pose proof (lstrip_length s) as Hl. rewrite H in Hl.
  cbn [String.length] in Hl. lia.
Qed.

Lemma startswith_nil (s : string) : startswith s "" = true.
Proof. destruct s; reflexivity. Qed.

Lemma universal_newlines_id (s : string) :
  has_char CR s = false -> universal_newlines s = s.
Proof.
  induction s as [|c s IH]; [reflexivity|].
  cbn [has_char universal_newlines]. intros H.
  apply orb_false_iff in H as [Hc Hs]. rewrite Hc. now rewrite IH.
Qed.

Lemma readlines_line (a rest : string) :
  has_char LF a = false ->
  readlines (a +:+ String LF rest) = (a +:+ String LF "") :: readlines rest.
Proof.
  induction a as [|c a IH]; rewrite ?app_cons, ?app_nil_l; cbn [has_char readlines].
  - intros _. now rewrite Ascii.eqb_refl.
  - intros H. apply orb_false_iff in H as [Hc Ha]. rewrite Hc.
    now rewrite (IH Ha).
Qed.

(** The shape of a written line: name and a space, the equals sign, a
    space, the value and the end of the line. *)
Lemma line_of_shape (k v : string) :
  line_of k v = (k +:+ " ") +:+ String "=" (String " " (v +:+ String LF "")).
Proof. unfold line_of. now rewrite app_assoc. Qed.

Lemma strip_line_of (k v : string) :
  strip (line_of k v)
  = lstrip (k +:+ " ") +:+ String "=" (rstrip (String " " (v +:+ String LF ""))).
Proof.
  rewrite line_of_shape. unfold strip.
  rewrite lstrip_app_stop by reflexivity.
  now rewrite rstrip_app_stop by reflexivity.
Qed.

Lemma strip_name_part (k : string) :
  trimmed k -> strip (lstrip (k +:+ " ")) = k.
Proof.
  intros [Hl Hr]. unfold strip.
  rewrite lstrip_idem, rstrip_lstrip.
  rewrite rstrip_app_space by reflexivity. now rewrite Hr.
Qed.

Lemma strip_value_part (v : string) :
  trimmed v -> strip (rstrip (String " " (v +:+ String LF ""))) = v.
Proof.
  intros [Hl Hr]. unfold strip.
  rewrite <- rstrip_lstrip, rstrip_idem.
  rewrite lstrip_space by reflexivity.
  rewrite rstrip_lstrip, rstrip_app_space by reflexivity.
  now rewrite Hr.
Qed.

Lemma no_equals_name_part (k : string) :
  has_char "=" k = false -> has_char "=" (lstrip (k +:+ " ")) = false.
Proof.
  intros H. apply has_char_lstrip. rewrite has_char_app, H. reflexivity.
Qed.

Lemma no_equals_value_part (v : string) :
  has_char "=" v = false ->
  has_char "=" (rstrip (String " " (v +:+ String LF ""))) = false.
Proof.
  intros H. apply has_char_rstrip. cbn [has_char].
  rewrite has_char_app, H. reflexivity.
Qed.

Lemma name_of_line (k v : string) :
  plain k -> name_of (line_of k v) = k.
Proof.
  intros (He & _ & _ & Ht). unfold name_of. rewrite strip_line_of.
  rewrite before_app by now apply no_equals_name_part.
  now apply strip_name_part.
Qed.

Lemma value_of_line (k v : string) :
  plain k -> plain v -> value_of (line_of k v) = v.
Proof.
  intros (Hek & _) (Hev & _ & _ & Ht). unfold value_of. rewrite strip_line_of.
  rewrite after_app by now apply no_equals_name_part.
  cbn [default]. rewrite before_no_char by now apply no_equals_value_part.
  now apply strip_value_part.
Qed.

Lemma assigned_line (k v : string) :
  has_char "=" (strip (line_of k v)) = true.
Proof.
  rewrite strip_line_of, has_char_app. cbn [has_char].
  rewrite Ascii.eqb_refl. cbn [orb]. apply orb_true_r.
Qed.

Lemma kept_line (k v : string) :
  plain_name k -> kept (line_of k v) = true.
Proof.
  intros [(_ & _ & _ & [Hl _]) Hhash]. unfold kept. rewrite strip_line_of.
  destruct k as [|c k].
  - reflexivity.
  - pose proof (lstrip_fix c k Hl) as Hc.
    rewrite app_cons. cbn [lstrip]. rewrite Hc, app_cons.
    cbn [startswith] in Hhash |- *.
    destruct (Ascii.eqb "#" c); [|reflexivity].
    now rewrite startswith_nil in Hhash.
Qed.

End RoundTrip.

Module RoundTripProof.
Import PyStr Spec StrFacts Format RoundTrip.

Lemma render_cons (float_str : spec_float -> string) (k v : string)
    (d : PyDict.dict string string) :
  ParamFile.render_params float_str (as_params ((k, v) :: d))
  = (k +:+ " = " +:+ v) +:+ String LF (ParamFile.render_params float_str (as_params d)).
Proof.
  cbn [as_params fmap list_fmap ParamFile.render_params fst snd ParamFile.format_value].
  now rewrite !app_assoc.
Qed.

Lemma render_no_cr (float_str : spec_float -> string) (d : PyDict.dict string string) :
  Forall entry_ok d ->
  has_char CR (ParamFile.render_params float_str (as_params d)) = false.
Proof.
  induction 1 as [|[k v] d [[(_ & _ & Hk & _) _] (_ & _ & Hv & _)] _ IH]; [reflexivity|].
  rewrite render_cons, !has_char_app. cbn [has_char fst snd] in *.
  now rewrite Hk, Hv, IH.
Qed.

Lemma readlines_render (float_str : spec_float -> string)
    (d : PyDict.dict string string) :
  Forall entry_ok d ->
  readlines (ParamFile.render_params float_str (as_params d))
  = map (fun kv => line_of (fst kv) (snd kv)) d.
Proof.
  induction 1 as [|[k v] d [[(_ & Hk & _) _] (_ & Hv & _)] _ IH]; [reflexivity|].
  rewrite render_cons. cbn [fst snd] in *.
  rewrite readlines_line by (rewrite !has_char_app, Hk, Hv; reflexivity).
  rewrite IH. cbn [map fst snd]. unfold line_of. now rewrite !app_assoc.
Qed.

Lemma filter_kept_lines (d : PyDict.dict string string) :
  Forall entry_ok d ->
  List.filter kept (map (fun kv => line_of (fst kv) (snd kv)) d)
  = map (fun kv => line_of (fst kv) (snd kv)) d.
Proof.
  induction 1 as [|[k v] d [Hk _] _ IH]; [reflexivity|].
  cbn [map List.filter fst snd] in *. rewrite (kept_line k v Hk). now rewrite IH.
Qed.

Lemma forallb_assigned (d : PyDict.dict string string) :
  forallb (fun raw => has_char "=" (strip raw))
          (map (fun kv => line_of (fst kv) (snd kv)) d) = true.
Proof.
  induction d as [|[k v] d IH]; [reflexivity|].
  cbn [map forallb fst snd]. now rewrite assigned_line, IH.
Qed.

Lemma keys_app (a b : pdict) : PyDict.keys (a ++ b) = PyDict.keys a ++ PyDict.keys b.
Proof. unfold PyDict.keys. apply map_app. Qed.

(** Reading the written lines adds the entries one after the other. *)
Lemma fold_lines (d : PyDict.dict string string) :
  forall acc : pdict,
    Forall entry_ok d -> NoDup (PyDict.keys acc ++ PyDict.keys d) ->
    fold_left (fun m raw => PyDict.set m (name_of raw) (VStr (value_of raw)))
              (map (fun kv => line_of (fst kv) (snd kv)) d) acc
    = acc ++ as_params d.
Proof.
  induction d as [|[k v] d IH]; intros acc Hok Hnd.
  - cbn. now rewrite List.app_nil_r.
  - apply Forall_cons in Hok as [[[Hk _] Hv] Hok]. cbn [fst snd] in *.
    cbn [map fold_left fst snd].
    rewrite (name_of_line k v Hk), (value_of_line k v Hk Hv).
    cbn [PyDict.keys map fst] in Hnd.
    assert (Hnew : k ∉ PyDict.keys acc).
    { apply NoDup_app in Hnd as (_ & Hdis & _). intros Hin.
      apply (Hdis k Hin). apply list_elem_of_here. }
    rewrite (DictFacts.set_new acc k (VStr v) Hnew).
    rewrite IH; [| exact Hok |].
    + rewrite <- List.app_assoc. reflexivity.
    + rewrite keys_app. cbn [PyDict.keys map fst]. rewrite <- List.app_assoc. exact Hnd.
Qed.

Lemma parse_render (float_str : spec_float -> string) (d : PyDict.dict string string) :
  PyDict.wf d -> Forall entry_ok d ->
  ParamFile.parse_param_text
    (universal_newlines (ParamFile.render_params float_str (as_params d)))
  = Ok (as_params d).
Proof.
  intros Hwf Hok.
  rewrite universal_newlines_id by now apply render_no_cr.
  rewrite ReadFacts.parse_param_text_spec.
  unfold all_assigned, assemble.
  rewrite readlines_render, filter_kept_lines by exact Hok.
  rewrite forallb_assigned. f_equal.
  now apply (fold_lines d []).
Qed.

End RoundTripProof.

(** C4, as amended.  A mapping from names to texts is reproduced by writing
    it in the format of [dump_parameter_file] (one line [name = value] per
    entry) and reading the file with [read_param_file], provided names and
    values alike hold no equals sign and no line break and have no
    whitespace at their ends, and no name starts with the hash sign. *)
Theorem param_file_round_trip (float_str : spec_float -> string)
    (d : PyDict.dict string string) (w : world) (path : string) :
  PyDict.wf d ->
  Forall Format.entry_ok d ->
  exists w',
    ParamFile.write_params float_str path (Spec.as_params d) w = (Ok tt, w')
    /\ ParamFile.read_param_file path w' = (Ok (Spec.as_params d), w').
Proof.
  intros Hwf Hok. rewrite DumpFacts.write_params_eq. eexists. split; [reflexivity|].
  rewrite CacheFacts.read_param_file_eq. f_equal.
  unfold State.file_params. cbn [set_trail set_fs fs].
  rewrite lookup_insert_eq. now apply RoundTripProof.parse_render.
Qed.

Lemma param_file_round_trip_witness :
  PyDict.wf Samples.d_plain
  /\ Forall Format.entry_ok Samples.d_plain
  /\ exists w',
       ParamFile.write_params Samples.float_str_any "run/params_generated"
         (Spec.as_params Samples.d_plain) (Samples.fresh []) = (Ok tt, w')
       /\ ParamFile.read_param_file "run/params_generated" w'
          = (Ok (Spec.as_params Samples.d_plain), w').
Proof.
  assert (Hwf : PyDict.wf Samples.d_plain).
  { apply (bool_decide_unpack _). vm_compute. exact I. }
  assert (Hok : Forall Format.entry_ok Samples.d_plain).
  { repeat constructor; vm_compute; reflexivity. }
  split; [exact Hwf|]. split; [exact Hok|].
  exact (param_file_round_trip Samples.float_str_any Samples.d_plain
           (Samples.fresh []) "run/params_generated" Hwf Hok).
Defined.

(** C4 as the specification words it (only the names are restricted) fails:
    the name [a] is plain, the value [b=c] is written as it is and read
    back as [b]. *)
Lemma param_file_round_trip_loses_equals :
  Format.plain_name "a"
  /\ fst (ParamFile.read_param_file "run/params_generated"
            (snd (ParamFile.write_params Samples.float_str_any "run/params_generated"
                    (Spec.as_params Samples.d_equals) (Samples.fresh []))))
     = Ok [("a", VStr "b")]
  /\ fst (ParamFile.read_param_file "run/params_generated"
            (snd (ParamFile.write_params Samples.float_str_any "run/params_generated"
                    (Spec.as_params Samples.d_equals) (Samples.fresh []))))
     <> Ok (Spec.as_params Samples.d_equals).
Proof.
  split; [repeat split; vm_compute; reflexivity|].
  split; [vm_compute; reflexivity|].
  vm_compute. discriminate.
Qed.

(** ** The day count *)
Module InitFacts.
Import State Config.

Lemma init_after_resolve (float_str : spec_float -> string) (a : args)
    (w w1 : world) (base bp : pdict) (d : Z) :
  file_params w (params_base a) = Ok base ->
  resolve_days a (PyDict.set base "fips" (VInt (_fips a))) w = (Ok (bp, d), w1) ->
  exists w2,
    init float_str a w
    = (Ok (set_params (path_join (out_dir a) "params_generated")
             (set_days (Some d) a)), w2).
Proof.
  intros Hbase Hres. unfold init.
  erewrite M_bind_Ok by (rewrite CacheFacts.read_param_file_eq, Hbase; reflexivity).
  erewrite M_bind_Ok by exact Hres.
  cbn [fst snd].
  erewrite M_bind_Ok by apply DumpFacts.write_params_eq.
  eexists. reflexivity.
Qed.

Lemma resolve_explicit (a : args) (bp : pdict) (w : world) (d : Z) :
  days a = Some d ->
  resolve_days a bp w = (Ok (PyDict.set bp "days" (VInt d), d), w).
Proof. intros H. unfold resolve_days. now rewrite H. Qed.

Lemma resolve_from_base (a : args) (bp : pdict) (w : world) (v : pyval) (d : Z) :
  days a = None -> PyDict.get bp "days" = Some v -> py_int v = Ok d ->
  resolve_days a bp w = (Ok (bp, d), w).
Proof.
  intros H Hv Hd. unfold resolve_days, PyDict.contains, getitem. rewrite H, Hv.
  unfold lift, mbind, M_bind, mret, M_ret. now rewrite Hd.
Qed.

Lemma resolve_from_defaults (a : args) (bp : pdict) (w : world)
    (defaults : pdict) (v : pyval) (d : Z) :
  cache_ok w ->
  days a = None -> PyDict.get bp "days" = None ->
  current_defaults w = Ok defaults ->
  PyDict.get defaults "days" = Some v -> py_int v = Ok d ->
  exists w1, resolve_days a bp w = (Ok (bp, d), w1).
Proof.
  intros Hok H Hbp Hcur Hv Hd. unfold resolve_days, PyDict.contains. rewrite H, Hbp.
  destruct (DumpFacts.get_default_params_total w defaults Hok Hcur)
    as (c & w1 & Hcall & _ & Hr & _).
  erewrite M_bind_Ok by exact Hcall.
  erewrite M_bind_Ok by (apply DumpFacts.load_ok; exact Hr).
  unfold getitem. rewrite Hv.
  unfold lift, mbind, M_bind, mret, M_ret. rewrite Hd.
  eexists. reflexivity.
Qed.

End InitFacts.

(** C6.  The day count that [init] resolves: a configured [days] is kept as
    it is; otherwise the value of the key [days] of the base parameter
    file, converted by [int]; otherwise the value of the key [days] of the
    simulator's defaults, converted by [int]. *)
Theorem init_day_count (float_str : spec_float -> string) (a : Config.args)
    (w : world) (base : pdict) :
  State.cache_ok w ->
  State.file_params w (Config.params_base a) = Ok base ->
  (forall d : Z,
     Config.days a = Some d ->
     exists a' w', Config.init float_str a w = (Ok a', w')
                   /\ Config.days a' = Some d)
  /\ (forall (v : pyval) (d : Z),
        Config.days a = None ->
        PyDict.get base "days" = Some v -> py_int v = Ok d ->
        exists a' w', Config.init float_str a w = (Ok a', w')
                      /\ Config.days a' = Some d)
  /\ (forall (defaults : pdict) (v : pyval) (d : Z),
        Config.days a = None ->
        PyDict.get base "days" = None ->
        State.current_defaults w = Ok defaults ->
        PyDict.get defaults "days" = Some v -> py_int v = Ok d ->
        exists a' w', Config.init float_str a w = (Ok a', w')
                      /\ Config.days a' = Some d).
Proof.
  intros Hok Hbase.
  assert (Hfips : forall bp : pdict,
             PyDict.get (PyDict.set bp "fips" (VInt (Config._fips a))) "days"
             = PyDict.get bp "days").
  { intros bp. apply DictFacts.get_set_ne. discriminate. }
  split; [|split].
  - intros d Hd.
    destruct (InitFacts.init_after_resolve float_str a w w base _ d Hbase
                (InitFacts.resolve_explicit a _ w d Hd)) as [w2 Hinit].
    eexists _, w2. split; [exact Hinit | reflexivity].
  - intros v d Hnone Hv Hd.
    rewrite <- Hfips in Hv.
    destruct (InitFacts.init_after_resolve float_str a w w base _ d Hbase
                (InitFacts.resolve_from_base a _ w v d Hnone Hv Hd)) as [w2 Hinit].
    eexists _, w2. split; [exact Hinit | reflexivity].
  - intros defaults v d Hnone Hbp Hcur Hv Hd.
    rewrite <- Hfips in Hbp.
    destruct (InitFacts.resolve_from_defaults a _ w defaults v d
                Hok Hnone Hbp Hcur Hv Hd) as [w1 Hres].
    destruct (InitFacts.init_after_resolve float_str a w w1 base _ d Hbase Hres)
      as [w2 Hinit].
    eexists _, w2. split; [exact Hinit | reflexivity].
Qed.

(** The three branches on the sample configurations: 12 days configured;
    30 days in the base file; 100 days in the defaults. *)
Example init_day_count_samples :
  Config.days <$> fst (Config.init Samples.float_str_any
                         (Samples.config (Some 12%Z)) Samples.w_days_in_base)
    = Ok (Some 12%Z)
  /\ Config.days <$> fst (Config.init Samples.float_str_any
                            (Samples.config None) Samples.w_days_in_base)
    = Ok (Some 30%Z)
  /\ Config.days <$> fst (Config.init Samples.float_str_any
                            (Samples.config None) Samples.w_days_in_defaults)
    = Ok (Some 100%Z).
Proof. repeat split; vm_compute; reflexivity. Qed.

Lemma init_day_count_witness :
  State.cache_ok Samples.w_days_in_defaults
  /\ State.file_params Samples.w_days_in_defaults
       (Config.params_base (Samples.config None)) = Ok [("x", VStr "7")]
  /\ exists a' w',
       Config.init Samples.float_str_any (Samples.config None)
         Samples.w_days_in_defaults = (Ok a', w')
       /\ Config.days a' = Some 100%Z.
Proof.
  assert (Hbase : State.file_params Samples.w_days_in_defaults
                    (Config.params_base (Samples.config None)) = Ok [("x", VStr "7")])
    by (vm_compute; reflexivity).
  split; [exact I|]. split; [exact Hbase|].
  refine (proj2 (proj2 (init_day_count Samples.float_str_any (Samples.config None)
                          Samples.w_days_in_defaults _ I Hbase))
            [("days", VStr "100"); ("a", VStr "1"); ("b", VStr "2")]
            (VStr "100") 100%Z _ _ _ _ _); vm_compute; reflexivity.
Defined.

(** ** Comparisons of floats *)
Module FloatFacts.
Import PyFloat.

Lemma compare_cont_antisym (m1 m2 : positive) :
  Pos.compare_cont Eq m2 m1 = CompOpp (Pos.compare_cont Eq m1 m2).
Proof. symmetry. apply (Pos.compare_cont_antisym m1 m2 Eq). Qed.

(** Swapping the operands of a comparison reverses its result. *)
Lemma SFcompare_antisym (a b : spec_float) (c : comparison) :
  SFcompare a b = Some c -> SFcompare b a = Some (CompOpp c).
Proof.
  destruct a as [sa|sa| |sa ma ea], b as [sb|sb| |sb mb eb]; cbn [SFcompare];
    try discriminate;
    try (destruct sa; intros [= <-]; reflexivity);
    try (destruct sb; intros [= <-]; reflexivity);
    try (destruct sa, sb; intros [= <-]; reflexivity).
  destruct sa, sb; intros [= <-]; try reflexivity.
  - rewrite (Z.compare_antisym ea eb).
    destruct (ea ?= eb)%Z; cbn [CompOpp]; try reflexivity.
    now rewrite compare_cont_antisym.
  - rewrite (Z.compare_antisym ea eb).
    destruct (ea ?= eb)%Z; cbn [CompOpp]; try reflexivity.
    now rewrite compare_cont_antisym.
Qed.

Lemma le_not_gt (a b : spec_float) : le a b = true -> lt b a = false.
Proof.
  unfold le, lt, SFleb, SFltb.
  destruct (SFcompare a b) as [c|] eqn:Hc; [|discriminate].
  rewrite (SFcompare_antisym a b c Hc). destruct c; cbn; congruence.
Qed.

(** A weight between 0.2 and 0.8 fails the test of the assertion. *)
Lemma band_fails (w : spec_float) :
  le f_0_2 w = true -> le w f_0_8 = true ->
  lt w f_0_2 || gt w f_0_8 = false.
Proof.
  intros Hlo Hhi. change (gt w f_0_8) with (lt f_0_8 w).
  now rewrite (le_not_gt _ _ Hlo), (le_not_gt _ _ Hhi).
Qed.

(** Below 0.2 is not above 0.5. *)
Lemma low_not_above_half (w : spec_float) :
  lt w f_0_2 = true -> gt w f_0_5 = false.
Proof.
  unfold lt, gt, SFltb, f_0_2, f_0_5.
  destruct w as [s|s| |s m e]; cbn [SFcompare]; try discriminate.
  - reflexivity.
  - destruct s; [reflexivity | discriminate].
  - destruct s; [reflexivity|].
    destruct (e ?= -55)%Z eqn:He; try discriminate.
    + apply Z.compare_eq in He. subst e. reflexivity.
    + intros _. assert (Hlt : (e < -55)%Z) by exact He.
      replace (-53 ?= e)%Z with Gt; [reflexivity|].
      symmetry. apply Z.compare_gt_iff. lia.
Qed.

(** Above 0.8 is above 0.5. *)
Lemma high_above_half (w : spec_float) :
  gt w f_0_8 = true -> gt w f_0_5 = true.
Proof.
  unfold gt, SFltb, f_0_8, f_0_5.
  destruct w as [s|s| |s m e]; cbn [SFcompare]; try discriminate.
  - destruct s; [discriminate | reflexivity].
  - destruct s; [discriminate|].
    destruct (-53 ?= e)%Z eqn:He; try discriminate; [|reflexivity].
    change (PosDef.Pos.compare_cont Eq) with Pos.compare.
    destruct (7205759403792794 ?= m)%positive eqn:Hm; try discriminate.
    intros _. assert (Hlt : (7205759403792794 < m)%positive) by exact Hm.
    replace (4503599627370496 ?= m)%positive with Lt; [reflexivity|].
    symmetry. apply Pos.compare_lt_iff. lia.
Qed.

End FloatFacts.

(** ** One trace *)
Module TraceFacts.
Import Config Driver DriverSpec.

Lemma emit_eq (e : event) (w : world) :
  emit e w = (Ok tt, set_trail (trail w ++ [e]) w).
Proof. reflexivity. Qed.

(** The statements of one round of the loop, when the parameter file can be
    written: the result and the state reached. *)
Lemma process_trace_eq (float_str : spec_float -> string)
    (tensor_int : tensor -> tensor) (a : args)
    (trace_weights : PyDict.dict nat Z) (idx : nat) (t : trace) (w : world)
    (defaults base : pdict) (v : variable) :
  ready a w defaults base ->
  PyDict.get (named_variables t) "shelter_in_place_duration_mean" = Some v ->
  exists w1,
    trail w1 = trail w ++ [EvOpenWrite (trace_file a idx)]
    /\ is_Some (fs w1 !! trace_file a idx)
    /\ (forall p, p <> trace_file a idx -> fs w1 !! p = fs w !! p)
    /\ State.cache_ok w1 /\ State.current_defaults w1 = Ok defaults
    /\ process_trace float_str tensor_int a trace_weights idx t w
       = (if confident (weight t)
          then Ok (PyDict.set trace_weights idx (classify (weight t)))
          else Raise AssertionError,
          set_trail (trail w1 ++ after_write idx (weight t)) w1).
Proof.
  intros (Hok & Hcur & Hbase) Hv.
  set (nv := PyDict.set (named_variables t) "shelter_in_place_duration_mean"
               (MkVariable (tensor_int (value v)) (observed v))).
  destruct (DumpFacts.dump_parameter_file_ok float_str (trace_file a idx) (params a)
              (sampled_parameters nv) w defaults base Hok Hcur Hbase)
    as (w1 & Hdump & Hfs & Htrail & _ & Hok1 & _ & Hcur1).
  exists w1. split; [exact Htrail|]. split; [|split; [|split; [|split]]].
  - rewrite Hfs, lookup_insert_eq. eauto.
  - intros p Hp. rewrite Hfs. now apply lookup_insert_ne.
  - exact Hok1.
  - exact Hcur1.
  - unfold process_trace.
    erewrite M_bind_Ok by (unfold lift, getitem; rewrite Hv; reflexivity).
    erewrite M_bind_Ok by exact Hdump.
    erewrite M_bind_Ok by apply emit_eq.
    erewrite M_bind_Ok by apply emit_eq.
    unfold after_write. fold (confident (weight t)). fold (classify (weight t)).
    destruct (confident (weight t)).
    + erewrite M_bind_Ok by apply emit_eq.
      unfold mret, M_ret, set_trail; cbn. now rewrite <- !app_assoc.
    + unfold raise, set_trail; cbn. now rewrite <- !app_assoc.
Qed.

(** When the parameter file cannot be written, nothing is asserted. *)
Lemma process_trace_write_fails (float_str : spec_float -> string)
    (tensor_int : tensor -> tensor) (a : args)
    (trace_weights : PyDict.dict nat Z) (idx : nat) (t : trace) (w w1 : world)
    (v : variable) (e : exn) :
  PyDict.get (named_variables t) "shelter_in_place_duration_mean" = Some v ->
  ParamFile.dump_parameter_file float_str (trace_file a idx) (params a)
    (sampled_parameters
       (PyDict.set (named_variables t) "shelter_in_place_duration_mean"
          (MkVariable (tensor_int (value v)) (observed v)))) w = (Raise e, w1) ->
  process_trace float_str tensor_int a trace_weights idx t w = (Raise e, w1).
Proof.
  intros Hv Hdump. unfold process_trace.
  erewrite M_bind_Ok by (unfold lift, getitem; rewrite Hv; reflexivity).
  now erewrite M_bind_Raise by exact Hdump.
Qed.

End TraceFacts.

(** C1, as amended.  In the loop over the traces every weight from 0.2 to
    0.8 (0.3, 0.5, 0.51 and 0.7 among them) fails the assertion, so the
    round raises [AssertionError] and enters nothing in the table; a weight
    below 0.2 is entered as 0 and a weight above 0.8 as 1.  The expression
    [int(weight > 0.5)] on its own gives 0 at 0.5 and 1 at 0.51. *)
Theorem weight_band_and_classification (float_str : spec_float -> string)
    (tensor_int : Driver.tensor -> Driver.tensor) (a : Config.args)
    (trace_weights : PyDict.dict nat Z) (idx : nat) (t : Driver.trace) (w : world)
    (defaults base : pdict) (v : Driver.variable) :
  DriverSpec.ready a w defaults base ->
  PyDict.get (Driver.named_variables t) "shelter_in_place_duration_mean" = Some v ->
  let r := fst (Driver.process_trace float_str tensor_int a trace_weights idx t w) in
  (DriverSpec.in_band (Driver.weight t) -> r = Raise AssertionError)
  /\ (PyFloat.lt (Driver.weight t) PyFloat.f_0_2 = true ->
      r = Ok (PyDict.set trace_weights idx 0%Z))
  /\ (PyFloat.gt (Driver.weight t) PyFloat.f_0_8 = true ->
      r = Ok (PyDict.set trace_weights idx 1%Z))
  /\ (DriverSpec.in_band PyFloat.f_0_3 /\ DriverSpec.in_band PyFloat.f_0_5
      /\ DriverSpec.in_band PyFloat.f_0_51 /\ DriverSpec.in_band PyFloat.f_0_7)
  /\ DriverSpec.classify PyFloat.f_0_5 = 0%Z
  /\ DriverSpec.classify PyFloat.f_0_51 = 1%Z.
Proof.
  intros Hready Hv r.
  destruct (TraceFacts.process_trace_eq float_str tensor_int a trace_weights idx t w
              defaults base v Hready Hv) as (w1 & _ & _ & _ & _ & _ & Heq).
  subst r. rewrite Heq. cbn [fst]. unfold DriverSpec.confident, DriverSpec.classify.
  split; [|split; [|split; [|split; [|split]]]].
  - intros [Hlo Hhi]. now rewrite (FloatFacts.band_fails _ Hlo Hhi).
  - intros Hlow. rewrite Hlow. cbn [orb].
    now rewrite (FloatFacts.low_not_above_half _ Hlow).
  - intros Hhigh. rewrite Hhigh, orb_true_r.
    now rewrite (FloatFacts.high_above_half _ Hhigh).
  - repeat split; vm_compute; reflexivity.
  - reflexivity.
  - reflexivity.
Qed.

Lemma weight_band_and_classification_witness :
  DriverSpec.ready Samples.a_run Samples.w_run
    [("days", VStr "100"); ("a", VStr "1"); ("b", VStr "2")]
    [("fips", VStr "42065"); ("days", VStr "2")]
  /\ fst (Driver.process_trace Samples.float_str_any Samples.tensor_int_trunc
            Samples.a_run [] 0 (Samples.trace_of PyFloat.f_0_7) Samples.w_run)
     = Raise AssertionError
  /\ fst (Driver.process_trace Samples.float_str_any Samples.tensor_int_trunc
            Samples.a_run [] 0 (Samples.trace_of Samples.f_zero) Samples.w_run)
     = Ok [(0, 0%Z)]
  /\ fst (Driver.process_trace Samples.float_str_any Samples.tensor_int_trunc
            Samples.a_run [] 0 (Samples.trace_of Samples.f_one) Samples.w_run)
     = Ok [(0, 1%Z)].
Proof.
  assert (Hready : DriverSpec.ready Samples.a_run Samples.w_run
            [("days", VStr "100"); ("a", VStr "1"); ("b", VStr "2")]
            [("fips", VStr "42065"); ("days", VStr "2")]).
  { split; [exact I|]. split; vm_compute; reflexivity. }
  split; [exact Hready|].
  split; [|split].
  - apply (weight_band_and_classification Samples.float_str_any
             Samples.tensor_int_trunc Samples.a_run [] 0
             (Samples.trace_of PyFloat.f_0_7) Samples.w_run _ _ _ Hready eq_refl).
    split; vm_compute; reflexivity.
  - apply (weight_band_and_classification Samples.float_str_any
             Samples.tensor_int_trunc Samples.a_run [] 0
             (Samples.trace_of Samples.f_zero) Samples.w_run _ _ _ Hready eq_refl).
    vm_compute. reflexivity.
  - apply (weight_band_and_classification Samples.float_str_any
             Samples.tensor_int_trunc Samples.a_run [] 0
             (Samples.trace_of Samples.f_one) Samples.w_run _ _ _ Hready eq_refl).
    vm_compute. reflexivity.
Defined.

(** C1 as the specification words it fails in the loop: the traces with
    the weights 0.5 and 0.51 are not entered in the table as 0 and as 1,
    their round raises [AssertionError]. *)
Lemma weight_half_is_not_classified :
  fst (Driver.process_trace Samples.float_str_any Samples.tensor_int_trunc
         Samples.a_run [] 0 (Samples.trace_of PyFloat.f_0_5) Samples.w_run)
    = Raise AssertionError
  /\ fst (Driver.process_trace Samples.float_str_any Samples.tensor_int_trunc
            Samples.a_run [] 0 (Samples.trace_of PyFloat.f_0_5) Samples.w_run)
     <> Ok [(0, 0%Z)]
  /\ fst (Driver.process_trace Samples.float_str_any Samples.tensor_int_trunc
            Samples.a_run [] 0 (Samples.trace_of PyFloat.f_0_51) Samples.w_run)
     = Raise AssertionError
  /\ fst (Driver.process_trace Samples.float_str_any Samples.tensor_int_trunc
            Samples.a_run [] 0 (Samples.trace_of PyFloat.f_0_51) Samples.w_run)
     <> Ok [(0, 1%Z)].
Proof.
  repeat split; try (vm_compute; reflexivity); vm_compute; discriminate.
Qed.

(** C7, as amended.  The steps of one trace happen in this order: the
    parameter file of the trace is written, then the weight is printed and
    the assertion is evaluated, then (when the assertion holds) the weight
    is classified into the table.  When the parameter file cannot be written
    the round ends with that exception and the assertion is not reached. *)
Theorem trace_steps_in_order (float_str : spec_float -> string)
    (tensor_int : Driver.tensor -> Driver.tensor) (a : Config.args)
    (trace_weights : PyDict.dict nat Z) (idx : nat) (t : Driver.trace) (w : world)
    (v : Driver.variable) :
  PyDict.get (Driver.named_variables t) "shelter_in_place_duration_mean" = Some v ->
  (forall defaults base : pdict,
     DriverSpec.ready a w defaults base ->
     let w' := snd (Driver.process_trace float_str tensor_int a trace_weights idx t w) in
     trail w' =
       trail w ++
         EvOpenWrite (DriverSpec.trace_file a idx)
         :: EvPrintLikelihood idx (Driver.weight t)
         :: EvAssertWeight idx (DriverSpec.confident (Driver.weight t))
         :: (if DriverSpec.confident (Driver.weight t)
             then [EvClassify idx (DriverSpec.classify (Driver.weight t))]
             else [])
     /\ is_Some (fs w' !! DriverSpec.trace_file a idx))
  /\ (forall (e : exn) (w1 : world),
        ParamFile.dump_parameter_file float_str (DriverSpec.trace_file a idx)
          (Config.params a)
          (Driver.sampled_parameters
             (PyDict.set (Driver.named_variables t) "shelter_in_place_duration_mean"
                (Driver.MkVariable (tensor_int (Driver.value v)) (Driver.observed v))))
          w = (Raise e, w1) ->
        Driver.process_trace float_str tensor_int a trace_weights idx t w
        = (Raise e, w1)).
Proof.
  intros Hv. split.
  - intros defaults base Hready w'.
    destruct (TraceFacts.process_trace_eq float_str tensor_int a trace_weights idx t w
                defaults base v Hready Hv) as (w1 & Htrail & Hfile & _ & _ & _ & Heq).
    subst w'. rewrite Heq. cbn [snd set_trail trail fs]. split; [|exact Hfile].
    rewrite Htrail. unfold DriverSpec.after_write.
    rewrite <- app_assoc. reflexivity.
  - intros e w1. now apply TraceFacts.process_trace_write_fails.
Qed.

Lemma trace_steps_in_order_witness :
  trail (snd (Driver.process_trace Samples.float_str_any Samples.tensor_int_trunc
                Samples.a_run [] 0 (Samples.trace_of Samples.f_one) Samples.w_run))
  = [EvOpenWrite "run/params0"; EvPrintLikelihood 0 Samples.f_one;
     EvAssertWeight 0 true; EvClassify 0 1%Z].
Proof.
  assert (Hready : DriverSpec.ready Samples.a_run Samples.w_run
            [("days", VStr "100"); ("a", VStr "1"); ("b", VStr "2")]
            [("fips", VStr "42065"); ("days", VStr "2")]).
  { split; [exact I|]. split; vm_compute; reflexivity. }
  rewrite (proj1 (proj1 (trace_steps_in_order Samples.float_str_any
                           Samples.tensor_int_trunc Samples.a_run [] 0
                           (Samples.trace_of Samples.f_one) Samples.w_run _ eq_refl)
                    _ _ Hready)).
  vm_compute. reflexivity.
Defined.

(** C7 as the specification words it (assertion first, then the write)
    fails: for a trace with the weight 0.5 the round raises
    [AssertionError], yet its parameter file has been written, and the
    write is the first event, before the assertion. *)
Lemma trace_file_written_before_assertion :
  fst (Driver.process_trace Samples.float_str_any Samples.tensor_int_trunc
         Samples.a_run [] 0 (Samples.trace_of PyFloat.f_0_5) Samples.w_run)
    = Raise AssertionError
  /\ fs (snd (Driver.process_trace Samples.float_str_any Samples.tensor_int_trunc
                Samples.a_run [] 0 (Samples.trace_of PyFloat.f_0_5) Samples.w_run))
       !! "run/params0"
     = Some ("days = 2" +:+ Samples.nl +:+ "a = 1" +:+ Samples.nl
             +:+ "b = 2" +:+ Samples.nl +:+ "fips = 42065" +:+ Samples.nl
             +:+ "shelter_in_place_duration_mean = 14" +:+ Samples.nl)
  /\ trail (snd (Driver.process_trace Samples.float_str_any Samples.tensor_int_trunc
                   Samples.a_run [] 0 (Samples.trace_of PyFloat.f_0_5) Samples.w_run))
     = [EvOpenWrite "run/params0"; EvPrintLikelihood 0 PyFloat.f_0_5;
        EvAssertWeight 0 false]
  /\ ~ DriverSpec.precedes (EvAssertWeight 0 false) (EvOpenWrite "run/params0")
         (trail (snd (Driver.process_trace Samples.float_str_any
                        Samples.tensor_int_trunc Samples.a_run [] 0
                        (Samples.trace_of PyFloat.f_0_5) Samples.w_run))).
Proof.
  assert (Htrail :
    trail (snd (Driver.process_trace Samples.float_str_any Samples.tensor_int_trunc
                  Samples.a_run [] 0 (Samples.trace_of PyFloat.f_0_5) Samples.w_run))
    = [EvOpenWrite "run/params0"; EvPrintLikelihood 0 PyFloat.f_0_5;
       EvAssertWeight 0 false]) by (vm_compute; reflexivity).
  split; [vm_compute; reflexivity|].
  split; [vm_compute; reflexivity|].
  split; [exact Htrail|].
  rewrite Htrail. intros (l1 & l2 & l3 & H).
  destruct l1 as [|x1 [|x2 [|x3 l1]]]; cbn in H.
  - discriminate.
  - discriminate.
  - apply (f_equal length) in H. cbn in H. rewrite length_app in H. cbn in H. lia.
  - apply (f_equal length) in H. cbn in H. rewrite !length_app in H. cbn in H. lia.
Qed.

(** ** The loop over the traces *)
Module LoopFacts.
Import Config Driver DriverSpec.

Lemma M_bind_inv {A B : Type} (m : M A) (f : A -> M B) (w w' : world) (b : B) :
  (m ≫= f) w = (Ok b, w') ->
  exists a w1, m w = (Ok a, w1) /\ f a w1 = (Ok b, w').
Proof.
  unfold mbind, M_bind. destruct (m w) as [[a|e] w1]; [eauto | discriminate].
Qed.

(** A round that returns has assigned the entry of its index. *)
Lemma process_trace_returns (float_str : spec_float -> string)
    (tensor_int : tensor -> tensor) (a : args)
    (trace_weights tw' : PyDict.dict nat Z) (idx : nat) (t : trace) (w w' : world) :
  process_trace float_str tensor_int a trace_weights idx t w = (Ok tw', w') ->
  exists outcome : Z, tw' = PyDict.set trace_weights idx outcome.
Proof.
  unfold process_trace. intros H.
  apply M_bind_inv in H as (v & w1 & _ & H).
  apply M_bind_inv in H as ([] & w2 & _ & H).
  apply M_bind_inv in H as ([] & w3 & _ & H).
  apply M_bind_inv in H as ([] & w4 & _ & H).
  destruct (_ || _); [|discriminate].
  apply M_bind_inv in H as ([] & w5 & _ & H).
  injection H as <- _. eauto.
Qed.

(** The keys of the table after the loop are the indices of the traces. *)
Lemma run_loop_keys (float_str : spec_float -> string)
    (tensor_int : tensor -> tensor) (a : args) (traces : list trace) :
  forall (idx : nat) (trace_weights tw' : PyDict.dict nat Z) (w w' : world),
    run_loop float_str tensor_int a idx traces trace_weights w = (Ok tw', w') ->
    PyDict.keys trace_weights = seq 0 idx ->
    PyDict.keys tw' = seq 0 (idx + length traces).
Proof.
  induction traces as [|t traces IH]; intros idx tw tw' w w' Hrun Hkeys.
  - cbn in Hrun. injection Hrun as <- _. now rewrite Nat.add_0_r.
  - cbn [run_loop] in Hrun.
    apply M_bind_inv in Hrun as (tw1 & w1 & Hstep & Hrest).
    apply process_trace_returns in Hstep as [outcome ->].
    apply IH in Hrest.
    + rewrite Hrest. cbn [length]. f_equal. lia.
    + rewrite DictFacts.keys_set, Hkeys.
      rewrite decide_False by (rewrite elem_of_seq; lia).
      now rewrite seq_S.
Qed.

(** Twice the sum of the first [n] indices. *)
Lemma sum_indices (n : nat) :
  (2 * fold_right Z.add 0 (Z.of_nat <$> seq 0 n) = Z.of_nat n * (Z.of_nat n - 1))%Z.
Proof.
  induction n as [|n IH]; [reflexivity|].
  rewrite seq_S, fmap_app, fold_right_app. cbn [fmap list_fmap fold_right plus].
  assert (Hshift : forall (l : list Z) (x : Z),
             fold_right Z.add x l = (fold_right Z.add 0 l + x)%Z).
  { induction l as [|y l IHl]; intros x; cbn [fold_right]; [lia|].
    rewrite IHl. lia. }
  rewrite Hshift. lia.
Qed.

(** The mean of the indices of [n] traces. *)
Lemma np_mean_indices (n : nat) :
  n <> 0 ->
  np_mean (Z.of_nat <$> seq 0 n) = Some (Qred ((Z.of_nat n - 1) # 2)).
Proof.
  intros Hn. unfold np_mean.
  destruct (Z.of_nat <$> seq 0 n) as [|x l] eqn:Hl.
  - destruct n; [congruence | discriminate].
  - rewrite <- Hl. f_equal. apply Qred_complete.
    unfold Qeq. cbn [Qnum Qden].
    rewrite length_fmap, length_seq.
    pose proof (sum_indices n) as Hsum.
    assert (Hpos : Z.pos (Pos.of_nat n) = Z.of_nat n).
    { destruct n; [congruence|]. now rewrite <- Pos.of_nat_succ, Zpos_P_of_succ_nat, Nat2Z.inj_succ. }
    rewrite Hpos. lia.
Qed.

End LoopFacts.

(** C2.  When the loop over the traces has completed, the average that
    [run] prints is the mean of the indices of the traces, whatever the
    outcomes in the table are; for [n] traces ([n] at least 1) that is
    [(n - 1) / 2].  (Without any trace NumPy's mean of nothing, NaN, is
    printed.) *)
Theorem average_is_mean_of_indices (float_str : spec_float -> string)
    (tensor_int : Driver.tensor -> Driver.tensor) (lib : Driver.pyprob)
    (a : Config.args) (w w1 : world) (d : Z) (traces : list Driver.trace)
    (trace_weights : PyDict.dict nat Z) :
  Config.days a = Some d ->
  Driver.posterior lib (Config.num_traces a) (DriverSpec.observations a d) = Ok traces ->
  Driver.run_loop float_str tensor_int a 0 traces [] w = (Ok trace_weights, w1) ->
  let n := length traces in
  (exists later : list event,
     trail (snd (Driver.run_body float_str tensor_int lib a w))
     = trail w1 ++ EvPrintAverage (Driver.np_mean (Z.of_nat <$> seq 0 n)) :: later)
  /\ (n <> 0 ->
      Driver.np_mean (Z.of_nat <$> seq 0 n) = Some (Qred ((Z.of_nat n - 1) # 2))).
Proof.
  intros Hdays Hpost Hloop n. split; [|apply LoopFacts.np_mean_indices].
  pose proof (LoopFacts.run_loop_keys float_str tensor_int a traces 0 [] trace_weights
                w w1 Hloop eq_refl) as Hkeys.
  cbn [plus] in Hkeys. fold n in Hkeys.
  unfold Driver.run_body. rewrite Hdays.
  erewrite M_bind_Ok by reflexivity.
  erewrite M_bind_Ok by (unfold lift; fold (DriverSpec.observations a d);
                         rewrite Hpost; reflexivity).
  erewrite M_bind_Ok by exact Hloop.
  rewrite Hkeys.
  erewrite M_bind_Ok by apply TraceFacts.emit_eq.
  erewrite M_bind_Ok by reflexivity.
  erewrite M_bind_Ok by apply TraceFacts.emit_eq.
  destruct (Driver.traces_copy lib (path_join (Config.out_dir a) "traces")) as [[]|e] eqn:Hcopy.
  - erewrite M_bind_Ok by reflexivity.
    rewrite TraceFacts.emit_eq. cbn [snd set_trail set_fs trail].
    eexists. rewrite <- !app_assoc. reflexivity.
  - erewrite M_bind_Raise by reflexivity.
    cbn [snd set_trail set_fs trail].
    eexists. rewrite <- !app_assoc. reflexivity.
Qed.

Lemma average_is_mean_of_indices_witness :
  fst (Driver.run_loop Samples.float_str_any Samples.tensor_int_trunc Samples.a_run
         0 Samples.three_traces [] Samples.w_run)
    = Ok [(0, 1%Z); (1, 0%Z); (2, 1%Z)]
  /\ (exists later : list event,
        trail (snd (Driver.run_body Samples.float_str_any Samples.tensor_int_trunc
                      Samples.lib_three Samples.a_run Samples.w_run))
        = trail (snd (Driver.run_loop Samples.float_str_any Samples.tensor_int_trunc
                        Samples.a_run 0 Samples.three_traces [] Samples.w_run))
          ++ EvPrintAverage (Some 1%Q) :: later).
Proof.
  assert (Hloop :
    Driver.run_loop Samples.float_str_any Samples.tensor_int_trunc Samples.a_run
      0 Samples.three_traces [] Samples.w_run
    = (Ok [(0, 1%Z); (1, 0%Z); (2, 1%Z)],
       snd (Driver.run_loop Samples.float_str_any Samples.tensor_int_trunc
              Samples.a_run 0 Samples.three_traces [] Samples.w_run)))
    by (vm_compute; reflexivity).
  split; [now rewrite Hloop|].
  exact (proj1 (average_is_mean_of_indices Samples.float_str_any
                  Samples.tensor_int_trunc Samples.lib_three Samples.a_run
                  Samples.w_run _ 2%Z Samples.three_traces _ eq_refl eq_refl Hloop)).
Defined.

(** C10.  When the constructor of the remote model raises, the name [model]
    is never bound: the failure clause runs (and archives the output when a
    staging directory is configured), then the cleanup clause reads the
    unbound name, and [run] ends with that [UnboundLocalError] in place of
    the exception of the constructor. *)
Theorem run_ends_with_unbound_model (float_str : spec_float -> string)
    (tensor_int : Driver.tensor -> Driver.tensor) (lib : Driver.pyprob)
    (a : Config.args) (w : world) (e : exn) :
  Driver.RemoteModel_new lib = Raise e ->
  Driver.run float_str tensor_int lib a w
  = (Raise (UnboundLocalError "model"),
     set_trail (trail w ++ DriverSpec.failure_events a) w).
Proof.
  intros Hnew. unfold Driver.run, Driver.run_except, Driver.run_finally,
    DriverSpec.failure_events, Driver.zipdir. rewrite Hnew.
  destruct (Config.compressed_file_path a) as [p|].
  - unfold mbind, M_bind, emit, modify, raise, set_trail; cbn.
    now rewrite <- app_assoc.
  - unfold mbind, M_bind, mret, M_ret, raise, set_trail; cbn.
    rewrite app_nil_r. now destruct w.
Qed.

Lemma run_ends_with_unbound_model_witness :
  Driver.RemoteModel_new Samples.lib_no_model = Raise (PlainException "no model")
  /\ Driver.run Samples.float_str_any Samples.tensor_int_trunc Samples.lib_no_model
       Samples.a_staged Samples.w_run
     = (Raise (UnboundLocalError "model"),
        set_trail
          [EvPrint "Failed... Compressing the output";
           EvZip "results/experiment_name/simulation_number.zip_failed" "run"]
          Samples.w_run).
Proof.
  split; [reflexivity|].
  exact (run_ends_with_unbound_model Samples.float_str_any Samples.tensor_int_trunc
           Samples.lib_no_model Samples.a_staged Samples.w_run _ eq_refl).
Defined.

(** ** The simulations that are drawn *)
Module PlotFacts.
Import Plotting.

Lemma np_axis_index_in (n : nat) (i : Z) :
  (0 <= i < Z.of_nat n)%Z -> np_axis_index n i = Ok (Z.to_nat i).
Proof.
  intros [Hlo Hhi]. unfold np_axis_index.
  apply Z.leb_le in Hlo. apply Z.ltb_lt in Hhi. now rewrite Hlo, Hhi.
Qed.

Lemma np_axis_index_out (n : nat) (i : Z) :
  (Z.of_nat n <= i)%Z -> np_axis_index n i = Raise IndexError.
Proof.
  intros H. unfold np_axis_index.
  replace (i <? Z.of_nat n)%Z with false by (symmetry; apply Z.ltb_ge; lia).
  replace (i <? 0)%Z with false by (symmetry; apply Z.ltb_ge; lia).
  now rewrite !andb_false_r.
Qed.

(** With fewer simulations than drawn indices, the simulations drawn are
    all those of the ensemble. *)
Lemma select_sims_small (sims : list Z) (valid : list bool) :
  length valid < length sims ->
  select_sims sims valid = Z.of_nat <$> seq 0 (length valid)
  /\ Forall (fun i => (0 <= i < Z.of_nat (length valid))%Z) (select_sims sims valid).
Proof.
  intros H. unfold select_sims.
  apply Nat.ltb_lt in H. rewrite H. split; [reflexivity|].
  apply Forall_fmap, Forall_forall. intros i Hi. cbn.
  apply elem_of_seq in Hi. lia.
Qed.

(** Otherwise the drawn indices are used as they are. *)
Lemma select_sims_large (sims : list Z) (valid : list bool) :
  length sims <= length valid -> select_sims sims valid = sims.
Proof.
  intros H. unfold select_sims.
  apply Nat.ltb_ge in H. now rewrite H.
Qed.

Section Bounds.
Context {X : Type} (add : X -> X -> X) (zero : X).

Lemma plot_each_in_bounds (a : series (X := X)) (start : nat) (c : string) (k : Q)
    (alphas : list Q) (sims : list Z) :
  Forall (fun i => (0 <= i < Z.of_nat (n_sims a))%Z
                   /\ (i < Z.of_nat (length alphas))%Z) sims ->
  exists drawn, plot_each a start c k alphas sims = Ok drawn.
Proof.
  induction 1 as [|i sims [Hs Ha] _ [drawn IH]]; [now exists []|].
  cbn [plot_each]. unfold column_from.
  rewrite (np_axis_index_in _ _ Hs), !bind_Ok.
  rewrite np_axis_index_in by lia. rewrite bind_Ok.
  unfold list_index.
  destruct (lookup_lt_is_Some_2 alphas (Z.to_nat i)) as [al Hal]; [lia|].
  rewrite Hal, bind_Ok, IH, bind_Ok. eauto.
Qed.

Lemma plot_each_out_of_bounds (a : series (X := X)) (start : nat) (c : string)
    (k : Q) (alphas : list Q) (i : Z) (sims : list Z) :
  (Z.of_nat (n_sims a) <= i)%Z ->
  plot_each a start c k alphas (i :: sims) = Raise IndexError.
Proof.
  intros H. cbn [plot_each]. unfold column_from.
  now rewrite (np_axis_index_out _ _ H).
Qed.

Lemma get_alphas_length (valid : list bool) (sel : selector) (alphas : list Q) :
  get_alphas valid sel = Ok alphas -> length alphas = length valid.
Proof.
  unfold get_alphas. destruct sel; cbn; try discriminate;
    intros [= <-]; apply length_fmap.
Qed.

(** The plot succeeds when every selected index is an index of the
    ensemble. *)
Lemma trajectory_plot_in_bounds (sims : list Z) (r : results (X := X))
    (valid : list bool) (sel : selector) (start : nat) :
  sel <> SelOther -> r_compartments r = 7 -> r_sims r = length valid ->
  Forall (fun i => (0 <= i < Z.of_nat (length valid))%Z) (select_sims sims valid) ->
  exists drawn, make_trajectory_plot add zero sims r valid sel start = Ok drawn.
Proof.
  intros Hsel Hcomp Hsims Hall. unfold make_trajectory_plot.
  destruct (get_alphas valid sel) as [alphas|e] eqn:Halphas.
  2:{ destruct sel; try discriminate. congruence. }
  pose proof (get_alphas_length _ _ _ Halphas) as Hlen.
  rewrite bind_Ok. unfold get_statistics, compartment. rewrite Hcomp.
  cbn [Nat.ltb Nat.leb]. rewrite !bind_Ok.
  assert (Hbounds : forall a : series (X := X),
             n_sims a = length valid ->
             Forall (fun i => (0 <= i < Z.of_nat (n_sims a))%Z
                              /\ (i < Z.of_nat (length alphas))%Z)
                    (select_sims sims valid)).
  { intros a Ha. rewrite Ha, Hlen. eapply Forall_impl; [exact Hall|].
    cbn. intros i Hi. lia. }
  repeat match goal with
         | |- context [plot_each ?a ?s ?c ?k ?al ?l] =>
             let H := fresh "Hplot" in
             destruct (plot_each_in_bounds a s c k al l) as [? H];
             [apply Hbounds; exact Hsims | rewrite H, bind_Ok]
         end.
  eauto.
Qed.

End Bounds.
End PlotFacts.

(** C9, the part that holds: with an ensemble smaller than the number of
    drawn indices all simulations of the ensemble are plotted and the plot
    stays within bounds; with a larger ensemble the drawn indices are used,
    and the plot stays within bounds when all of them are indices of the
    ensemble, as they are for ensembles of at least 1000 simulations. *)
Lemma trajectory_plot_within_bounds (sims : list Z)
    (r : Plotting.results (X := Q)) (valid : list bool) (sel : Plotting.selector)
    (start : nat) :
  Plotting.is_draw sims -> sel <> Plotting.SelOther ->
  Plotting.r_compartments r = 7 -> Plotting.r_sims r = length valid ->
  length valid < 100 \/ 1000 <= length valid ->
  exists drawn,
    Plotting.make_trajectory_plot Qplus 0%Q sims r valid sel start = Ok drawn.
Proof.
  intros [Hlen Hdraw] Hsel Hcomp Hsims Hsize.
  apply PlotFacts.trajectory_plot_in_bounds; try assumption.
  destruct Hsize as [Hsmall|Hlarge].
  - apply PlotFacts.select_sims_small. rewrite Hlen. exact Hsmall.
  - rewrite PlotFacts.select_sims_large
      by (rewrite Hlen; unfold Plotting.n_sims_to_plot; lia).
    eapply Forall_impl; [exact Hdraw|]. cbn. intros i Hi. lia.
Qed.

(** C9 where the code departs from it: an ensemble of 100 simulations is
    not smaller than 100, so the drawn indices are used; the draw holds
    999, and the first access to that simulation raises [IndexError]. *)
Theorem trajectory_plot_index_out_of_bounds :
  Plotting.is_draw Samples.draw_999
  /\ length Samples.valid_100 = 100
  /\ Plotting.select_sims Samples.draw_999 Samples.valid_100 = Samples.draw_999
  /\ Plotting.make_trajectory_plot Qplus 0%Q Samples.draw_999 Samples.results_100
       Samples.valid_100 Plotting.SelFalse 0
     = Raise IndexError.
Proof.
  split; [|split; [|split]].
  - split; [reflexivity|].
    unfold Samples.draw_999. constructor; [lia|].
    apply Forall_replicate. lia.
  - reflexivity.
  - reflexivity.
  - vm_compute. reflexivity.
Qed.

(** ** Checks on the samples *)

(** A caller changes the mapping it got first, a file [defaults] appears,
    the second mapping is emptied, the simulator's file disappears: the
    three later calls all answer the defaults that were read first. *)
Example caller_gets_first_defaults :
  fst (State.client Samples.caller [0]
         (snd (ParamFile.get_default_params Samples.w_defaults)))
  = [Ok [("days", VStr "100"); ("a", VStr "1"); ("b", VStr "2")];
     Ok [("days", VStr "100"); ("a", VStr "1"); ("b", VStr "2")];
     Ok [("days", VStr "100"); ("a", VStr "1"); ("b", VStr "2")]].
Proof. vm_compute. reflexivity. Qed.

(** Comment and blank lines are dropped: the file with a comment, an empty
    line and [x = 7] reads as the mapping of [x] to the text 7. *)
Example comment_and_blank_lines :
  ParamFile.parse_param_text
    ("# comment" +:+ Samples.nl +:+ Samples.nl +:+ "x = 7" +:+ Samples.nl)
  = Ok [("x", VStr "7")].
Proof. vm_compute. reflexivity. Qed.

(** A line without an equals sign makes the reader fail. *)
Example line_without_equals :
  ParamFile.parse_param_text ("x = 7" +:+ Samples.nl +:+ "novalue" +:+ Samples.nl)
  = Raise IndexError.
Proof. vm_compute. reflexivity. Qed.

(** The whole run on three traces with the weights 1, 0 and 1: it returns,
    the table holds 1, 0, 1 and the average printed is 1, the mean of the
    indices 0, 1, 2. *)
Example run_three_traces :
  fst (Driver.run Samples.float_str_any Samples.tensor_int_trunc Samples.lib_three
         Samples.a_run Samples.w_run) = Ok tt
  /\ In (EvPrintAverage (Some 1%Q))
        (trail (snd (Driver.run Samples.float_str_any Samples.tensor_int_trunc
                       Samples.lib_three Samples.a_run Samples.w_run)))
  /\ fs (snd (Driver.run Samples.float_str_any Samples.tensor_int_trunc
                Samples.lib_three Samples.a_run Samples.w_run)) !! "run/weights.json"
     = Some (Driver.json_dump [(0, 1%Z); (1, 0%Z); (2, 1%Z)]).
Proof.
  split; [vm_compute; reflexivity|]. split; [|vm_compute; reflexivity].
  vm_compute. tauto.
Qed.

(** With three simulations all of them are plotted, five lines each. *)
Example plot_small_ensemble :
  length <$> Plotting.make_trajectory_plot Qplus 0%Q Samples.draw_999
               Samples.results_3 Samples.valid_3 Plotting.SelTrue 0
  = Ok 15.
Proof. vm_compute. reflexivity. Qed.

(** The transparencies for the mask [true, false] under the three
    selectors, and the refusal of any other selector. *)
Example alphas_by_selector :
  Plotting.get_alphas [true; false] Plotting.SelNone = Ok [(1 # 2)%Q; (1 # 4)%Q]
  /\ Plotting.get_alphas [true; false] Plotting.SelTrue = Ok [(1 # 2)%Q; 0%Q]
  /\ Plotting.get_alphas [true; false] Plotting.SelFalse = Ok [(1 # 2)%Q; (1 # 2)%Q]
  /\ Plotting.get_alphas [true; false] Plotting.SelOther = Raise NotImplementedError.
Proof. repeat split; vm_compute; reflexivity. Qed.

(** * Further properties of the parameter files *)

(** ** What a mapping read from a file looks like *)
Module NormalForm.
Import PyStr Spec StrFacts Format.

Lemma has_char_before (c c' : ascii) (s : string) :
  has_char c s = false -> has_char c (before c' s) = false.
Proof.
  induction s as [|a s IH]; [reflexivity|].
  cbn [has_char before]. intros H. apply orb_false_iff in H as [Ha Hs].
  destruct (Ascii.eqb a c'); [reflexivity|].
  cbn [has_char]. now rewrite Ha, IH.
Qed.

Lemma has_char_before_self (c : ascii) (s : string) :
  has_char c (before c s) = false.
Proof.
  induction s as [|a s IH]; [reflexivity|].
  cbn [before]. destruct (Ascii.eqb a c) eqn:Ha; [reflexivity|].
  cbn [has_char]. now rewrite Ha, IH.
Qed.

Lemma has_char_after (c c' : ascii) (s r : string) :
  has_char c s = false -> after c' s = Some r -> has_char c r = false.
Proof.
  induction s as [|a s IH]; [discriminate|].
  cbn [has_char after]. intros H. apply orb_false_iff in H as [Ha Hs].
  destruct (Ascii.eqb a c'); [now intros [= <-] | now apply IH].
Qed.

Lemma has_char_strip (c : ascii) (s : string) :
  has_char c s = false -> has_char c (strip s) = false.
Proof. intros H. unfold strip. now apply has_char_rstrip, has_char_lstrip. Qed.

(** A stripped text has no whitespace at its ends. *)
Lemma strip_trimmed (s : string) : trimmed (strip s).
Proof.
  unfold trimmed, strip. split.
  - now rewrite <- rstrip_lstrip, lstrip_idem.
  - apply rstrip_idem.
Qed.

(** Stripping on the right keeps a first character that is not a space. *)
Lemma rstrip_head (c : ascii) (s : string) :
  is_space c = false -> exists r, rstrip (String c s) = String c r.
Proof.
  intros Hc. cbn [rstrip]. destruct (rstrip s) as [|d r].
  - rewrite Hc. eauto.
  - eauto.
Qed.

(** The name on a kept line does not start with the hash sign. *)
Lemma name_not_comment (raw : string) :
  kept raw = true -> startswith (name_of raw) "#" = false.
Proof.
  unfold kept, name_of. intros H. apply andb_true_iff in H as [_ Hhash].
  apply negb_true_iff in Hhash.
  destruct (strip_trimmed raw) as [Hl _].
  destruct (strip raw) as [|c x]; [reflexivity|].
  pose proof (RoundTrip.lstrip_fix c x Hl) as Hc.
  cbn [before]. destruct (Ascii.eqb c "=") eqn:He; [reflexivity|].
  unfold strip. cbn [lstrip]. rewrite Hc.
  destruct (rstrip_head c (before "=" x) Hc) as [r ->].
  cbn [startswith] in Hhash |- *.
  destruct (Ascii.eqb "#" c); [|reflexivity].
  now rewrite RoundTrip.startswith_nil in Hhash.
Qed.

(** Every line delivered by [readlines] has its only line feed at the
    end. *)
Lemma readlines_rstrip_no_lf (t : string) :
  Forall (fun l => has_char LF (rstrip l) = false) (readlines t).
Proof.
  induction t as [|c t IH]; [constructor|].
  cbn [readlines]. destruct (Ascii.eqb c LF) eqn:Hc.
  - constructor; [|exact IH].
    apply Ascii.eqb_eq in Hc. subst c. reflexivity.
  - destruct (readlines t) as [|h rest].
    + constructor; [|constructor].
      cbn [rstrip]. destruct (is_space c); cbn [has_char]; [reflexivity|].
      now rewrite Hc.
    + apply Forall_cons in IH as [Hh Hrest]. constructor; [|exact Hrest].
      cbn [rstrip]. destruct (rstrip h) as [|d r].
      * destruct (is_space c); cbn [has_char]; [reflexivity | now rewrite Hc].
      * cbn [has_char] in Hh |- *. now rewrite Hc, Hh.
Qed.

Lemma readlines_no_char (c : ascii) (t : string) :
  has_char c t = false -> Forall (fun l => has_char c l = false) (readlines t).
Proof.
  induction t as [|a t IH]; [constructor|].
  cbn [has_char readlines]. intros H. apply orb_false_iff in H as [Ha Ht].
  specialize (IH Ht). destruct (Ascii.eqb a LF).
  - constructor; [|exact IH]. cbn [has_char]. now rewrite Ha.
  - destruct (readlines t) as [|h rest].
    + constructor; [|constructor]. cbn [has_char]. now rewrite Ha.
    + apply Forall_cons in IH as [Hh Hrest]. constructor; [|exact Hrest].
      cbn [has_char]. now rewrite Ha, Hh.
Qed.

(** Text mode leaves no carriage return. *)
Lemma universal_newlines_no_cr (s : string) :
  has_char CR (universal_newlines s) = false.
Proof.
  induction s as [|c s IH]; [reflexivity|].
  cbn [universal_newlines]. destruct (Ascii.eqb c CR) eqn:Hc.
  - destruct s as [|d s']; [reflexivity|].
    destruct (Ascii.eqb d LF) eqn:Hd.
    + cbn [universal_newlines] in IH.
      apply Ascii.eqb_eq in Hd. subst d. exact IH.
    + cbn [has_char]. exact IH.
  - cbn [has_char]. now rewrite Hc, IH.
Qed.

(** A kept line of a text without carriage returns gives a plain name and
    a plain value. *)
Lemma line_entry_ok (raw : string) :
  has_char LF (rstrip raw) = false -> has_char CR raw = false ->
  kept raw = true -> entry_ok (name_of raw, value_of raw).
Proof.
  intros Hlf Hcr Hkept.
  assert (Hlf' : has_char LF (strip raw) = false).
  { unfold strip. rewrite rstrip_lstrip. now apply has_char_lstrip. }
  assert (Hcr' : has_char CR (strip raw) = false) by now apply has_char_strip.
  split; [split|]; cbn [fst snd].
  - unfold name_of. repeat split.
    + apply has_char_strip, has_char_before_self.
    + now apply has_char_strip, has_char_before.
    + now apply has_char_strip, has_char_before.
    + apply strip_trimmed.
    + apply strip_trimmed.
  - now apply name_not_comment.
  - unfold value_of. destruct (after "=" (strip raw)) as [r|] eqn:Hr; cbn [default].
    + repeat split; try apply strip_trimmed.
      * apply has_char_strip, has_char_before_self.
      * apply has_char_strip, has_char_before. eapply has_char_after; eassumption.
      * apply has_char_strip, has_char_before. eapply has_char_after; eassumption.
    + repeat split; reflexivity.
Qed.

Section SetFacts.
Context {K V : Type} `{EqDecision K}.

Lemma Forall_set (P : K * V -> Prop) (d : PyDict.dict K V) (k : K) (v : V) :
  Forall P d -> P (k, v) -> Forall P (PyDict.set d k v).
Proof.
  intros Hd Hkv. induction Hd as [|[k1 v1] d H1 Hd IH]; cbn [PyDict.set].
  - constructor; [exact Hkv | constructor].
  - destruct (decide (k1 = k)) as [->|Hne]; constructor; assumption.
Qed.
End SetFacts.

Lemma as_params_set (d : PyDict.dict string string) (k v : string) :
  as_params (PyDict.set d k v) = PyDict.set (as_params d) k (VStr v).
Proof.
  induction d as [|[k1 v1] d IH]; [reflexivity|].
  unfold as_params in *. cbn [PyDict.set]. rewrite !fmap_cons.
  cbn [fst snd PyDict.set].
  destruct (decide (k1 = k)); [reflexivity|].
  rewrite fmap_cons. cbn [fst snd]. f_equal. exact IH.
Qed.

Lemma keys_as_params_eq (d : PyDict.dict string string) :
  PyDict.keys (as_params d) = PyDict.keys d.
Proof.
  unfold PyDict.keys, as_params. rewrite <- list_fmap_compose.
  induction d as [|[k v] d IH]; [reflexivity|].
  cbn [fmap list_fmap map fst compose] in *. now rewrite IH.
Qed.

(** The mapping assembled from the lines of a text. *)
Lemma assemble_normal (lines : list string) :
  Forall (fun l => has_char LF (rstrip l) = false /\ has_char CR l = false) lines ->
  exists d : PyDict.dict string string,
    assemble value_of lines = as_params d /\ PyDict.wf d /\ Forall entry_ok d.
Proof.
  intros Hlines. unfold assemble.
  assert (Hk : Forall (fun l => entry_ok (name_of l, value_of l))
                      (List.filter kept lines)).
  { induction Hlines as [|l lines [Hlf Hcr] _ IH]; [constructor|].
    cbn [List.filter]. destruct (kept l) eqn:Hkept; [|exact IH].
    constructor; [now apply line_entry_ok | exact IH]. }
  revert Hk. generalize (List.filter kept lines). clear Hlines lines.
  intros lines.
  assert (Hgen : forall acc : PyDict.dict string string,
             PyDict.wf acc -> Forall entry_ok acc ->
             Forall (fun l => entry_ok (name_of l, value_of l)) lines ->
             exists d : PyDict.dict string string,
               fold_left (fun m raw => PyDict.set m (name_of raw) (VStr (value_of raw)))
                         lines (as_params acc) = as_params d
               /\ PyDict.wf d /\ Forall entry_ok d).
  { induction lines as [|l lines IH]; intros acc Hwf Hok Hl.
    - exists acc. now repeat split.
    - apply Forall_cons in Hl as [Hl1 Hl]. cbn [fold_left].
      rewrite <- as_params_set. apply IH; [| |exact Hl].
      + now apply DictFacts.wf_set.
      + apply Forall_set; [exact Hok | exact Hl1]. }
  intros Hk. apply (Hgen []); [apply NoDup_nil_2 | constructor | exact Hk].
Qed.

Lemma parse_normal (content : string) (d : pdict) :
  ParamFile.parse_param_text (universal_newlines content) = Ok d ->
  exists d' : PyDict.dict string string,
    d = as_params d' /\ PyDict.wf d' /\ Forall entry_ok d'.
Proof.
  rewrite ReadFacts.parse_param_text_spec.
  destruct (all_assigned _); [|discriminate]. intros [= <-].
  apply assemble_normal.
  pose proof (readlines_rstrip_no_lf (universal_newlines content)) as H1.
  pose proof (readlines_no_char CR _ (universal_newlines_no_cr content)) as H2.
  apply Forall_and. split; assumption.
Qed.

Lemma read_normal (path : string) (w w' : world) (d : pdict) :
  ParamFile.read_param_file path w = (Ok d, w') ->
  w' = w
  /\ exists d' : PyDict.dict string string,
       d = as_params d' /\ PyDict.wf d' /\ Forall entry_ok d'.
Proof.
  rewrite CacheFacts.read_param_file_eq. unfold State.file_params.
  destruct (fs w !! path) as [content|]; [|discriminate].
  intros [= Hparse <-]. split; [reflexivity|].
  eapply parse_normal. exact Hparse.
Qed.

Lemma write_then_read (float_str : spec_float -> string)
    (d : PyDict.dict string string) (w : world) (path : string) :
  PyDict.wf d -> Forall entry_ok d ->
  exists w',
    ParamFile.write_params float_str path (as_params d) w = (Ok tt, w')
    /\ ParamFile.read_param_file path w' = (Ok (as_params d), w').
Proof.
  intros Hwf Hok. rewrite DumpFacts.write_params_eq. eexists. split; [reflexivity|].
  rewrite CacheFacts.read_param_file_eq. f_equal.
  unfold State.file_params. cbn [set_trail set_fs fs].
  rewrite lookup_insert_eq. now apply RoundTripProof.parse_render.
Qed.

End NormalForm.

(** X1.  Whatever file [read_param_file] reads, when it returns, the state
    is as before and the mapping has pairwise different names, all its
    values are texts, and names and values hold no equals sign and no line
    break, have no whitespace at their ends, and no name starts with the
    hash sign. *)
Theorem read_param_file_normal_form (path : string) (w w' : world) (d : pdict) :
  ParamFile.read_param_file path w = (Ok d, w') ->
  w' = w
  /\ exists d' : PyDict.dict string string,
       d = Spec.as_params d' /\ PyDict.wf d' /\ Forall Format.entry_ok d'.
Proof. apply NormalForm.read_normal. Qed.

Lemma read_param_file_normal_form_witness :
  Samples.w_base = Samples.w_base
  /\ exists d' : PyDict.dict string string,
       [("x", VStr "7"); ("a", VStr "b")] = Spec.as_params d'
       /\ PyDict.wf d' /\ Forall Format.entry_ok d'.
Proof.
  apply (read_param_file_normal_form "/opt/FRED/params" Samples.w_base).
  vm_compute. reflexivity.
Defined.

(** X2.  A mapping that was read from a parameter file is reproduced when
    it is written in the format of [dump_parameter_file] and read again. *)
Theorem read_write_read (float_str : spec_float -> string) (path out : string)
    (w w1 : world) (d : pdict) :
  ParamFile.read_param_file path w = (Ok d, w1) ->
  exists w2,
    ParamFile.write_params float_str out d w1 = (Ok tt, w2)
    /\ ParamFile.read_param_file out w2 = (Ok d, w2).
Proof.
  intros Hread.
  destruct (NormalForm.read_normal path w w1 d Hread) as (_ & d' & -> & Hwf & Hok).
  now apply NormalForm.write_then_read.
Qed.

Lemma read_write_read_witness :
  exists w2,
    ParamFile.write_params Samples.float_str_any "run/copy"
      [("x", VStr "7"); ("a", VStr "b")] Samples.w_base = (Ok tt, w2)
    /\ ParamFile.read_param_file "run/copy" w2
       = (Ok [("x", VStr "7"); ("a", VStr "b")], w2).
Proof.
  apply (read_write_read Samples.float_str_any "/opt/FRED/params" "run/copy"
           Samples.w_base).
  vm_compute. reflexivity.
Defined.

(** ** Appending a line *)
Module AppendFacts.
Import PyStr Spec StrFacts Format.

Lemma readlines_lf_not_nil (t : string) : readlines (t +:+ String LF "") <> [].
Proof.
  destruct t as [|c t]; rewrite ?app_cons, ?app_nil_l; cbn [readlines].
  - discriminate.
  - destruct (Ascii.eqb c LF); [discriminate|].
    destruct (readlines _); discriminate.
Qed.

Lemma readlines_app_lf (t u : string) :
  readlines (t +:+ String LF u) = readlines (t +:+ String LF "") ++ readlines u.
Proof.
  induction t as [|c t IH]; rewrite ?app_cons, ?app_nil_l; cbn [readlines].
  - now rewrite Ascii.eqb_refl.
  - destruct (Ascii.eqb c LF); [now rewrite IH|].
    rewrite IH. pose proof (readlines_lf_not_nil t) as Hne.
    destruct (readlines (t +:+ String LF "")); [congruence | reflexivity].
Qed.

Lemma universal_newlines_app_lf_bounded (n : nat) :
  forall t u : string,
    String.length t <= n ->
    universal_newlines (t +:+ String LF u)
    = universal_newlines (t +:+ String LF "") +:+ universal_newlines u.
Proof.
  induction n as [|n IH]; intros t u Hlen.
  - destruct t; [reflexivity | cbn in Hlen; lia].
  - destruct t as [|c t]; [reflexivity|].
    cbn [String.length] in Hlen. rewrite !app_cons.
    cbn [universal_newlines]. destruct (Ascii.eqb c CR).
    + destruct t as [|d t]; [reflexivity|].
      rewrite !app_cons. destruct (Ascii.eqb d LF) eqn:Hd.
      * rewrite IH by (cbn [String.length] in Hlen; lia). now rewrite app_cons.
      * rewrite <- !app_cons. rewrite IH by lia. now rewrite app_cons.
    + rewrite IH by lia. now rewrite app_cons.
Qed.

Lemma universal_newlines_app_lf (t u : string) :
  universal_newlines (t +:+ String LF u)
  = universal_newlines (t +:+ String LF "") +:+ universal_newlines u.
Proof. now apply (universal_newlines_app_lf_bounded (String.length t)). Qed.

(** Translated text that ended with a line feed still does. *)
Lemma universal_newlines_ends_lf (t : string) :
  exists t', universal_newlines (t +:+ String LF "") = t' +:+ String LF "".
Proof.
  assert (Hgen : forall n t, String.length t <= n ->
             exists t', universal_newlines (t +:+ String LF "") = t' +:+ String LF "").
  { clear t. induction n as [|n IH]; intros t Hlen.
    - destruct t; [now exists "" | cbn in Hlen; lia].
    - destruct t as [|c t]; [now exists ""|].
      cbn [String.length] in Hlen. rewrite app_cons.
      cbn [universal_newlines]. destruct (Ascii.eqb c CR).
      + destruct t as [|d t]; [now exists ""|].
        rewrite app_cons. destruct (Ascii.eqb d LF).
        * destruct (IH t) as [t' Ht']; [cbn [String.length] in Hlen; lia|].
          rewrite Ht'. now exists (String LF t').
        * rewrite <- app_cons. destruct (IH (String d t)) as [t' Ht']; [lia|].
          rewrite Ht'. now exists (String LF t').
      + destruct (IH t) as [t' Ht']; [lia|]. rewrite Ht'. now exists (String c t'). }
  now apply (Hgen (String.length t)).
Qed.

Lemma line_of_no_cr (k v : string) :
  plain k -> plain v -> has_char CR (line_of k v) = false.
Proof.
  intros (_ & _ & Hk & _) (_ & _ & Hv & _). unfold line_of.
  rewrite !has_char_app, Hk, Hv. reflexivity.
Qed.

Lemma readlines_line_of (k v : string) :
  plain k -> plain v -> readlines (line_of k v) = [line_of k v].
Proof.
  intros (_ & Hk & _) (_ & Hv & _).
  replace (line_of k v) with ((k +:+ " = " +:+ v) +:+ String LF "")
    by (unfold line_of; now rewrite !app_assoc).
  rewrite RoundTrip.readlines_line; [reflexivity|].
  rewrite !has_char_app, Hk, Hv. reflexivity.
Qed.

(** The lines of a text (empty, or ending with a line feed) followed by one
    more written line. *)
Lemma lines_appended (text k v : string) :
  text = "" \/ (exists t0, text = t0 +:+ String LF "") ->
  plain k -> plain v ->
  readlines (text +:+ line_of k v) = readlines text ++ [line_of k v].
Proof.
  intros [->|[t0 ->]] Hk Hv.
  - rewrite app_nil_l. now apply readlines_line_of.
  - rewrite app_assoc. change (String LF "" +:+ line_of k v) with (String LF (line_of k v)).
    rewrite readlines_app_lf. now rewrite readlines_line_of.
Qed.

Lemma parse_appended (text k v : string) (d : pdict) :
  text = "" \/ (exists t0, text = t0 +:+ String LF "") ->
  plain_name k -> plain v ->
  ParamFile.parse_param_text text = Ok d ->
  ParamFile.parse_param_text (text +:+ line_of k v) = Ok (PyDict.set d k (VStr v)).
Proof.
  intros Hend [Hk Hhash] Hv. rewrite !ReadFacts.parse_param_text_spec.
  rewrite (lines_appended text k v Hend Hk Hv).
  unfold all_assigned, assemble. rewrite List.filter_app, forallb_app, fold_left_app.
  cbn [List.filter]. rewrite (RoundTrip.kept_line k v (conj Hk Hhash)).
  cbn [forallb fold_left]. rewrite RoundTrip.assigned_line.
  rewrite (RoundTrip.name_of_line k v Hk), (RoundTrip.value_of_line k v Hk Hv).
  destruct (forallb _ _); [|discriminate]. now intros [= <-].
Qed.

Lemma file_appended (content k v : string) (d : pdict) :
  content = "" \/ (exists t0, content = t0 +:+ String LF "") ->
  plain_name k -> plain v ->
  ParamFile.parse_param_text (universal_newlines content) = Ok d ->
  ParamFile.parse_param_text (universal_newlines (content +:+ line_of k v))
  = Ok (PyDict.set d k (VStr v)).
Proof.
  intros Hend Hk Hv Hparse.
  assert (Hline : universal_newlines (line_of k v) = line_of k v)
    by (apply RoundTrip.universal_newlines_id, line_of_no_cr; [apply Hk | exact Hv]).
  destruct Hend as [->|[t0 ->]].
  - rewrite app_nil_l, Hline. now apply (parse_appended "" k v d); [left| | |].
  - rewrite app_assoc. change (String LF "" +:+ line_of k v) with (String LF (line_of k v)).
    rewrite universal_newlines_app_lf, Hline.
    apply parse_appended; try assumption.
    right. apply universal_newlines_ends_lf.
Qed.

End AppendFacts.

(** X3.  Appending the line [k = v] to a parameter file that is empty or
    ends with a line break acts on the mapping read from it as the
    assignment [d[k] = v]: a name that the file has already gets the new
    value at its old place, a new name goes to the end. *)
Theorem appended_line_is_assignment (path content k v : string) (w w2 : world)
    (d : pdict) :
  fs w !! path = Some content ->
  content = "" \/ (exists t0, content = t0 +:+ String PyStr.LF "") ->
  fs w2 !! path = Some (content +:+ Format.line_of k v) ->
  Format.plain_name k -> Spec.plain v ->
  fst (ParamFile.read_param_file path w) = Ok d ->
  fst (ParamFile.read_param_file path w2) = Ok (PyDict.set d k (VStr v)).
Proof.
  intros Hfile Hend Hfile2 Hk Hv.
  rewrite !CacheFacts.read_param_file_eq. cbn [fst]. unfold State.file_params.
  rewrite Hfile, Hfile2. now apply AppendFacts.file_appended.
Qed.

Lemma appended_line_is_assignment_witness :
  fst (ParamFile.read_param_file "/opt/FRED/params"
         (set_fs (<["/opt/FRED/params" :=
                     Samples.base_text +:+ Format.line_of "x" "8"]>
                    (fs Samples.w_base)) Samples.w_base))
  = Ok [("x", VStr "8"); ("a", VStr "b")].
Proof.
  apply (appended_line_is_assignment "/opt/FRED/params" Samples.base_text "x" "8"
           Samples.w_base _ [("x", VStr "7"); ("a", VStr "b")]).
  - vm_compute. reflexivity.
  - right. eexists. unfold Samples.base_text, Samples.nl.
    rewrite <- !StrFacts.app_assoc. reflexivity.
  - vm_compute. reflexivity.
  - repeat split; vm_compute; reflexivity.
  - repeat split; vm_compute; reflexivity.
  - vm_compute. reflexivity.
Defined.

(** * Further properties of the defaults and of the written files *)

Module CacheMore.
Import State CacheFacts.

Lemma failure_keeps_state (w w' : world) (e : exn) :
  cache_ok w -> ParamFile.get_default_params w = (Raise e, w') ->
  w' = w /\ default_params w = None /\ current_defaults w = Raise e.
Proof.
  intros Hok Hcall. unfold cache_ok in Hok.
  destruct (default_params w) as [c|] eqn:Hc.
  - destruct Hok as [d Hd].
    rewrite (get_default_params_hit w c d Hc Hd) in Hcall. discriminate.
  - rewrite (get_default_params_miss w Hc) in Hcall.
    destruct (current_defaults w) as [d|e'] eqn:Hcur; [discriminate|].
    injection Hcall as <- <-. now repeat split.
Qed.

Lemma miss_result (w : world) (d : pdict) :
  default_params w = None -> current_defaults w = Ok d ->
  exists w1, ParamFile.get_default_params w = (Ok (length (heap w)), w1)
             /\ fst (load (length (heap w)) w1) = Ok d.
Proof.
  intros Hc Hcur. rewrite (get_default_params_miss w Hc), Hcur.
  eexists. split; [reflexivity|].
  unfold load. cbn [set_default_params set_heap heap].
  rewrite lookup_app_r by lia. now rewrite Nat.sub_diag.
Qed.

End CacheMore.

(** X4.  [get_default_params] caches successes only: when a call raises,
    the cache was empty, the state is as before the call, and the exception
    is the one that looking for and reading the defaults file gives; a later
    call looks at the files again. *)
Theorem get_default_params_failure_not_cached (w w' : world) (e : exn) :
  State.cache_ok w ->
  ParamFile.get_default_params w = (Raise e, w') ->
  w' = w /\ default_params w = None /\ State.current_defaults w = Raise e.
Proof. apply CacheMore.failure_keeps_state. Qed.

Lemma get_default_params_failure_not_cached_witness :
  Samples.fresh [] = Samples.fresh []
  /\ default_params (Samples.fresh []) = None
  /\ State.current_defaults (Samples.fresh [])
     = Raise (PlainException "could not find defaults file").
Proof.
  apply (get_default_params_failure_not_cached (Samples.fresh [])); [exact I|].
  vm_compute. reflexivity.
Defined.

(** X5.  With an empty cache the defaults are looked for in this order: a
    file [defaults] in the working directory is read whatever the
    simulator's directory holds; without it the file
    [FRED_HOME/input_files/defaults] is read; without both the call raises
    the exception [could not find defaults file]. *)
Theorem get_default_params_lookup_order (w : world) :
  default_params w = None ->
  (forall (content : string) (d : pdict),
     fs w !! "defaults" = Some content ->
     ParamFile.parse_param_text (PyStr.universal_newlines content) = Ok d ->
     exists r w1, ParamFile.get_default_params w = (Ok r, w1)
                  /\ fst (load r w1) = Ok d)
  /\ (forall (content : string) (d : pdict),
        fs w !! "defaults" = None ->
        fs w !! path_join (path_join (FRED_HOME w) "input_files") "defaults"
          = Some content ->
        ParamFile.parse_param_text (PyStr.universal_newlines content) = Ok d ->
        exists r w1, ParamFile.get_default_params w = (Ok r, w1)
                     /\ fst (load r w1) = Ok d)
  /\ (fs w !! "defaults" = None ->
      fs w !! path_join (path_join (FRED_HOME w) "input_files") "defaults" = None ->
      ParamFile.get_default_params w
      = (Raise (PlainException "could not find defaults file"), w)).
Proof.
  intros Hc. split; [|split].
  - intros content d Hfile Hparse.
    destruct (CacheMore.miss_result w d Hc) as [w1 H]; [|eauto].
    unfold State.current_defaults, State.defaults_text. now rewrite Hc, Hfile.
  - intros content d Hno Hfile Hparse.
    destruct (CacheMore.miss_result w d Hc) as [w1 H]; [|eauto].
    unfold State.current_defaults, State.defaults_text. now rewrite Hc, Hno, Hfile.
  - intros Hno Hno2. rewrite (CacheFacts.get_default_params_miss w Hc).
    unfold State.current_defaults, State.defaults_text. now rewrite Hc, Hno, Hno2.
Qed.

Lemma get_default_params_lookup_order_witness :
  exists r w1,
    ParamFile.get_default_params
      (Samples.fresh [("/opt/FRED/input_files/defaults", Samples.defaults_text);
                      ("defaults", "days = 7" +:+ Samples.nl)])
    = (Ok r, w1)
    /\ fst (load r w1) = Ok [("days", VStr "7")].
Proof.
  refine (proj1 (get_default_params_lookup_order
                   (Samples.fresh [("/opt/FRED/input_files/defaults", Samples.defaults_text);
                                   ("defaults", "days = 7" +:+ Samples.nl)]) eq_refl)
            ("days = 7" +:+ Samples.nl) _ _ _); vm_compute; reflexivity.
Defined.

Module DumpMore.
Import State CacheFacts DumpFacts.

(** Writing a file other than the one asked about leaves the answer. *)
Lemma file_params_other (w w' : world) (path q content : string) :
  fs w' = <[q := content]> (fs w) -> path <> q ->
  file_params w' path = file_params w path.
Proof.
  intros Hfs Hne. unfold file_params. rewrite Hfs.
  now rewrite lookup_insert_ne by congruence.
Qed.


Lemma dump_twice (float_str : spec_float -> string) (p1 p2 args_params : string)
    (s1 s2 : pdict) (w : world) (defaults base : pdict) :
  cache_ok w -> current_defaults w = Ok defaults ->
  file_params w args_params = Ok base -> p1 <> args_params ->
  exists w1 w2,
    ParamFile.dump_parameter_file float_str p1 args_params s1 w = (Ok tt, w1)
    /\ ParamFile.dump_parameter_file float_str p2 args_params s2 w1 = (Ok tt, w2)
    /\ fs w2 !! p2
       = Some (ParamFile.render_params float_str (merged defaults base s2)).
Proof.
  intros Hok Hcur Hbase Hne.
  destruct (dump_parameter_file_ok float_str p1 args_params s1 w defaults base
              Hok Hcur Hbase) as (w1 & Hrun1 & Hfs1 & _ & _ & Hok1 & _ & Hcur1).
  assert (Hbase1 : file_params w1 args_params = Ok base).
  { rewrite (file_params_other w w1 args_params p1 _ Hfs1) by congruence. exact Hbase. }
  destruct (dump_parameter_file_ok float_str p2 args_params s2 w1 defaults base
              Hok1 Hcur1 Hbase1) as (w2 & Hrun2 & Hfs2 & _).
  exists w1, w2. split; [exact Hrun1|]. split; [exact Hrun2|].
  rewrite Hfs2. apply lookup_insert_eq.
Qed.

End DumpMore.



(** X7.  The sampled values of one call of [dump_parameter_file] do not
    reach the next: after a first call with the overlay [s1], a second call
    with the overlay [s2] writes the defaults layered with the base file
    and [s2] only (the first file being another file than the base file). *)
Theorem dump_parameter_file_no_carry_over (float_str : spec_float -> string)
    (p1 p2 args_params : string) (s1 s2 : pdict) (w : world)
    (defaults base : pdict) :
  State.cache_ok w -> State.current_defaults w = Ok defaults ->
  State.file_params w args_params = Ok base -> p1 <> args_params ->
  exists w1 w2,
    ParamFile.dump_parameter_file float_str p1 args_params s1 w = (Ok tt, w1)
    /\ ParamFile.dump_parameter_file float_str p2 args_params s2 w1 = (Ok tt, w2)
    /\ fs w2 !! p2
       = Some (ParamFile.render_params float_str (State.merged defaults base s2)).
Proof. apply DumpMore.dump_twice. Qed.

Lemma dump_parameter_file_no_carry_over_witness :
  exists w1 w2,
    ParamFile.dump_parameter_file Samples.float_str_any "run/params0"
      "run/params_generated" [("a", VInt 9); ("z", VInt 1)] Samples.w_layers = (Ok tt, w1)
    /\ ParamFile.dump_parameter_file Samples.float_str_any "run/params1"
         "run/params_generated" Samples.layer_overlay w1 = (Ok tt, w2)
    /\ fs w2 !! "run/params1"
       = Some (ParamFile.render_params Samples.float_str_any Samples.layer_merged).
Proof.
  apply (dump_parameter_file_no_carry_over Samples.float_str_any "run/params0"
           "run/params1" "run/params_generated" [("a", VInt 9); ("z", VInt 1)]
           Samples.layer_overlay Samples.w_layers Samples.layer_defaults
           Samples.layer_base).
  - exact I.
  - vm_compute. reflexivity.
  - vm_compute. reflexivity.
  - discriminate.
Defined.

(** * Further properties of the configuration *)

(** ** The text of an integer *)
Module IntText.
Import PyStr Spec StrFacts TextSpec.

Lemma digit_value_char (d : nat) :
  d < 10 -> digit_value (digit_char d) = Some (Z.of_nat d).
Proof.
  intros H. do 10 (destruct d as [|d]; [reflexivity|]). lia.
Qed.

Lemma digit_char_is_digit (n : N) : is_digit (digit_char (N.to_nat (n mod 10))) = true.
Proof.
  unfold is_digit. rewrite digit_value_char; [reflexivity|].
  pose proof (N.mod_upper_bound n 10). lia.
Qed.

Lemma digits_fuel_digits (fuel : nat) :
  forall (n : N) (acc : string),
    all_chars is_digit acc = true ->
    all_chars is_digit (digits_fuel fuel n acc) = true.
Proof.
  induction fuel as [|fuel IH]; intros n acc Hacc; [exact Hacc|].
  cbn [digits_fuel].
  assert (Hacc' : all_chars is_digit
                    (String (digit_char (N.to_nat (n mod 10))) acc) = true).
  { cbn [all_chars]. now rewrite digit_char_is_digit, Hacc. }
  destruct (n <? 10)%N; [exact Hacc' | now apply IH].
Qed.

Lemma all_chars_impl (P Q : ascii -> bool) (s : string) :
  (forall c, P c = true -> Q c = true) ->
  all_chars P s = true -> all_chars Q s = true.
Proof.
  intros HPQ. induction s as [|c s IH]; [reflexivity|].
  cbn [all_chars]. intros H. apply andb_true_iff in H as [Hc Hs].
  now rewrite (HPQ c Hc), IH.
Qed.

Lemma str_of_int_chars (z : Z) :
  all_chars is_digit_or_minus (str_of_int z) = true.
Proof.
  unfold str_of_int.
  assert (Hbody : all_chars is_digit_or_minus
                    (digits_fuel (S (N.to_nat (N.log2 (Z.abs_N z)))) (Z.abs_N z) "")
                  = true).
  { apply (all_chars_impl is_digit).
    - intros c Hc. unfold is_digit_or_minus. now rewrite Hc.
    - now apply digits_fuel_digits. }
  destruct (z <? 0)%Z; [|exact Hbody].
  cbn [all_chars]. now rewrite Hbody.
Qed.

(** What a digit or a minus sign is not. *)
Lemma digit_or_minus_other (c : ascii) :
  is_digit_or_minus c = true ->
  Ascii.eqb c "=" = false /\ Ascii.eqb c LF = false /\ Ascii.eqb c CR = false
  /\ is_space c = false /\ Ascii.eqb "#" c = false.
Proof.
  destruct c as [[] [] [] [] [] [] [] []]; vm_compute; intros H;
    try discriminate; repeat split.
Qed.

Lemma all_chars_has_char (P : ascii -> bool) (x : ascii) (s : string) :
  (forall c, P c = true -> Ascii.eqb c x = false) ->
  all_chars P s = true -> has_char x s = false.
Proof.
  intros HP. induction s as [|c s IH]; [reflexivity|].
  cbn [all_chars has_char]. intros H. apply andb_true_iff in H as [Hc Hs].
  now rewrite (HP c Hc), IH.
Qed.

Lemma all_chars_trimmed (P : ascii -> bool) (s : string) :
  (forall c, P c = true -> is_space c = false) ->
  all_chars P s = true -> trimmed s.
Proof.
  intros HP Hs. split.
  - destruct s as [|c s]; [reflexivity|].
    cbn [all_chars] in Hs. apply andb_true_iff in Hs as [Hc _].
    cbn [lstrip]. now rewrite (HP c Hc).
  - induction s as [|c s IH]; [reflexivity|].
    cbn [all_chars] in Hs. apply andb_true_iff in Hs as [Hc Hs].
    cbn [rstrip]. rewrite (IH Hs). destruct s; [now rewrite (HP c Hc) | reflexivity].
Qed.

(** The text of an integer can stand as a value in a parameter file. *)
Lemma str_of_int_plain (z : Z) : plain (str_of_int z).
Proof.
  pose proof (str_of_int_chars z) as H.
  repeat split.
  - eapply all_chars_has_char; [|exact H]. intros c Hc. now apply digit_or_minus_other.
  - eapply all_chars_has_char; [|exact H]. intros c Hc. now apply digit_or_minus_other.
  - eapply all_chars_has_char; [|exact H]. intros c Hc. now apply digit_or_minus_other.
  - eapply (all_chars_trimmed _ _ _ H).
  - eapply (all_chars_trimmed _ _ _ H).
  Unshelve. all: intros c Hc; now apply digit_or_minus_other.
Qed.

End IntText.

(** ** The generated parameter file *)
Module InitMore.
Import State Config Spec Format TextSpec.

Lemma texts_as_params (float_str : spec_float -> string)
    (d : PyDict.dict string string) :
  texts float_str (as_params d) = d.
Proof.
  unfold texts, as_params. rewrite <- list_fmap_compose.
  induction d as [|[k v] d IH]; [reflexivity|].
  rewrite fmap_cons, IH. reflexivity.
Qed.

Lemma texts_set (float_str : spec_float -> string) (d : pdict) (k : string)
    (v : pyval) :
  texts float_str (PyDict.set d k v)
  = PyDict.set (texts float_str d) k (ParamFile.format_value float_str v).
Proof.
  induction d as [|[k1 v1] d IH]; [reflexivity|].
  unfold texts in *. cbn [PyDict.set]. rewrite !fmap_cons.
  cbn [fst snd PyDict.set].
  destruct (decide (k1 = k)); [reflexivity|].
  rewrite fmap_cons. cbn [fst snd]. f_equal. exact IH.
Qed.

Lemma render_texts (float_str : spec_float -> string) (d : pdict) :
  ParamFile.render_params float_str (as_params (texts float_str d))
  = ParamFile.render_params float_str d.
Proof.
  induction d as [|[k v] d IH]; [reflexivity|].
  unfold texts, as_params in *. rewrite !fmap_cons.
  cbn [ParamFile.render_params fst snd ParamFile.format_value]. now rewrite IH.
Qed.

Lemma get_as_params (d : PyDict.dict string string) (k : string) :
  PyDict.get (as_params d) k = VStr <$> PyDict.get d k.
Proof.
  induction d as [|[k1 v1] d IH]; [reflexivity|].
  unfold as_params in *. rewrite fmap_cons. cbn [PyDict.get fst snd].
  destruct (decide (k1 = k)); [reflexivity | exact IH].
Qed.

(** A mapping whose lines are plain is read back as its texts. *)
Lemma read_back (float_str : spec_float -> string) (d : pdict) (w : world)
    (path : string) :
  PyDict.wf (texts float_str d) -> Forall entry_ok (texts float_str d) ->
  file_params (snd (ParamFile.write_params float_str path d w)) path
  = Ok (as_params (texts float_str d)).
Proof.
  intros Hwf Hok. rewrite DumpFacts.write_params_eq. cbn [snd].
  unfold file_params. cbn [set_trail set_fs fs]. rewrite lookup_insert_eq.
  rewrite <- render_texts. now apply RoundTripProof.parse_render.
Qed.

Lemma get_default_params_fs (w w1 : world) (r : result nat) :
  ParamFile.get_default_params w = (r, w1) -> fs w1 = fs w.
Proof.
  destruct (default_params w) as [c|] eqn:Hc.
  - unfold ParamFile.get_default_params.
    erewrite M_bind_Ok by (unfold gets; rewrite Hc; reflexivity).
    unfold dict_copy, load, alloc, mbind, M_bind.
    destruct (heap w !! c); now intros [= _ <-].
  - rewrite (CacheFacts.get_default_params_miss w Hc).
    destruct (current_defaults w); now intros [= _ <-].
Qed.

(** The two outcomes of the day count for the mapping of the base file. *)
Lemma resolve_days_inv (a : args) (bp bp' : pdict) (d : Z) (w w1 : world) :
  resolve_days a bp w = (Ok (bp', d), w1) ->
  fs w1 = fs w
  /\ ((days a = Some d /\ bp' = PyDict.set bp "days" (VInt d))
      \/ (days a = None /\ bp' = bp)).
Proof.
  unfold resolve_days. destruct (days a) as [d0|].
  - intros [= <- <- <-]. split; [reflexivity | now left].
  - destruct (PyDict.contains bp "days").
    + intros H.
      apply LoopFacts.M_bind_inv in H as (v & w2 & Hv & H).
      apply LoopFacts.M_bind_inv in H as (d1 & w3 & Hd & H).
      unfold lift in Hv, Hd. injection Hv as _ <-. injection Hd as _ <-.
      injection H as <- _ <-. split; [reflexivity | now right].
    + intros H.
      apply LoopFacts.M_bind_inv in H as (r & w2 & Hcall & H).
      apply LoopFacts.M_bind_inv in H as (defaults & w3 & Hload & H).
      apply LoopFacts.M_bind_inv in H as (v & w4 & Hv & H).
      apply LoopFacts.M_bind_inv in H as (d1 & w5 & Hd & H).
      unfold lift in Hv, Hd. injection Hv as _ <-. injection Hd as _ <-.
      unfold load in Hload. destruct (heap w2 !! r); [|discriminate].
      injection Hload as _ <-. injection H as <- _ <-.
      split; [now apply get_default_params_fs in Hcall | now right].
Qed.

(** What [init] leaves: the generated file reads back as the base mapping
    with the region code and, when configured, the day count, all as
    texts. *)
Lemma init_generated (float_str : spec_float -> string) (a a' : args)
    (w w' : world) :
  init float_str a w = (Ok a', w') ->
  exists (base : PyDict.dict string string) (generated : PyDict.dict string string),
    file_params w (params_base a) = Ok (as_params base)
    /\ a' = set_params (path_join (out_dir a) "params_generated")
              (set_days (days a') a)
    /\ is_Some (days a')
    /\ file_params w' (params a') = Ok (as_params generated)
    /\ generated
       = match days a with
         | Some d => PyDict.set (PyDict.set base "fips" (PyStr.str_of_int (_fips a)))
                       "days" (PyStr.str_of_int d)
         | None => PyDict.set base "fips" (PyStr.str_of_int (_fips a))
         end.
Proof.
  unfold init. intros H.
  apply LoopFacts.M_bind_inv in H as (base0 & w1 & Hread & H).
  destruct (NormalForm.read_normal _ _ _ _ Hread) as (-> & base & -> & Hwf & Hok).
  apply LoopFacts.M_bind_inv in H as ([bp' d] & w2 & Hres & H).
  apply LoopFacts.M_bind_inv in H as ([] & w3 & Hwrite & H).
  cbn [fst snd] in *. injection H as <- <-.
  apply resolve_days_inv in Hres as [Hfs Hcases].
  assert (Hfips : entry_ok ("fips", PyStr.str_of_int (_fips a))).
  { split; [split|]; cbn [fst snd].
    - repeat split; vm_compute; reflexivity.
    - reflexivity.
    - apply IntText.str_of_int_plain. }
  set (with_fips := PyDict.set base "fips" (PyStr.str_of_int (_fips a))).
  assert (Hwf1 : PyDict.wf with_fips) by now apply DictFacts.wf_set.
  assert (Hok1 : Forall entry_ok with_fips) by now apply NormalForm.Forall_set.
  exists base.
  exists (match days a with
          | Some d0 => PyDict.set with_fips "days" (PyStr.str_of_int d0)
          | None => with_fips
          end).
  rewrite CacheFacts.read_param_file_eq in Hread. injection Hread as Hread.
  split; [exact Hread|]. split; [reflexivity|]. split; [cbn; eauto|].
  split; [|reflexivity].
  cbn [params set_params].
  assert (Hw3 : w3 = snd (ParamFile.write_params float_str
                            (path_join (out_dir a) "params_generated") bp' w2))
    by (cbn [params set_params set_days out_dir] in Hwrite; now rewrite Hwrite).
  rewrite Hw3.
  destruct Hcases as [[Hd ->]|[Hd ->]]; rewrite Hd.
  - assert (Ht : texts float_str
                   (PyDict.set (PyDict.set (as_params base) "fips" (VInt (_fips a)))
                      "days" (VInt d))
                 = PyDict.set with_fips "days" (PyStr.str_of_int d))
      by now rewrite !texts_set, texts_as_params.
    rewrite read_back; rewrite Ht; [reflexivity| |].
    + now apply DictFacts.wf_set.
    + apply NormalForm.Forall_set; [exact Hok1|].
      split; [split|]; cbn [fst snd].
      * repeat split; vm_compute; reflexivity.
      * reflexivity.
      * apply IntText.str_of_int_plain.
  - assert (Ht : texts float_str
                   (PyDict.set (as_params base) "fips" (VInt (_fips a)))
                 = with_fips)
      by now rewrite texts_set, texts_as_params.
    rewrite read_back; rewrite Ht; [reflexivity | exact Hwf1 | exact Hok1].
Qed.

End InitMore.

(** X8.  When [init] returns, the parameter file it has generated,
    [params_generated] in the output directory, can be read by
    [read_param_file]: it holds the region code under [fips] (in place of any
    [fips] of the base file) and a configured day count under [days], both
    as decimal texts, and every other entry of the base file as it was. *)
Theorem init_generated_file_is_readable (float_str : spec_float -> string)
    (a a' : Config.args) (w w' : world) :
  Config.init float_str a w = (Ok a', w') ->
  Config.params a' = path_join (Config.out_dir a) "params_generated"
  /\ exists base generated : pdict,
       State.file_params w (Config.params_base a) = Ok base
       /\ State.file_params w' (Config.params a') = Ok generated
       /\ PyDict.get generated "fips" = Some (VStr (PyStr.str_of_int (Config._fips a)))
       /\ (forall d : Z, Config.days a = Some d ->
             PyDict.get generated "days" = Some (VStr (PyStr.str_of_int d)))
       /\ (forall k : string, k <> "fips" -> k <> "days" \/ Config.days a = None ->
             PyDict.get generated k = PyDict.get base k).
Proof.
  intros Hinit.
  destruct (InitMore.init_generated float_str a a' w w' Hinit)
    as (base & generated & Hbase & Ha' & _ & Hgen & Heq).
  split; [rewrite Ha'; reflexivity|].
  exists (Spec.as_params base), (Spec.as_params generated).
  split; [exact Hbase|]. split; [exact Hgen|].
  rewrite !InitMore.get_as_params. subst generated.
  split; [|split].
  - destruct (Config.days a).
    + rewrite DictFacts.get_set_ne by discriminate.
      now rewrite DictFacts.get_set_eq.
    + now rewrite DictFacts.get_set_eq.
  - intros d ->. now rewrite DictFacts.get_set_eq.
  - intros k Hfips Hdays. rewrite !InitMore.get_as_params.
    destruct (Config.days a) as [d|].
    + destruct Hdays as [Hdays|]; [|discriminate].
      rewrite !DictFacts.get_set_ne by congruence. reflexivity.
    + rewrite DictFacts.get_set_ne by congruence. reflexivity.
Qed.

Lemma init_generated_file_is_readable_witness :
  exists base generated : pdict,
    State.file_params Samples.w_days_in_base "/opt/FRED/params" = Ok base
    /\ State.file_params
         (snd (Config.init Samples.float_str_any (Samples.config (Some 12%Z))
                 Samples.w_days_in_base)) "run/params_generated" = Ok generated
    /\ PyDict.get generated "fips" = Some (VStr "42065")
    /\ (forall d : Z, Some 12%Z = Some d ->
          PyDict.get generated "days" = Some (VStr (PyStr.str_of_int d)))
    /\ (forall k : string, k <> "fips" -> k <> "days" \/ Some 12%Z = None ->
          PyDict.get generated k = PyDict.get base k).
Proof.
  refine (proj2 (init_generated_file_is_readable Samples.float_str_any
                   (Samples.config (Some 12%Z))
                   (Config.Args "/opt/FRED/params" true (Some 12%Z) 42065 10 false
                      PyFloat.f_0_1 None "run" "run/params_generated")
                   Samples.w_days_in_base _ _)).
  vm_compute. reflexivity.
Defined.

(** ** Reading back the text of an integer *)
Module IntRoundTrip.
Import PyStr Spec TextSpec.

Lemma parse_digit_char (d : nat) (s : string) (acc : Z) (p : bool) :
  d < 10 ->
  parse_digits (String (digit_char d) s) acc p
  = parse_digits s (10 * acc + Z.of_nat d)%Z true.
Proof.
  intros H. do 10 (destruct d as [|d]; [reflexivity|]). lia.
Qed.

Lemma parse_last_digit (n : N) (s : string) (acc : Z) (p : bool) :
  parse_digits (String (digit_char (N.to_nat (n mod 10))) s) acc p
  = parse_digits s (10 * acc + Z.of_N (n mod 10))%Z true.
Proof.
  pose proof (N.mod_upper_bound n 10) as Hlt.
  rewrite parse_digit_char by lia. now rewrite N_nat_Z.
Qed.

(** The digits written for [n] are read as [n], after what was read
    before them. *)
Lemma digits_fuel_parse (fuel : nat) :
  forall (n : N) (acc : string),
    (n < 2 ^ N.of_nat (S fuel))%N ->
    exists m : Z, forall (a : Z) (p : bool),
      parse_digits (digits_fuel (S fuel) n acc) a p
      = parse_digits acc (a * m + Z.of_N n)%Z true.
Proof.
  induction fuel as [|fuel IH]; intros n acc Hn.
  - change (2 ^ N.of_nat 1)%N with 2%N in Hn.
    exists 10%Z. intros a p. cbn [digits_fuel].
    replace (n <? 10)%N with true by (symmetry; apply N.ltb_lt; lia).
    rewrite parse_last_digit. rewrite N.mod_small by lia. f_equal. lia.
  - cbn [digits_fuel]. destruct (n <? 10)%N eqn:Hsmall.
    + apply N.ltb_lt in Hsmall. exists 10%Z. intros a p.
      rewrite parse_last_digit. rewrite N.mod_small by lia. f_equal. lia.
    + apply N.ltb_ge in Hsmall.
      assert (Hdiv : (n / 10 < 2 ^ N.of_nat (S fuel))%N).
      { rewrite Nat2N.inj_succ, N.pow_succ_r' in Hn.
        apply N.Div0.div_lt_upper_bound. lia. }
      destruct (IH (n / 10)%N
                  (String (digit_char (N.to_nat (n mod 10))) acc) Hdiv) as [m Hm].
      exists (10 * m)%Z. intros a p.
      rewrite Hm, parse_last_digit. f_equal.
      pose proof (N.div_mod n 10) as Hdm.
      assert (Hz : Z.of_N n = (10 * Z.of_N (n / 10) + Z.of_N (n mod 10))%Z) by lia.
      lia.
Qed.

Lemma digit_not_sign (c : ascii) :
  is_digit c = true -> Ascii.eqb c "-" = false /\ Ascii.eqb c "+" = false.
Proof.
  destruct c as [[] [] [] [] [] [] [] []]; vm_compute; intros H;
    try discriminate; split; reflexivity.
Qed.

(** [int(str(z))] is [z]. *)
Lemma int_of_str_of_int (z : Z) : int_of_str (str_of_int z) = Ok z.
Proof.
  unfold int_of_str.
  destruct (IntText.str_of_int_plain z) as (_ & _ & _ & Hl & Hr).
  unfold strip. rewrite Hl, Hr. unfold str_of_int.
  set (n := Z.abs_N z).
  assert (Hn : (n < 2 ^ N.of_nat (S (N.to_nat (N.log2 n))))%N).
  { rewrite Nat2N.inj_succ, N2Nat.id.
    destruct (N.eq_dec n 0%N) as [->|Hne]; [reflexivity|].
    apply N.log2_spec. lia. }
  destruct (digits_fuel_parse (N.to_nat (N.log2 n)) n "" Hn) as [m Hm].
  destruct (z <? 0)%Z eqn:Hneg.
  - cbn [Ascii.eqb Bool.eqb]. rewrite Hm. cbn [parse_digits fmap option_fmap option_map].
    f_equal. apply Z.ltb_lt in Hneg. subst n. rewrite N2Z.inj_abs_N. lia.
  - apply Z.ltb_ge in Hneg.
    pose proof (IntText.digits_fuel_digits (S (N.to_nat (N.log2 n))) n "" eq_refl)
      as Hdigits.
    pose proof (Hm 0%Z false) as Hparse. cbn [parse_digits] in Hparse.
    destruct (digits_fuel (S (N.to_nat (N.log2 n))) n "") as [|c rest] eqn:Hbody.
    + discriminate.
    + cbn [all_chars] in Hdigits. apply andb_true_iff in Hdigits as [Hc _].
      destruct (digit_not_sign c Hc) as [H1 H2]. rewrite H1, H2, Hparse.
      f_equal. subst n. rewrite N2Z.inj_abs_N. lia.
Qed.

End IntRoundTrip.

(** X9.  A configured day count survives the generated file: when [init]
    has run with [days] set to [d], a later [init] without [days] whose
    base parameter file is that generated file resolves the day count
    [d]. *)
Theorem init_days_round_trip (float_str : spec_float -> string)
    (a a1 b : Config.args) (w w1 : world) (d : Z) :
  Config.init float_str a w = (Ok a1, w1) ->
  Config.days a = Some d ->
  Config.params_base b = Config.params a1 -> Config.days b = None ->
  exists b' w2,
    Config.init float_str b w1 = (Ok b', w2) /\ Config.days b' = Some d.
Proof.
  intros Hinit Hd Hbase Hnone.
  destruct (InitMore.init_generated float_str a a1 w w1 Hinit)
    as (base & generated & _ & _ & _ & Hgen & Heq).
  rewrite Hd in Heq. rewrite <- Hbase in Hgen.
  assert (Hdays : PyDict.get (PyDict.set (Spec.as_params generated) "fips"
                                (VInt (Config._fips b))) "days"
                  = Some (VStr (PyStr.str_of_int d))).
  { rewrite DictFacts.get_set_ne by discriminate.
    rewrite InitMore.get_as_params. subst generated.
    now rewrite DictFacts.get_set_eq. }
  destruct (InitFacts.init_after_resolve float_str b w1 w1 _ _ d Hgen
              (InitFacts.resolve_from_base b _ w1 _ d Hnone Hdays
                 (IntRoundTrip.int_of_str_of_int d))) as [w2 Hinit2].
  eexists _, w2. split; [exact Hinit2 | reflexivity].
Qed.

Lemma init_days_round_trip_witness :
  exists b' w2,
    Config.init Samples.float_str_any
      (Config.Args "run/params_generated" true None 42003 10 false PyFloat.f_0_1
         None "next" "")
      (snd (Config.init Samples.float_str_any (Samples.config (Some 12%Z))
              Samples.w_days_in_base))
    = (Ok b', w2)
    /\ Config.days b' = Some 12%Z.
Proof.
  refine (init_days_round_trip Samples.float_str_any (Samples.config (Some 12%Z))
            (Config.Args "/opt/FRED/params" true (Some 12%Z) 42065 10 false
               PyFloat.f_0_1 None "run" "run/params_generated")
            (Config.Args "run/params_generated" true None 42003 10 false
               PyFloat.f_0_1 None "next" "")
            Samples.w_days_in_base _ 12%Z _ eq_refl eq_refl eq_refl).
  vm_compute. reflexivity.
Defined.

(** * Further properties of the driver *)

(** ** The rounds of the loop *)
Module LoopMore.
Import Config Driver DriverSpec RunSpec.

Lemma startswith_params_slash (s : string) :
  PyStr.startswith ("params" +:+ s) "/" = false.
Proof. reflexivity. Qed.

(** The parameter file of a trace is not the generated parameter file. *)
Lemma trace_file_not_generated (out : string) (idx : nat) :
  path_join out ("params" +:+ PyStr.str_of_int (Z.of_nat idx))
  <> path_join out "params_generated".
Proof.
  unfold path_join. rewrite startswith_params_slash.
  change (PyStr.startswith "params_generated" "/") with false. cbn match.
  assert (Hdigits : "params" +:+ PyStr.str_of_int (Z.of_nat idx) <> "params_generated").
  { intros H. change "params_generated" with ("params" +:+ "_generated") in H.
    apply String.app_inj in H.
    pose proof (IntText.str_of_int_chars (Z.of_nat idx)) as Hc.
    rewrite H in Hc. discriminate. }
  destruct ((out =? "")%string || PyStr.startswith (String.rev out) "/").
  - intros H. apply String.app_inj in H. contradiction.
  - intros H. apply String.app_inj in H. apply String.app_inj in H. contradiction.
Qed.

Lemma ready_set_trail (a : args) (w : world) (defaults base : pdict)
    (t : list event) :
  ready a w defaults base -> ready a (set_trail t w) defaults base.
Proof. intros H. exact H. Qed.

(** One round on a trace with the shelter duration. *)
Lemma process_trace_round (float_str : spec_float -> string)
    (tensor_int : tensor -> tensor) (a : args) (tw : PyDict.dict nat Z)
    (idx : nat) (t : trace) (w : world) (defaults base : pdict) :
  ready a w defaults base ->
  params a = path_join (out_dir a) "params_generated" ->
  has_shelter t ->
  exists w',
    process_trace float_str tensor_int a tw idx t w
    = (if confident (weight t) then Ok (PyDict.set tw idx (classify (weight t)))
       else Raise AssertionError, w')
    /\ ready a w' defaults base
    /\ trail w' = trail w ++ trace_events a idx t.
Proof.
  intros Hready Hparams [v Hv].
  destruct (TraceFacts.process_trace_eq float_str tensor_int a tw idx t w
              defaults base v Hready Hv)
    as (w1 & Htrail & _ & Hother & Hok1 & Hcur1 & Heq).
  eexists. split; [exact Heq|]. split.
  - apply ready_set_trail. split; [exact Hok1|]. split; [exact Hcur1|].
    destruct Hready as (_ & _ & Hbase). unfold State.file_params in *.
    rewrite Hother; [exact Hbase|].
    rewrite Hparams. intros H. symmetry in H.
    now apply trace_file_not_generated in H.
  - cbn [set_trail trail]. rewrite Htrail. unfold trace_events.
    now rewrite <- app_assoc.
Qed.

Lemma table_keys (traces : list trace) (idx : nat) :
  PyDict.keys (table_from idx traces) = seq idx (length traces).
Proof.
  revert idx. induction traces as [|t traces IH]; intros idx; [reflexivity|].
  cbn [table_from length seq]. unfold PyDict.keys in *. cbn [map fst].
  now rewrite IH.
Qed.

(** The rounds on a run of good traces at the head of the list. *)
Lemma run_loop_prefix (float_str : spec_float -> string)
    (tensor_int : tensor -> tensor) (a : args) (defaults base : pdict)
    (good_traces : list trace) :
  params a = path_join (out_dir a) "params_generated" ->
  Forall good good_traces ->
  forall (idx : nat) (rest : list trace) (tw : PyDict.dict nat Z) (w : world),
    ready a w defaults base ->
    PyDict.keys tw = seq 0 idx ->
    exists w1,
      run_loop float_str tensor_int a idx (good_traces ++ rest) tw w
      = run_loop float_str tensor_int a (idx + length good_traces) rest
          (tw ++ table_from idx good_traces) w1
      /\ ready a w1 defaults base
      /\ trail w1 = trail w ++ loop_events a idx good_traces.
Proof.
  intros Hparams Hgood.
  induction Hgood as [|t good_traces [Hs Hc] _ IH]; intros idx rest tw w Hready Hkeys.
  - exists w. cbn [app length table_from loop_events].
    rewrite Nat.add_0_r, !app_nil_r.
    split; [reflexivity|]. split; [exact Hready | reflexivity].
  - destruct (process_trace_round float_str tensor_int a tw idx t w defaults base
                Hready Hparams Hs) as (w' & Hstep & Hready' & Htrail').
    rewrite Hc in Hstep.
    assert (Hset : PyDict.set tw idx (classify (weight t))
                   = tw ++ [(idx, classify (weight t))]).
    { apply DictFacts.set_new. rewrite Hkeys, elem_of_seq. lia. }
    destruct (IH (S idx) rest (tw ++ [(idx, classify (weight t))]) w' Hready')
      as (w1 & Hrest & Hready1 & Htrail1).
    { unfold PyDict.keys in *. rewrite map_app, Hkeys. cbn [map fst].
      now rewrite seq_S. }
    exists w1. split; [|split; [exact Hready1|]].
    + cbn [app run_loop]. erewrite M_bind_Ok by exact Hstep.
      rewrite Hset, Hrest. cbn [length table_from].
      rewrite <- app_assoc. cbn [app].
      now replace (idx + S (length good_traces)) with (S idx + length good_traces) by lia.
    + rewrite Htrail1, Htrail'. cbn [loop_events]. now rewrite <- app_assoc.
Qed.

End LoopMore.

(** X10.  When the defaults and the generated parameter file can be read
    and every trace has the shelter duration and a weight below 0.2 or
    above 0.8, the loop over the traces returns; the table then has one
    entry per trace, under the indices 0, 1, 2, ... in this order, each the
    classification of the weight of its trace, and one parameter file has
    been written per trace. *)
Theorem run_loop_builds_table (float_str : spec_float -> string)
    (tensor_int : Driver.tensor -> Driver.tensor) (a : Config.args)
    (traces : list Driver.trace) (w : world) (defaults base : pdict) :
  DriverSpec.ready a w defaults base ->
  Config.params a = path_join (Config.out_dir a) "params_generated" ->
  Forall RunSpec.good traces ->
  exists w',
    Driver.run_loop float_str tensor_int a 0 traces [] w
    = (Ok (RunSpec.table_from 0 traces), w')
    /\ trail w' = trail w ++ RunSpec.loop_events a 0 traces
    /\ DriverSpec.ready a w' defaults base.
Proof.
  intros Hready Hparams Hgood.
  destruct (LoopMore.run_loop_prefix float_str tensor_int a defaults base traces
              Hparams Hgood 0 [] [] w Hready eq_refl) as (w1 & Hrun & Hready1 & Htrail).
  exists w1. rewrite app_nil_r in Hrun. rewrite Hrun.
  cbn [Driver.run_loop app].
  split; [reflexivity|]. split; [exact Htrail | exact Hready1].
Qed.

Lemma run_loop_builds_table_witness :
  exists w',
    Driver.run_loop Samples.float_str_any Samples.tensor_int_trunc Samples.a_run 0
      Samples.three_traces [] Samples.w_run
    = (Ok [(0, 1%Z); (1, 0%Z); (2, 1%Z)], w')
    /\ trail w' = trail Samples.w_run
                  ++ RunSpec.loop_events Samples.a_run 0 Samples.three_traces
    /\ DriverSpec.ready Samples.a_run w'
         [("days", VStr "100"); ("a", VStr "1"); ("b", VStr "2")]
         [("fips", VStr "42065"); ("days", VStr "2")].
Proof.
  apply (run_loop_builds_table Samples.float_str_any Samples.tensor_int_trunc
           Samples.a_run Samples.three_traces Samples.w_run).
  - split; [exact I|]. split; vm_compute; reflexivity.
  - reflexivity.
  - repeat constructor; try (vm_compute; reflexivity); vm_compute; eauto.
Defined.

(** X11.  The loop stops at the first trace whose weight fails the
    assertion: the rounds of the traces before it have run, its own
    parameter file has been written and its weight printed, the loop raises
    [AssertionError], and nothing is done for the traces after it. *)
Theorem run_loop_stops_at_first_failure (float_str : spec_float -> string)
    (tensor_int : Driver.tensor -> Driver.tensor) (a : Config.args)
    (before after : list Driver.trace) (t : Driver.trace) (w : world)
    (defaults base : pdict) :
  DriverSpec.ready a w defaults base ->
  Config.params a = path_join (Config.out_dir a) "params_generated" ->
  Forall RunSpec.good before ->
  RunSpec.has_shelter t -> DriverSpec.confident (Driver.weight t) = false ->
  exists w',
    Driver.run_loop float_str tensor_int a 0 (before ++ t :: after) [] w
    = (Raise AssertionError, w')
    /\ trail w' = trail w ++ RunSpec.loop_events a 0 before
                  ++ [EvOpenWrite (DriverSpec.trace_file a (length before));
                      EvPrintLikelihood (length before) (Driver.weight t);
                      EvAssertWeight (length before) false].
Proof.
  intros Hready Hparams Hgood Hs Hc.
  destruct (LoopMore.run_loop_prefix float_str tensor_int a defaults base before
              Hparams Hgood 0 (t :: after) [] w Hready eq_refl)
    as (w1 & Hrun & Hready1 & Htrail1).
  destruct (LoopMore.process_trace_round float_str tensor_int a
              ([] ++ RunSpec.table_from 0 before) (0 + length before) t w1
              defaults base Hready1 Hparams Hs) as (w' & Hstep & _ & Htrail').
  rewrite Hc in Hstep.
  exists w'. split.
  - rewrite Hrun. cbn [Driver.run_loop]. now erewrite M_bind_Raise by exact Hstep.
  - rewrite Htrail', Htrail1. unfold RunSpec.trace_events, DriverSpec.after_write.
    rewrite Hc. cbn [plus]. now rewrite <- app_assoc.
Qed.

Lemma run_loop_stops_at_first_failure_witness :
  exists w',
    Driver.run_loop Samples.float_str_any Samples.tensor_int_trunc Samples.a_run 0
      ([Samples.trace_of Samples.f_one]
       ++ Samples.trace_of PyFloat.f_0_5 :: [Samples.trace_of Samples.f_zero])
      [] Samples.w_run
    = (Raise AssertionError, w')
    /\ trail w' = trail Samples.w_run
                  ++ RunSpec.loop_events Samples.a_run 0 [Samples.trace_of Samples.f_one]
                  ++ [EvOpenWrite (DriverSpec.trace_file Samples.a_run 1);
                      EvPrintLikelihood 1 PyFloat.f_0_5;
                      EvAssertWeight 1 false].
Proof.
  apply (run_loop_stops_at_first_failure Samples.float_str_any
           Samples.tensor_int_trunc Samples.a_run [Samples.trace_of Samples.f_one]
           [Samples.trace_of Samples.f_zero] (Samples.trace_of PyFloat.f_0_5)
           Samples.w_run
           [("days", VStr "100"); ("a", VStr "1"); ("b", VStr "2")]
           [("fips", VStr "42065"); ("days", VStr "2")]).
  - split; [exact I|]. split; vm_compute; reflexivity.
  - reflexivity.
  - repeat constructor; try (vm_compute; reflexivity); vm_compute; eauto.
  - vm_compute. eauto.
  - vm_compute. reflexivity.
Defined.

(** ** Termination signals *)
Module RunMore.
Import Config Driver DriverSpec RunSpec.

Lemma kills_set_trail_app (w : world) (evs : list event) :
  kills (set_trail (trail w ++ evs) w) = kills w + length (List.filter is_kill evs).
Proof. unfold kills. cbn [set_trail trail]. now rewrite List.filter_app, length_app. Qed.

Lemma quiet_ret {A : Type} (a : A) : quiet (mret a).
Proof. intros w. reflexivity. Qed.

Lemma quiet_raise {A : Type} (e : exn) : quiet (raise (A := A) e).
Proof. intros w. reflexivity. Qed.

Lemma quiet_lift {A : Type} (r : result A) : quiet (lift r).
Proof. intros w. reflexivity. Qed.

Lemma quiet_gets {A : Type} (f : world -> A) : quiet (gets f).
Proof. intros w. reflexivity. Qed.

Lemma quiet_modify (f : world -> world) :
  (forall w, trail (f w) = trail w) -> quiet (modify f).
Proof. intros H w. unfold kills, modify. cbn [snd]. now rewrite H. Qed.

Lemma quiet_emit (e : event) : is_kill e = false -> quiet (emit e).
Proof.
  intros He w. rewrite TraceFacts.emit_eq. cbn [snd].
  rewrite kills_set_trail_app. cbn [List.filter]. rewrite He. cbn. lia.
Qed.

Lemma quiet_bind {A B : Type} (m : M A) (f : A -> M B) :
  quiet m -> (forall a, quiet (f a)) -> quiet (m ≫= f).
Proof.
  intros Hm Hf w. unfold mbind, M_bind. specialize (Hm w).
  destruct (m w) as [[a|e] w1]; cbn [snd] in *.
  - now rewrite (Hf a w1).
  - exact Hm.
Qed.

Lemma quiet_alloc (d : pdict) : quiet (alloc d).
Proof. intros w. reflexivity. Qed.

Lemma quiet_load (r : nat) : quiet (load r).
Proof. intros w. unfold load. now destruct (heap w !! r). Qed.

Lemma quiet_store (r : nat) (d : pdict) : quiet (store r d).
Proof. apply quiet_modify. reflexivity. Qed.

Lemma quiet_dict_update (r : nat) (other : pdict) : quiet (dict_update r other).
Proof. apply quiet_bind; [apply quiet_load | intros; apply quiet_store]. Qed.

Lemma quiet_read_param_file (path : string) : quiet (ParamFile.read_param_file path).
Proof. intros w. now rewrite CacheFacts.read_param_file_eq. Qed.

Lemma quiet_get_default_params : quiet ParamFile.get_default_params.
Proof.
  unfold ParamFile.get_default_params.
  apply quiet_bind; [apply quiet_gets|]. intros [c|].
  - apply quiet_bind; [apply quiet_load | intros; apply quiet_alloc].
  - apply quiet_bind; [apply quiet_gets|]. intros here.
    apply quiet_bind; [apply quiet_gets|]. intros home.
    apply quiet_bind; [apply quiet_gets|]. intros found.
    destruct (negb found); [apply quiet_raise|].
    apply quiet_bind; [apply quiet_read_param_file|]. intros d.
    apply quiet_bind; [apply quiet_alloc|]. intros params.
    apply quiet_bind.
    { apply quiet_bind; [apply quiet_load | intros; apply quiet_alloc]. }
    intros c. apply quiet_bind; [now apply quiet_modify | intros; apply quiet_ret].
Qed.

Lemma quiet_write_params (float_str : spec_float -> string) (path : string)
    (d : pdict) : quiet (ParamFile.write_params float_str path d).
Proof.
  apply quiet_bind; [now apply quiet_modify | intros; now apply quiet_emit].
Qed.

Lemma quiet_dump (float_str : spec_float -> string) (path args_params : string)
    (sampled : pdict) :
  quiet (ParamFile.dump_parameter_file float_str path args_params sampled).
Proof.
  unfold ParamFile.dump_parameter_file.
  apply quiet_bind; [apply quiet_get_default_params|]. intros params.
  apply quiet_bind; [apply quiet_read_param_file|]. intros base.
  apply quiet_bind; [apply quiet_dict_update|]. intros _.
  apply quiet_bind; [apply quiet_dict_update|]. intros _.
  apply quiet_bind; [apply quiet_load|]. intros merged.
  apply quiet_write_params.
Qed.

Section Quiet.
Variable float_str : spec_float -> string.
Variable tensor_int : tensor -> tensor.
Variable lib : pyprob.

Lemma quiet_process_trace (a : args) (tw : PyDict.dict nat Z) (idx : nat) (t : trace) :
  quiet (process_trace float_str tensor_int a tw idx t).
Proof.
  unfold process_trace.
  apply quiet_bind; [apply quiet_lift|]. intros v.
  apply quiet_bind; [apply quiet_dump|]. intros _.
  apply quiet_bind; [now apply quiet_emit|]. intros _.
  apply quiet_bind; [now apply quiet_emit|]. intros _.
  destruct (_ || _); [|apply quiet_raise].
  apply quiet_bind; [now apply quiet_emit | intros; apply quiet_ret].
Qed.

Lemma quiet_run_loop (a : args) (traces : list trace) :
  forall (idx : nat) (tw : PyDict.dict nat Z),
    quiet (run_loop float_str tensor_int a idx traces tw).
Proof.
  induction traces as [|t traces IH]; intros idx tw; cbn [run_loop].
  - apply quiet_ret.
  - apply quiet_bind; [apply quiet_process_trace | intros; apply IH].
Qed.

Lemma quiet_run_body (a : args) : quiet (run_body float_str tensor_int lib a).
Proof.
  unfold run_body.
  apply quiet_bind; [apply quiet_lift|]. intros d.
  apply quiet_bind; [apply quiet_lift|]. intros traces.
  apply quiet_bind; [apply quiet_run_loop|]. intros tw.
  apply quiet_bind; [now apply quiet_emit|]. intros _.
  apply quiet_bind; [now apply quiet_modify|]. intros _.
  apply quiet_bind; [now apply quiet_emit|]. intros _.
  apply quiet_bind; [apply quiet_lift | intros; now apply quiet_emit].
Qed.

Lemma quiet_zipdir (path dir_path : string) : quiet (zipdir path dir_path).
Proof. now apply quiet_emit. Qed.

Lemma quiet_run_except (a : args) (e : exn) : quiet (run_except a e).
Proof.
  unfold run_except. apply quiet_bind; [|intros; apply quiet_raise].
  destruct (compressed_file_path a); [|apply quiet_ret].
  apply quiet_bind; [now apply quiet_emit | intros; apply quiet_zipdir].
Qed.

(** The cleanup clause with a bound handle: its result and its events. *)
Lemma run_finally_bound (w : world) :
  run_finally lib (Some tt) w
  = match model_process lib with
    | Some pid =>
        match killpg lib pid with
        | Ok _ => (Ok tt, set_trail (trail w ++ cleanup_events lib) w)
        | Raise e =>
            (Raise e,
             set_trail (trail w ++ [EvPrint ("Done, killing model process: "
                                             +:+ PyStr.str_of_int pid)]) w)
        end
    | None => (Ok tt, w)
    end.
Proof.
  unfold run_finally, cleanup_events. destruct (model_process lib) as [pid|];
    [|reflexivity].
  erewrite M_bind_Ok by apply TraceFacts.emit_eq.
  destruct (killpg lib pid) as [[]|e].
  - erewrite M_bind_Ok by reflexivity. rewrite TraceFacts.emit_eq.
    cbn [set_trail trail]. unfold set_trail; cbn. now rewrite <- app_assoc.
  - now erewrite M_bind_Raise by reflexivity.
Qed.

(** [run] after the handle is bound, by the outcome of the body. *)
Lemma run_bound (a : args) (w : world) :
  RemoteModel_new lib = Ok tt ->
  run float_str tensor_int lib a w
  = let '(r1, w1) := run_body float_str tensor_int lib a w in
    let '(r2, w2) := match r1 with
                     | Ok tt => (Ok tt, w1)
                     | Raise e => run_except a e w1
                     end in
    match run_finally lib (Some tt) w2 with
    | (Raise e, w3) => (Raise e, w3)
    | (Ok tt, w3) =>
        match r2 with
        | Raise e => (Raise e, w3)
        | Ok tt =>
            match compressed_file_path a with
            | Some p => (emit (EvPrint "Compressing the output");; zipdir p (out_dir a)) w3
            | None => (Ok tt, w3)
            end
        end
    end.
Proof. intros Hnew. unfold run. now rewrite Hnew. Qed.

Lemma run_except_eq (a : args) (e : exn) (w : world) :
  run_except a e w = (Raise e, set_trail (trail w ++ failure_events a) w).
Proof.
  unfold run_except, failure_events, zipdir.
  destruct (compressed_file_path a) as [p|].
  - unfold mbind, M_bind, emit, modify, raise, set_trail; cbn.
    now rewrite <- app_assoc.
  - unfold mbind, M_bind, mret, M_ret, raise, set_trail; cbn.
    rewrite app_nil_r. now destruct w.
Qed.

Lemma archive_eq (a : args) (w : world) :
  match compressed_file_path a with
  | Some p => (emit (EvPrint "Compressing the output");; zipdir p (out_dir a)) w
  | None => (Ok tt, w)
  end = (Ok tt, set_trail (trail w ++ archive_events a) w).
Proof.
  unfold archive_events, zipdir. destruct (compressed_file_path a) as [p|].
  - unfold mbind, M_bind, emit, modify, set_trail; cbn. now rewrite <- app_assoc.
  - rewrite app_nil_r. now destruct w.
Qed.

Lemma run_signals (a : args) (w : world) :
  kills (snd (run float_str tensor_int lib a w)) = kills w + signals_sent lib.
Proof.
  unfold signals_sent.
  destruct (RemoteModel_new lib) as [[]|e0] eqn:Hnew.
  - rewrite (run_bound a w Hnew).
    pose proof (quiet_run_body a w) as Hbody.
    destruct (run_body float_str tensor_int lib a w) as [[[]|e] w1];
      cbn [snd] in Hbody; rewrite ?run_except_eq, run_finally_bound;
      unfold cleanup_events;
      (destruct (model_process lib) as [pid|];
       [destruct (killpg lib pid) as [[]|e1]|]);
      rewrite ?archive_eq; unfold kills in *;
      cbn [snd set_trail trail]; rewrite ?List.filter_app, ?length_app, Hbody;
      unfold archive_events, failure_events;
      destruct (compressed_file_path a); cbn; lia.
  - unfold run. rewrite Hnew, run_except_eq. cbn [run_finally]. unfold raise.
    unfold kills. cbn [snd set_trail trail]. rewrite List.filter_app, length_app.
    unfold failure_events. destruct (compressed_file_path a); cbn; lia.
Qed.

End Quiet.
End RunMore.

(** X12.  One call of [run] sends the termination signal at most once, on
    every path: exactly once when the model handle was built, a simulator
    process is recorded in it and the signal goes through, whether the body
    returned or raised; not at all when the constructor raised or no
    process is recorded. *)
Theorem run_signals_once (float_str : spec_float -> string)
    (tensor_int : Driver.tensor -> Driver.tensor) (lib : Driver.pyprob)
    (a : Config.args) (w : world) :
  RunSpec.kills (snd (Driver.run float_str tensor_int lib a w))
  = RunSpec.kills w + RunSpec.signals_sent lib
  /\ RunSpec.signals_sent lib <= 1.
Proof.
  split; [apply RunMore.run_signals|].
  unfold RunSpec.signals_sent.
  destruct (Driver.RemoteModel_new lib); [|lia].
  destruct (Driver.model_process lib) as [pid|]; [|lia].
  destruct (Driver.killpg lib pid); lia.
Qed.



(** X14.  When the body of [run] returns and the cleanup goes through,
    [run] returns: the simulator process is signalled first, then the output
    is archived under the configured name (when a staging directory is
    configured), and no archive with the suffix [_failed] is made. *)
Theorem run_archives_after_cleanup (float_str : spec_float -> string)
    (tensor_int : Driver.tensor -> Driver.tensor) (lib : Driver.pyprob)
    (a : Config.args) (w w1 : world) :
  Driver.RemoteModel_new lib = Ok tt ->
  Driver.run_body float_str tensor_int lib a w = (Ok tt, w1) ->
  RunSpec.cleanup_succeeds lib ->
  Driver.run float_str tensor_int lib a w
  = (Ok tt,
     set_trail (trail w1 ++ RunSpec.cleanup_events lib ++ RunSpec.archive_events a) w1).
Proof.
  intros Hnew Hbody Hclean. rewrite (RunMore.run_bound _ _ _ a w Hnew), Hbody.
  rewrite RunMore.run_finally_bound.
  unfold RunSpec.cleanup_succeeds, RunSpec.cleanup_events in *.
  destruct (Driver.model_process lib) as [pid|].
  - rewrite Hclean, RunMore.archive_eq. unfold set_trail; cbn. now rewrite <- app_assoc.
  - now rewrite RunMore.archive_eq.
Qed.

Lemma run_archives_after_cleanup_witness :
  Driver.run Samples.float_str_any Samples.tensor_int_trunc Samples.lib_three
    Samples.a_staged Samples.w_staged
  = (Ok tt,
     set_trail
       (trail (snd (Driver.run_body Samples.float_str_any Samples.tensor_int_trunc
                      Samples.lib_three Samples.a_staged Samples.w_staged))
        ++ [EvPrint "Done, killing model process: 4242"; EvKill 4242%Z;
            EvPrint "Compressing the output";
            EvZip "results/experiment_name/simulation_number.zip" "run"])
       (snd (Driver.run_body Samples.float_str_any Samples.tensor_int_trunc
               Samples.lib_three Samples.a_staged Samples.w_staged))).
Proof.
  apply (run_archives_after_cleanup Samples.float_str_any Samples.tensor_int_trunc
           Samples.lib_three Samples.a_staged Samples.w_staged).
  - reflexivity.
  - vm_compute. reflexivity.
  - reflexivity.
Defined.

(** X15.  When the signal to the simulator process raises (the process is
    gone, say), [run] ends with that exception, whatever the body did; after
    a body that returned, the output is then not archived. *)
Theorem run_cleanup_failure_wins (float_str : spec_float -> string)
    (tensor_int : Driver.tensor -> Driver.tensor) (lib : Driver.pyprob)
    (a : Config.args) (w : world) (pid : Z) (e' : exn) :
  Driver.RemoteModel_new lib = Ok tt ->
  Driver.model_process lib = Some pid ->
  Driver.killpg lib pid = Raise e' ->
  fst (Driver.run float_str tensor_int lib a w) = Raise e'
  /\ (forall w1 : world,
        Driver.run_body float_str tensor_int lib a w = (Ok tt, w1) ->
        trail (snd (Driver.run float_str tensor_int lib a w))
        = trail w1 ++ [EvPrint ("Done, killing model process: "
                                +:+ PyStr.str_of_int pid)]).
Proof.
  intros Hnew Hproc Hkill. rewrite (RunMore.run_bound _ _ _ a w Hnew). split.
  - destruct (Driver.run_body float_str tensor_int lib a w) as [[[]|e] w1];
      rewrite ?RunMore.run_except_eq, RunMore.run_finally_bound, Hproc, Hkill;
      reflexivity.
  - intros w1 Hbody. rewrite Hbody.
    now rewrite RunMore.run_finally_bound, Hproc, Hkill.
Qed.

Lemma run_cleanup_failure_wins_witness :
  fst (Driver.run Samples.float_str_any Samples.tensor_int_trunc Samples.lib_gone
         Samples.a_staged Samples.w_staged)
  = Raise (PlainException "no such process")
  /\ (forall w1 : world,
        Driver.run_body Samples.float_str_any Samples.tensor_int_trunc Samples.lib_gone
          Samples.a_staged Samples.w_staged = (Ok tt, w1) ->
        trail (snd (Driver.run Samples.float_str_any Samples.tensor_int_trunc
                      Samples.lib_gone Samples.a_staged Samples.w_staged))
        = trail w1 ++ [EvPrint ("Done, killing model process: "
                                +:+ PyStr.str_of_int 4242)]).
Proof.
  apply (run_cleanup_failure_wins Samples.float_str_any Samples.tensor_int_trunc
           Samples.lib_gone Samples.a_staged Samples.w_staged 4242%Z); reflexivity.
Defined.

(** * Further properties of the plots *)

Module PlotMore.
Import Plotting PlotSpec.

Lemma get_alphas_table (valid : list bool) (sel : selector) :
  get_alphas valid sel
  = match sel with
    | SelOther => Raise NotImplementedError
    | _ => Ok (alpha_of sel <$> valid)
    end.
Proof.
  unfold get_alphas. destruct sel; cbn [mbind result_bind]; try reflexivity;
    f_equal; apply list_fmap_ext; intros i [] _; reflexivity.
Qed.

Lemma alpha_of_range (sel : selector) (v : bool) :
  (0 <= alpha_of sel v)%Q /\ (alpha_of sel v <= 1 # 2)%Q.
Proof. destruct sel, v; split; vm_compute; discriminate. Qed.

Section Lines.
Context {X : Type} (add : X -> X -> X) (zero : X).

Lemma plot_each_lines (a : series (X := X)) (start : nat) (c : string) (k : Q)
    (alphas : list Q) (sims : list Z) (drawn : list (line (X := X))) :
  plot_each a start c k alphas sims = Ok drawn ->
  length drawn = length sims
  /\ Forall (fun l => exists al, al ∈ alphas /\ alpha l = Qred (k * al)) drawn.
Proof.
  revert drawn. induction sims as [|i sims IH]; intros drawn.
  - intros [= <-]. split; [reflexivity | constructor].
  - cbn [plot_each].
    destruct (column_from a start i) as [col|]; [|discriminate]. rewrite bind_Ok.
    destruct (np_axis_index (length alphas) i) as [j|]; [|discriminate].
    rewrite bind_Ok. unfold list_index.
    destruct (alphas !! j) as [al|] eqn:Hal; [|discriminate]. rewrite bind_Ok.
    destruct (plot_each a start c k alphas sims) as [rest|]; [|discriminate].
    rewrite bind_Ok. intros [= <-].
    destruct (IH rest eq_refl) as [Hlen Hall].
    split; [cbn [length]; now rewrite Hlen|].
    constructor; [|exact Hall].
    exists al. split; [|reflexivity]. eapply list_elem_of_lookup_2. exact Hal.
Qed.

Lemma Qred_scaled_range (k al : Q) :
  k = 1%Q \/ k = 2%Q -> (0 <= al)%Q -> (al <= 1 # 2)%Q ->
  (0 <= Qred (k * al))%Q /\ (Qred (k * al) <= 1)%Q.
Proof.
  intros Hk H0 H1. rewrite !Qred_correct.
  destruct Hk as [-> | ->]; split.
  - rewrite Qmult_1_l. exact H0.
  - rewrite Qmult_1_l. apply Qle_trans with (1 # 2)%Q; [exact H1 | discriminate].
  - apply Qmult_le_0_compat; [discriminate | exact H0].
  - apply Qle_trans with (2 * (1 # 2))%Q; [|discriminate].
    apply Qmult_le_l; [reflexivity | exact H1].
Qed.

(** What a plot that returns has drawn. *)
Lemma trajectory_plot_lines (sims : list Z) (r : results (X := X))
    (valid : list bool) (sel : selector) (start : nat)
    (drawn : list (line (X := X))) :
  make_trajectory_plot add zero sims r valid sel start = Ok drawn ->
  length drawn = 5 * length (select_sims sims valid)
  /\ Forall (fun l => (0 <= alpha l)%Q /\ (alpha l <= 1)%Q) drawn.
Proof.
  unfold make_trajectory_plot. rewrite get_alphas_table.
  destruct sel; try discriminate;
    (rewrite bind_Ok;
     destruct (get_statistics add zero r) as [[[[[p s] e] i] rr]|]; [|discriminate];
     rewrite bind_Ok;
     repeat match goal with
            | |- context [plot_each ?a ?st ?c ?k ?al ?l] =>
                let H := fresh "Hp" in
                let d := fresh "d" in
                destruct (plot_each a st c k al l) as [d|] eqn:H; [|discriminate];
                rewrite bind_Ok; apply plot_each_lines in H
            end;
     intros [= <-]; split;
     [rewrite !length_app; lia|];
     repeat (apply Forall_app; split);
     (eapply Forall_impl; [intuition eassumption|]);
     intros l (al & Hin & ->);
     apply list_elem_of_fmap in Hin as (v & -> & _);
     (apply Qred_scaled_range;
      [ (left; reflexivity) || (right; reflexivity) | apply alpha_of_range.. ])).
Qed.

End Lines.

Lemma select_sims_bounded (sims : list Z) (valid : list bool) :
  length (select_sims sims valid) <= length sims.
Proof.
  unfold select_sims. destruct (length valid <? length sims)%nat eqn:H; [|lia].
  apply Nat.ltb_lt in H. rewrite length_fmap, length_seq. lia.
Qed.

Section Statistics.
Context {X : Type} (add : X -> X -> X) (zero : X).

Lemma get_statistics_shape (r : results (X := X)) :
  match get_statistics add zero r with
  | Ok (p, s, e, i, rr) =>
      7 <= r_compartments r
      /\ Forall (fun a : series (X := X) =>
                   n_time a = r_time r /\ n_sims a = r_sims r) [p; s; e; i; rr]
  | Raise err => err = IndexError /\ r_compartments r < 7
  end.
Proof.
  unfold get_statistics, compartment.
  destruct (Nat.le_gt_cases 7 (r_compartments r)) as [Hge|Hlt].
  - repeat match goal with
           | |- context [(?k <? r_compartments r)%nat] =>
               replace (k <? r_compartments r)%nat with true
                 by (symmetry; apply Nat.ltb_lt; lia)
           end.
    rewrite !bind_Ok. split; [exact Hge|]. repeat constructor.
  - destruct (r_compartments r) as [|[|[|[|[|[|[|n]]]]]]]; try lia;
      cbn; split; (reflexivity || lia).
Qed.

End Statistics.

Section PolicyFacts.
Import Policy.
Context {A R : Type} (axe_plot : A -> R -> string -> result unit).

Lemma policy_curves_closed (alpha : A) (beta : list R) (valid : list bool) :
  Forall (fun row => forall col, axe_plot alpha row col = Ok tt) beta ->
  forall (i : nat) (drawn : list curve),
    i <= length beta ->
    policy_curves axe_plot alpha beta i valid drawn
    = (if (length valid <=? length beta - i)%nat then Ok tt else Raise IndexError,
       drawn ++ curves_of alpha valid (drop i beta)).
Proof.
  intros Hacc. induction valid as [|v valid IH]; intros i drawn Hi.
  - cbn. now rewrite List.app_nil_r.
  - cbn [policy_curves length]. unfold list_index.
    destruct (beta !! i) as [row|] eqn:Hrow.
    + rewrite (proj1 (Forall_lookup _ _) Hacc i row Hrow).
      pose proof (lookup_lt_Some _ _ _ Hrow) as Hlt.
      rewrite IH by lia. rewrite (drop_S beta row i Hrow).
      unfold curves_of. cbn [zip_with]. rewrite <- List.app_assoc. cbn [app].
      f_equal.
      destruct (Nat.leb_spec (length valid) (length beta - S i)),
               (Nat.leb_spec (S (length valid)) (length beta - i));
        try reflexivity; lia.
    + apply lookup_ge_None in Hrow.
      rewrite drop_ge by lia. unfold curves_of.
      rewrite zip_with_nil_r.
      destruct (Nat.leb_spec (S (length valid)) (length beta - i)); [lia|].
      now rewrite List.app_nil_r.
Qed.

Lemma policy_curves_refused (alpha : A) (beta : list R) (valid : list bool)
    (e : exn) :
  forall (i : nat) (drawn : list curve) (row : R) (v : bool),
    beta !! i = Some row -> valid !! 0 = Some v ->
    axe_plot alpha row (colour_of v) = Raise e ->
    policy_curves axe_plot alpha beta i valid drawn = (Raise e, drawn).
Proof.
  intros i drawn row v Hrow Hv Hplot. destruct valid as [|v' valid]; [discriminate|].
  cbn in Hv. injection Hv as ->. cbn [policy_curves]. unfold list_index.
  now rewrite Hrow, Hplot.
Qed.

End PolicyFacts.
End PlotMore.

(** X16.  The transparencies of [get_alphas], for every validity mask:
    one per simulation; without a selector a valid simulation gets 0.5 and
    an invalid one 0.25; with the selector [True] a valid one gets 0.5 and an
    invalid one 0; with the selector [False] every simulation gets 0.5, the
    valid ones included; any other selector raises [NotImplementedError]. *)
Theorem get_alphas_by_selector (valid : list bool) (sel : Plotting.selector) :
  Plotting.get_alphas valid sel
  = match sel with
    | Plotting.SelOther => Raise NotImplementedError
    | _ => Ok (PlotSpec.alpha_of sel <$> valid)
    end
  /\ Plotting.get_alphas valid Plotting.SelFalse = Ok (replicate (length valid) (1 # 2)%Q).
Proof.
  split; [apply PlotMore.get_alphas_table|].
  rewrite PlotMore.get_alphas_table. f_equal.
  induction valid as [|v valid IH]; [reflexivity|].
  rewrite fmap_cons. cbn [length replicate]. now rewrite IH.
Qed.

(** X17.  A trajectory plot that returns has drawn five dashed lines for
    each selected simulation, at most 500 of them in all, and the
    transparency of every such line lies between 0 and 1 (the doubled
    transparency of the infectious series included). *)
Theorem trajectory_plot_lines_drawn (sims : list Z)
    (r : Plotting.results (X := Q)) (valid : list bool) (sel : Plotting.selector)
    (start : nat) (drawn : list (Plotting.line (X := Q))) :
  Plotting.is_draw sims ->
  Plotting.make_trajectory_plot Qplus 0%Q sims r valid sel start = Ok drawn ->
  length drawn = 5 * length (Plotting.select_sims sims valid)
  /\ length drawn <= 500
  /\ Forall (fun l => (0 <= Plotting.alpha l)%Q /\ (Plotting.alpha l <= 1)%Q) drawn.
Proof.
  intros [Hlen _] Hplot.
  destruct (PlotMore.trajectory_plot_lines Qplus 0%Q sims r valid sel start drawn Hplot)
    as [Hcount Halpha].
  split; [exact Hcount|]. split; [|exact Halpha].
  pose proof (PlotMore.select_sims_bounded sims valid) as Hb.
  rewrite Hlen in Hb. unfold Plotting.n_sims_to_plot in Hb. lia.
Qed.

Lemma trajectory_plot_lines_drawn_witness :
  exists drawn,
    Plotting.make_trajectory_plot Qplus 0%Q Samples.draw_999 Samples.results_3
      Samples.valid_3 Plotting.SelTrue 0 = Ok drawn
    /\ length drawn = 5 * length (Plotting.select_sims Samples.draw_999 Samples.valid_3)
    /\ length drawn <= 500
    /\ Forall (fun l => (0 <= Plotting.alpha l)%Q /\ (Plotting.alpha l <= 1)%Q) drawn.
Proof.
  destruct (Plotting.make_trajectory_plot Qplus 0%Q Samples.draw_999
              Samples.results_3 Samples.valid_3 Plotting.SelTrue 0)
    as [drawn|e] eqn:Hplot.
  - exists drawn. split; [reflexivity|].
    apply (trajectory_plot_lines_drawn Samples.draw_999 Samples.results_3
             Samples.valid_3 Plotting.SelTrue 0 drawn); [|exact Hplot].
    split; [reflexivity|]. unfold Samples.draw_999. constructor; [lia|].
    apply Forall_replicate. lia.
  - vm_compute in Hplot. discriminate.
Defined.

(** X18.  [get_statistics] needs seven compartments: with fewer it raises
    [IndexError]; otherwise it returns, and each of the five series has the
    time steps and the simulations of the results. *)
Theorem get_statistics_needs_seven (r : Plotting.results (X := Q)) :
  match Plotting.get_statistics Qplus 0%Q r with
  | Ok (p, s, e, i, rr) =>
      7 <= Plotting.r_compartments r
      /\ Forall (fun a : Plotting.series (X := Q) =>
                   Plotting.n_time a = Plotting.r_time r
                   /\ Plotting.n_sims a = Plotting.r_sims r) [p; s; e; i; rr]
  | Raise err => err = IndexError /\ Plotting.r_compartments r < 7
  end.
Proof. apply PlotMore.get_statistics_shape. Qed.

(** X19.  When the axes accept every row, [make_policy_plot] draws the
    curves of the simulations in their order, each with the row of its
    simulation, green when the simulation is valid and red when it is not.
    With a row for every simulation it returns; with fewer rows than
    simulations it raises [IndexError], and the curves of the simulations
    that have a row are on the axes by then. *)
Theorem policy_plot_curves {A R : Type}
    (axe_plot : A -> R -> string -> result unit) (alpha : A) (beta : list R)
    (valid : list bool) :
  Forall (fun row => forall col, axe_plot alpha row col = Ok tt) beta ->
  Policy.make_policy_plot axe_plot alpha beta valid
  = (if (length valid <=? length beta)%nat then Ok tt else Raise IndexError,
     Policy.curves_of alpha valid beta)
  /\ length (Policy.curves_of alpha valid beta) = min (length valid) (length beta).
Proof.
  intros Hacc. split.
  - unfold Policy.make_policy_plot.
    rewrite (PlotMore.policy_curves_closed axe_plot alpha beta valid Hacc 0 []) by lia.
    now rewrite Nat.sub_0_r, drop_0.
  - unfold Policy.curves_of. apply length_zip_with.
Qed.

Lemma policy_plot_curves_witness :
  Policy.make_policy_plot Samples.axes_accept [0; 1]%Z [[3; 4]; [5; 6]]%Z
    [true; false; true]
  = (Raise IndexError,
     [Policy.Curve [0; 1]%Z [3; 4]%Z "green"; Policy.Curve [0; 1]%Z [5; 6]%Z "red"])
  /\ length (Policy.curves_of [0; 1]%Z [true; false; true] [[3; 4]; [5; 6]]%Z) = 2.
Proof.
  apply (policy_plot_curves Samples.axes_accept [0; 1]%Z [[3; 4]; [5; 6]]%Z
           [true; false; true]).
  repeat constructor.
Defined.
